(** * Hospital management dashboard

    A shallow embedding of [app_backup.py] (the interactive dashboard) and
    [database_setup.py] (the standalone seeding script), and the properties
    of the bootstrap, of the canned-question dispatcher, of the write forms
    and of the revenue report.

    Conventions of the embedding.
    - Text is [string]; one [ascii] stands for one character (code points
      below 256), as typed into a form widget.
    - A nullable SQL column is an [option]; [None] is NULL.
    - A column holds values of its declared type, or NULL.  A REAL column
      ([consultation_fee]) holds a double, [Real.t], and its arithmetic is
      that of IEEE 754 binary64; an integer written to it is converted.
      The integers that the programs write come from the seed rows and from
      number widgets with bounds (a fee between 0 and 10000), well inside
      the 64 bits of SQLite.
    - A Python exception is a value of [Py.exn]; code that can raise returns
      a [Py.result].
    - The storage file is a [Sql.store]; a table that has not been created
      is [None]. *)

From Stdlib Require Import ZArith List String Ascii Bool Lia DecimalString.
From Stdlib Require Import SpecFloat.
Import ListNotations.
Local Open Scope string_scope.
Local Open Scope Z_scope.

(** ** Python values: text, exceptions *)

Module Py.

(** [needle in hay] on [str]. *)
Fixpoint contains (needle hay : string) : bool :=
  prefix needle hay
  || match hay with
     | EmptyString => false
     | String _ rest => contains needle rest
     end.

(** [str.lower] on one character: A-Z, and the capital letters of the
    Latin-1 block (U+00C0..U+00DE but the multiplication sign U+00D7). *)
Definition lower_char (c : ascii) : ascii :=
  let n := N_of_ascii c in
  if ((65 <=? n) && (n <=? 90)
      || (192 <=? n) && (n <=? 222) && negb (n =? 215))%N
  then ascii_of_N (n + 32)
  else c.

Fixpoint lower (s : string) : string :=
  match s with
  | EmptyString => EmptyString
  | String c rest => String (lower_char c) (lower rest)
  end.

(** [str(n)] of an [int]. *)
Definition str_int (n : Z) : string := NilZero.string_of_int (Z.to_int n).

(** The exception classes that the two programs can meet.  All of them
    derive from [Exception]; the two [sqlite3] ones derive from
    [sqlite3.DatabaseError] ([OperationalError] is a subclass of it). *)
Inductive exn : Type :=
| SqliteOperationalError (msg : string)
| SqliteDatabaseError (msg : string)
| PandasDatabaseError (msg : string)
| IndexError (msg : string)
| TypeError (msg : string)
| UnboundLocalError (msg : string).

(** [str(e)]. *)
Definition str (e : exn) : string :=
  match e with
  | SqliteOperationalError m | SqliteDatabaseError m | PandasDatabaseError m
  | IndexError m | TypeError m | UnboundLocalError m => m
  end.

(** [isinstance(e, sqlite3.DatabaseError)]: what
    [except sqlite3.DatabaseError] catches. *)
Definition is_sqlite_DatabaseError (e : exn) : bool :=
  match e with
  | SqliteOperationalError _ | SqliteDatabaseError _ => true
  | _ => false
  end.

Inductive result (A : Type) : Type :=
| Ok (a : A)
| Raise (e : exn).
Arguments Ok {A} a.
Arguments Raise {A} e.

Definition bind {A B} (r : result A) (k : A -> result B) : result B :=
  match r with
  | Ok a => k a
  | Raise e => Raise e
  end.

End Py.

Notation "x <- r ;; k" := (Py.bind r (fun x => k))
  (at level 61, r at next level, right associativity).

(** ** REAL values: IEEE 754 binary64 *)

Module Real.

Definition prec : Z := 53.
Definition emax : Z := 1024.

(** A double as SQLite holds it: a number or an infinity; [Finite s m e]
    is (-1)^s * m * 2^e.  There is no NaN among the values of SQLite: an
    operation whose result is NaN gives NULL.  The doubles of a table have
    a canonical mantissa and exponent, and their zero has no sign (a REAL
    column hands back 0.0 for -0.0), so that one number is one value. *)
Inductive t : Type :=
| Zero (negative : bool)
| Infinity (negative : bool)
| Finite (negative : bool) (m : positive) (e : Z).

Definition to_spec (x : t) : spec_float :=
  match x with
  | Zero s => S754_zero s
  | Infinity s => S754_infinity s
  | Finite s m e => S754_finite s m e
  end.

(** NaN becomes NULL. *)
Definition of_spec (f : spec_float) : option t :=
  match f with
  | S754_zero s => Some (Zero s)
  | S754_infinity s => Some (Infinity s)
  | S754_finite s m e => Some (Finite s m e)
  | S754_nan => None
  end.

(** The double nearest to an integer (ties to even): what becomes of an
    integer in a REAL column or next to a double in an operation. *)
Definition of_int (n : Z) : t :=
  match of_spec (binary_normalize prec emax n 0 false) with
  | Some x => x
  | None => Zero false
  end.

(** [x * y] of two doubles. *)
Definition mul (x y : t) : option t :=
  of_spec (SFmul prec emax (to_spec x) (to_spec y)).

(** [AVG] over the doubles of a column, as SQLite 3.40 computes it: the
    values are added to 0.0 one after the other in the order of the
    table, each sum rounded to a double, and the total is divided by
    their number.  NULL when there is no value, or when the result is
    NaN. *)
Definition avg (l : list t) : option t :=
  match l with
  | [] => None
  | _ =>
      of_spec
        (SFdiv prec emax
           (fold_left (fun total x => SFadd prec emax total (to_spec x)) l
                      (S754_zero false))
           (to_spec (of_int (Z.of_nat (List.length l)))))
  end.

(** [x < y] on doubles. *)
Definition ltb (x y : t) : bool := SFltb (to_spec x) (to_spec y).

(** The same double. *)
Definition eqb (x y : t) : bool :=
  match x, y with
  | Zero a, Zero b => Bool.eqb a b
  | Infinity a, Infinity b => Bool.eqb a b
  | Finite a m e, Finite b m' e' => Bool.eqb a b && Pos.eqb m m' && Z.eqb e e'
  | _, _ => false
  end.

(** The magnitude of a finite double as a fraction of integers. *)
Definition numerator (m : positive) (e : Z) : Z :=
  if 0 <=? e then Z.pos m * 2 ^ e else Z.pos m.

Definition denominator (e : Z) : Z :=
  if 0 <=? e then 1 else 2 ^ (- e).

End Real.

(** ** The storage engine: tables, AUTOINCREMENT, LIKE, the file *)

Module Sql.
Import Py.

(** A table: its rows in rowid order, and its [sqlite_sequence] entry,
    the largest rowid that AUTOINCREMENT has handed out. *)
Record table (R : Type) : Type := { rows : list R; seq : Z }.
Arguments rows {R} t.
Arguments seq {R} t.

Definition empty_table {R} : table R := {| rows := []; seq := 0 |}.

(** [CREATE TABLE IF NOT EXISTS]. *)
Definition create_table_if_not_exists {R}
    (t : option (table R)) : option (table R) :=
  match t with
  | Some _ => t
  | None => Some empty_table
  end.

(** Rows of a table for row counts: a missing table holds none. *)
Definition contents {R} (t : option (table R)) : list R :=
  match t with
  | Some t => rows t
  | None => []
  end.

Definition MAX_ROWID : Z := 9223372036854775807.

Definition largest (ids : list Z) : option Z :=
  match ids with
  | [] => None
  | i :: rest => Some (fold_left Z.max rest i)
  end.

(** The rowid of a row inserted into an [INTEGER PRIMARY KEY
    AUTOINCREMENT] table: one more than the largest rowid the table
    holds or has ever held; when that is the largest 64-bit integer the
    insert fails with SQLITE_FULL. *)
Definition new_rowid {R} (rowid : R -> Z) (t : table R) : result Z :=
  let full := Raise (SqliteOperationalError "database or disk is full") in
  let v := match largest (map rowid (rows t)) with
           | None => Some 1
           | Some m => if m =? MAX_ROWID then None else Some (m + 1)
           end in
  match v with
  | None => full
  | Some v =>
      if seq t =? MAX_ROWID then full
      else Ok (if v <? seq t + 1 then seq t + 1 else v)
  end.

(** [INSERT INTO t (...) VALUES (...)]: [mk] builds the row from the
    rowid it is given. *)
Definition insert {R} (rowid : R -> Z) (mk : Z -> R) (t : table R)
    : result (table R) :=
  id <- new_rowid rowid t ;;
  Ok {| rows := rows t ++ [mk id]; seq := id |}.

(** [cursor.executemany]: one insert per parameter tuple, in order. *)
Fixpoint executemany {R} (rowid : R -> Z) (mks : list (Z -> R))
    (t : table R) : result (table R) :=
  match mks with
  | [] => Ok t
  | mk :: rest => t' <- insert rowid mk t ;; executemany rowid rest t'
  end.

(** The comparison behind LIKE with the default settings: [%] stands for
    any run of characters, [_] for one character, any other character for
    itself without regard to the case of ASCII letters. *)
Definition fold_ascii (c : ascii) : ascii :=
  let n := N_of_ascii c in
  if ((65 <=? n) && (n <=? 90))%N then ascii_of_N (n + 32) else c.

Fixpoint pattern_compare (pattern : string) : string -> bool :=
  match pattern with
  | EmptyString =>
      fun s => match s with EmptyString => true | _ => false end
  | String p pattern' =>
      if Ascii.eqb p "%" then
        fix run (s : string) : bool :=
          pattern_compare pattern' s
          || match s with
             | EmptyString => false
             | String _ s' => run s'
             end
      else if Ascii.eqb p "_" then
        fun s => match s with
                 | EmptyString => false
                 | String _ s' => pattern_compare pattern' s'
                 end
      else
        fun s => match s with
                 | EmptyString => false
                 | String c s' =>
                     Ascii.eqb (fold_ascii p) (fold_ascii c)
                     && pattern_compare pattern' s'
                 end
  end.

(** A text as the comparison reads it: up to its first NUL.  Python hands
    a text over with its length, so that a stored text can hold a NUL;
    LIKE takes its operands as C strings. *)
Fixpoint c_string (s : string) : string :=
  match s with
  | EmptyString => EmptyString
  | String c rest =>
      if Ascii.eqb c Ascii.zero then EmptyString
      else String c (c_string rest)
  end.

(** [x LIKE pattern] on two texts. *)
Definition like (pattern x : string) : bool :=
  pattern_compare (c_string pattern) (c_string x).

(** The length of a text in bytes of UTF-8; the characters of this model
    are those below U+0100. *)
Fixpoint utf8_bytes (s : string) : Z :=
  match s with
  | EmptyString => 0
  | String c rest =>
      (if (N_of_ascii c <? 128)%N then 1 else 2) + utf8_bytes rest
  end.

Definition SQLITE_LIMIT_LIKE_PATTERN_LENGTH : Z := 50000.

(** The SQL function behind [x LIKE pattern], called once for every row
    that the statement looks at: a pattern of more bytes than the limit is
    an error, whatever [x] is; NULL matches nothing. *)
Definition like_func (pattern : string) (x : option string) : result bool :=
  if SQLITE_LIMIT_LIKE_PATTERN_LENGTH <? utf8_bytes pattern then
    Raise (SqliteOperationalError "LIKE or GLOB pattern too complex")
  else
    Ok match x with Some x => like pattern x | None => false end.

(** [WHERE] with a condition that can fail: the rows are looked at in
    order, and the first failure ends the statement. *)
Fixpoint select_where {R} (condition : R -> result bool) (l : list R)
    : result (list R) :=
  match l with
  | [] => Ok []
  | r :: rest =>
      b <- condition r ;;
      rest' <- select_where condition rest ;;
      Ok (if b then r :: rest' else rest')
  end.

(** The file behind [sqlite3.connect(path)]. *)
Inductive store (D : Type) : Type :=
| Absent                (* no file at the path *)
| Healthy (db : D)      (* a well-formed database file *)
| NotADatabase          (* a file whose bytes are not a database *)
| Unopenable.           (* a path that cannot be opened as a file *)
Arguments Absent {D}.
Arguments Healthy {D} db.
Arguments NotADatabase {D}.
Arguments Unopenable {D}.

(** An open connection.  Opening reads nothing: a file that is not a
    database opens as well as any other. *)
Inductive connection (D : Type) : Type :=
| OnDatabase (db : D)
| OnGarbage.
Arguments OnDatabase {D} db.
Arguments OnGarbage {D}.

(** [sqlite3.connect]: creates the (empty) file when there is none. *)
Definition connect {D} (empty : D) (s : store D) : result (connection D) :=
  match s with
  | Absent => Ok (OnDatabase empty)
  | Healthy db => Ok (OnDatabase db)
  | NotADatabase => Ok OnGarbage
  | Unopenable =>
      Raise (SqliteOperationalError "unable to open database file")
  end.

(** The file as an open connection leaves it. *)
Definition file_of {D} (c : connection D) : store D :=
  match c with
  | OnDatabase db => Healthy db
  | OnGarbage => NotADatabase
  end.

(** A statement that reads or writes the schema or a table reads the
    file first. *)
Definition read_file {D} (c : connection D) : result D :=
  match c with
  | OnDatabase db => Ok db
  | OnGarbage => Raise (SqliteDatabaseError "file is not a database")
  end.

(** [SELECT 1] names no table: it is compiled and run without the file
    being read, and succeeds on every open connection. *)
Definition select_1 {D} (c : connection D) : result unit := Ok tt.

(** [os.path.exists(path)] then [os.remove(path)]. *)
Definition remove_if_exists {D} (s : store D) : store D :=
  match s with
  | Absent => Absent      (* nothing at the path: nothing to remove *)
  | _ => Absent           (* the file is deleted *)
  end.

(** The statements below meet a table that may not exist. *)
Definition no_such_table {A} (name : string) : result A :=
  Raise (SqliteOperationalError ("no such table: " ++ name)).

Definition from_table {R} (name : string) (t : option (table R))
    : result (list R) :=
  match t with
  | Some t => Ok (rows t)
  | None => no_such_table name
  end.

Definition insert_into {R} (name : string) (rowid : R -> Z)
    (mks : list (Z -> R)) (t : option (table R))
    : result (option (table R)) :=
  match t with
  | Some t => t' <- executemany rowid mks t ;; Ok (Some t')
  | None => no_such_table name
  end.

End Sql.

(** ** app_backup.py: schema and bootstrap *)

Module Department.
Record t : Type :=
  { dept_id : Z; dept_name : string; location : option string }.
End Department.

Module Doctor.
Record t : Type :=
  { doctor_id : Z;
    name : string;
    specialization : option string;
    dept_id : option Z;
    phone : option string;
    email : option string;
    experience : option Z;
    consultation_fee : option Real.t }.
End Doctor.

Module Patient.
Record t : Type :=
  { patient_id : Z;
    name : string;
    age : option Z;
    gender : option string;
    phone : option string;
    email : option string;
    address : option string;
    blood_group : option string;
    registration_date : option string }.
End Patient.

Module Appointment.
Record t : Type :=
  { appointment_id : Z;
    patient_id : option Z;
    doctor_id : option Z;
    appointment_date : option string;
    appointment_time : option string;
    status : option string;
    reason : option string }.
End Appointment.

Module App.
Import Py Sql.

Record database : Type :=
  { departments : option (table Department.t);
    doctors : option (table Doctor.t);
    patients : option (table Patient.t);
    appointments : option (table Appointment.t) }.

(** A database file without any table: what [connect] creates. *)
Definition empty_database : database :=
  {| departments := None; doctors := None;
     patients := None; appointments := None |}.

(** The INSERT statements of the program, each from its parameter
    tuple. *)
Definition insert_department '((n, l) : string * string) (id : Z)
    : Department.t :=
  {| Department.dept_id := id; Department.dept_name := n;
     Department.location := Some l |}.

Definition insert_doctor
    '((n, s, d, ph, em, ex, fee)
      : string * string * option Z * string * string * Z * Z)
    (id : Z) : Doctor.t :=
  {| Doctor.doctor_id := id; Doctor.name := n;
     Doctor.specialization := Some s; Doctor.dept_id := d;
     Doctor.phone := Some ph; Doctor.email := Some em;
     Doctor.experience := Some ex;
     Doctor.consultation_fee := Some (Real.of_int fee) |}.

Definition insert_patient
    '((n, a, g, ph, em, ad, b, r)
      : string * Z * string * string * string * string * string * string)
    (id : Z) : Patient.t :=
  {| Patient.patient_id := id; Patient.name := n; Patient.age := Some a;
     Patient.gender := Some g; Patient.phone := Some ph;
     Patient.email := Some em; Patient.address := Some ad;
     Patient.blood_group := Some b; Patient.registration_date := Some r |}.

Definition insert_appointment
    '((p, d, date, time, st, r)
      : option Z * option Z * string * string * string * string)
    (id : Z) : Appointment.t :=
  {| Appointment.appointment_id := id; Appointment.patient_id := p;
     Appointment.doctor_id := d; Appointment.appointment_date := Some date;
     Appointment.appointment_time := Some time;
     Appointment.status := Some st; Appointment.reason := Some r |}.

(** The sample rows of [init_db]. *)
Definition depts : list (string * string) :=
  [ ("Cardiology", "Building A"); ("Neurology", "Building B");
    ("Orthopedics", "Building C"); ("Pediatrics", "Building D");
    ("Emergency", "Building E") ].

Definition seed_doctors
    : list (string * string * option Z * string * string * Z * Z) :=
  [ ("Dr. Ahmed Khan", "Cardiologist", Some 1, "0300-1234567",
     "ahmed@hospital.com", 15, 2000);
    ("Dr. Sara Ali", "Neurologist", Some 2, "0301-2345678",
     "sara@hospital.com", 10, 2500);
    ("Dr. Hassan Raza", "Orthopedic Surgeon", Some 3, "0302-3456789",
     "hassan@hospital.com", 12, 1800);
    ("Dr. Fatima Noor", "Pediatrician", Some 4, "0303-4567890",
     "fatima@hospital.com", 8, 1500);
    ("Dr. Usman Malik", "Emergency Physician", Some 5, "0304-5678901",
     "usman@hospital.com", 7, 1200) ].

Definition seed_patients
    : list (string * Z * string * string * string * string * string
            * string) :=
  [ ("Ali Hassan", 35, "Male", "0311-1111111", "ali@email.com",
     "Karachi", "O+", "2024-01-15");
    ("Ayesha Khan", 28, "Female", "0312-2222222", "ayesha@email.com",
     "Lahore", "A+", "2024-01-20");
    ("Bilal Ahmed", 42, "Male", "0313-3333333", "bilal@email.com",
     "Islamabad", "B+", "2024-02-10");
    ("Zainab Ali", 55, "Female", "0314-4444444", "zainab@email.com",
     "Karachi", "AB+", "2024-02-15");
    ("Hamza Malik", 30, "Male", "0315-5555555", "hamza@email.com",
     "Lahore", "O-", "2024-03-01") ].

Definition seed_appointments
    : list (option Z * option Z * string * string * string * string) :=
  [ (Some 1, Some 1, "2024-03-15", "10:00 AM", "Completed", "Chest pain");
    (Some 2, Some 2, "2024-03-16", "11:00 AM", "Completed", "Headache");
    (Some 3, Some 3, "2024-03-17", "02:00 PM", "Scheduled", "Knee pain");
    (Some 4, Some 4, "2024-03-18", "09:00 AM", "Scheduled",
     "Child checkup");
    (Some 5, Some 5, "2024-03-19", "03:00 PM", "Cancelled", "Emergency") ].

(** The four [CREATE TABLE IF NOT EXISTS] statements. *)
Definition create_tables (db : database) : database :=
  {| departments := create_table_if_not_exists (departments db);
     doctors := create_table_if_not_exists (doctors db);
     patients := create_table_if_not_exists (patients db);
     appointments := create_table_if_not_exists (appointments db) |}.

(** The four [executemany] calls under [if c.fetchone()[0] == 0]. *)
Definition seed (db : database) : result database :=
  de <- insert_into "departments" Department.dept_id
          (map insert_department depts) (departments db) ;;
  dr <- insert_into "doctors" Doctor.doctor_id
          (map insert_doctor seed_doctors) (doctors db) ;;
  pa <- insert_into "patients" Patient.patient_id
          (map insert_patient seed_patients) (patients db) ;;
  ap <- insert_into "appointments" Appointment.appointment_id
          (map insert_appointment seed_appointments) (appointments db) ;;
  Ok {| departments := de; doctors := dr;
        patients := pa; appointments := ap |}.

(** [init_db] from its first [CREATE TABLE] on, on the connection the
    first lines have left in [conn].  The DDL statements take effect as
    they run; the inserts are one transaction, given up when one of them
    raises and made durable by [conn.commit()]. *)
Definition bootstrap (conn : connection database)
    : store database * result unit :=
  match read_file conn with
  | Raise e => (file_of conn, Raise e)
  | Ok db =>
      let db := create_tables db in
      match from_table "departments" (departments db) with
      | Raise e => (Healthy db, Raise e)
      | Ok ds =>
          if Z.of_nat (List.length ds) =? 0 then
            match seed db with
            | Ok db' => (Healthy db', Ok tt)
            | Raise e => (Healthy db, Raise e)
            end
          else (Healthy db, Ok tt)
      end
  end.

(** How the [try] block of [init_db] ends: which of its statements
    raised, and whether [conn] was bound by then. *)
Inductive probe : Type :=
| ConnectRaised (e : exn)
| ProbeRaised (conn : connection database) (e : exn)
| Probed (conn : connection database).

Definition try_probe (s : store database) : probe :=
  match connect empty_database s with
  | Raise e => ConnectRaised e
  | Ok conn =>
      match select_1 conn with
      | Raise e => ProbeRaised conn e
      | Ok _ => Probed conn
      end
  end.

(** [init_db()]: the file it leaves and how it ends. *)
Definition init_db (s : store database) : store database * result unit :=
  match try_probe s with
  | Probed conn => bootstrap conn
  | ProbeRaised conn e =>
      if is_sqlite_DatabaseError e then
        (* conn.close(); os.remove(DB_NAME); conn = sqlite3.connect(DB_NAME) *)
        let s' := remove_if_exists (file_of conn) in
        match connect empty_database s' with
        | Ok conn' => bootstrap conn'
        | Raise e' => (s', Raise e')
        end
      else (file_of conn, Raise e)
  | ConnectRaised e =>
      if is_sqlite_DatabaseError e then
        (* conn.close() with conn never assigned *)
        (s, Raise (UnboundLocalError
              "cannot access local variable 'conn' where it is not associated with a value"))
      else (s, Raise e)
  end.

(** ** app_backup.py: the canned-question dispatcher *)

(** A [pandas.DataFrame] as the queries fill it. *)
Inductive value : Type :=
| Null
| Int (n : Z)
| Text (s : string).

Record frame : Type := { columns : list string; records : list (list value) }.

Definition of_int (o : option Z) : value :=
  match o with Some n => Int n | None => Null end.

Definition of_text (o : option string) : value :=
  match o with Some s => Text s | None => Null end.

(** [pd.read_sql(sql, conn)]: the statement is run on the connection, and
    whatever it raises is wrapped in pandas' own [DatabaseError].  [run] is
    the meaning of the statement [sql]. *)
Definition read_sql {A} (sql : string) (run : database -> result A)
    (conn : connection database) : result A :=
  match db <- read_file conn ;; run db with
  | Ok a => Ok a
  | Raise e =>
      Raise (PandasDatabaseError
               ("Execution failed on sql '" ++ sql ++ "': " ++ str e))
  end.

(** [x = y] of SQL on a nullable and a non-null integer: NULL equals
    nothing. *)
Definition eq_id (x : option Z) (y : Z) : bool :=
  match x with Some x => x =? y | None => false end.

(** [x LIKE pattern] on a nullable text, for a pattern within the limit
    of [like_func]. *)
Definition like_null (pattern : string) (x : option string) : bool :=
  match x with Some x => like pattern x | None => false end.

(** [ORDER BY ... DESC]: a stable insertion sort; [lt x y] says that [x]
    sorts below [y].  SQL leaves the order of rows that compare equal
    open. *)
Fixpoint insert_desc {A} (lt : A -> A -> bool) (x : A) (l : list A)
    : list A :=
  match l with
  | [] => [x]
  | y :: l' => if lt x y then y :: insert_desc lt x l' else x :: l
  end.

Definition order_by_desc {A} (lt : A -> A -> bool) (l : list A) : list A :=
  fold_right (insert_desc lt) [] l.

(** [FROM doctors d LEFT JOIN appointments a ON d.doctor_id = a.doctor_id]:
    every doctor with each of their appointments, and a doctor without any
    once, with NULLs for the appointment. *)
Definition left_join_appointments (ds : list Doctor.t)
    (aps : list Appointment.t) : list (Doctor.t * option Appointment.t) :=
  flat_map
    (fun d =>
       match filter (fun a => eq_id (Appointment.doctor_id a)
                                    (Doctor.doctor_id d)) aps with
       | [] => [(d, None)]
       | matched => map (fun a => (d, Some a)) matched
       end) ds.

Definition sql_count_patients : string :=
  "SELECT COUNT(*) as total FROM patients".

Definition count_patients (db : database) : result Z :=
  ps <- from_table "patients" (patients db) ;;
  Ok (Z.of_nat (List.length ps)).

Definition sql_top_doctor : string :=
"
                SELECT d.name, COUNT(a.appointment_id) as count
                FROM doctors d LEFT JOIN appointments a ON d.doctor_id = a.doctor_id
                GROUP BY d.name ORDER BY count DESC LIMIT 1
            ".

Definition sql_cardiology : string :=
"
                SELECT p.name, p.age, p.phone FROM patients p
                JOIN appointments a ON p.patient_id = a.patient_id
                JOIN doctors d ON a.doctor_id = d.doctor_id
                WHERE d.specialization LIKE '%Cardio%'
            ".

Definition sql_emergency : string :=
"
                SELECT p.name, a.appointment_date, a.reason FROM appointments a
                JOIN patients p ON a.patient_id = p.patient_id
                JOIN doctors d ON a.doctor_id = d.doctor_id
                WHERE d.specialization LIKE '%Emergency%'
            ".

(** [COUNT(a.appointment_id)] over the joined rows of one doctor name:
    the rows whose appointment is not NULL. *)
Definition count_appointments (n : string)
    (joined : list (Doctor.t * option Appointment.t)) : Z :=
  Z.of_nat
    (List.length
       (filter (fun r => String.eqb (Doctor.name (fst r)) n
                         && match snd r with Some _ => true | None => false end)
               joined)).

Definition top_doctor (db : database) : result (list (string * Z)) :=
  ds <- from_table "doctors" (doctors db) ;;
  aps <- from_table "appointments" (appointments db) ;;
  let joined := left_join_appointments ds aps in
  let names := nodup string_dec (map (fun r => Doctor.name (fst r)) joined) in
  let groups := map (fun n => (n, count_appointments n joined)) names in
  Ok (firstn 1 (order_by_desc (fun x y => snd x <? snd y) groups)).

Definition cardiology (db : database) : result frame :=
  ps <- from_table "patients" (patients db) ;;
  aps <- from_table "appointments" (appointments db) ;;
  ds <- from_table "doctors" (doctors db) ;;
  Ok {| columns := ["name"; "age"; "phone"];
        records :=
          flat_map (fun p =>
            flat_map (fun a =>
              flat_map (fun d =>
                if eq_id (Appointment.patient_id a) (Patient.patient_id p)
                   && eq_id (Appointment.doctor_id a) (Doctor.doctor_id d)
                   && like_null "%Cardio%" (Doctor.specialization d)
                then [[Text (Patient.name p); of_int (Patient.age p);
                       of_text (Patient.phone p)]]
                else []) ds) aps) ps |}.

Definition sql_average_fee : string :=
  "SELECT AVG(consultation_fee) as avg FROM doctors".

(** The fees that are not NULL: what [AVG] averages. *)
Definition fees (ds : list Doctor.t) : list Real.t :=
  flat_map (fun d => match Doctor.consultation_fee d with
                     | Some f => [f]
                     | None => []
                     end) ds.

(** The sum of integers (of counts). *)
Definition sum (l : list Z) : Z := fold_right Z.add 0 l.

(** [AVG(consultation_fee)]: a double, or NULL. *)
Definition average_fee (db : database) : result (option Real.t) :=
  ds <- from_table "doctors" (doctors db) ;;
  Ok (Real.avg (fees ds)).

(** The nearest integer to [n / d] for [0 <= n] and [0 < d], a tie going
    to the even one. *)
Definition round_half_even (n d : Z) : Z :=
  let q := n / d in
  let r := n mod d in
  if 2 * r <? d then q
  else if d <? 2 * r then q + 1
  else if Z.even q then q else q + 1.

(** [f"{x:.0f}"] of a double: the sign, then the magnitude rounded to an
    integer, or [inf]. *)
Definition format_0f (x : Real.t) : string :=
  match x with
  | Real.Zero s => (if s then "-" else "") ++ "0"
  | Real.Infinity s => (if s then "-" else "") ++ "inf"
  | Real.Finite s m e =>
      (if s then "-" else "")
      ++ str_int (round_half_even (Real.numerator m e) (Real.denominator e))
  end.

Definition emergency (db : database) : result frame :=
  aps <- from_table "appointments" (appointments db) ;;
  ps <- from_table "patients" (patients db) ;;
  ds <- from_table "doctors" (doctors db) ;;
  Ok {| columns := ["name"; "appointment_date"; "reason"];
        records :=
          flat_map (fun a =>
            flat_map (fun p =>
              flat_map (fun d =>
                if eq_id (Appointment.patient_id a) (Patient.patient_id p)
                   && eq_id (Appointment.doctor_id a) (Doctor.doctor_id d)
                   && like_null "%Emergency%" (Doctor.specialization d)
                then [[Text (Patient.name p);
                       of_text (Appointment.appointment_date a);
                       of_text (Appointment.reason a)]]
                else []) ds) ps) aps |}.

Definition help : string :=
  "I can answer: patient count, top doctor, cardiology patients, average fee, emergency appointments".

Section Dispatcher.

(** [DataFrame.to_string()], the table rendering of pandas. *)
Variable to_string : frame -> string.

(** The body of the [try] statement of [ai_query]. *)
Definition ai_query_try (conn : connection database) (query_lower : string)
    : result string :=
  if contains "patient" query_lower && contains "count" query_lower
     || contains "how many patient" query_lower then
    total <- read_sql sql_count_patients count_patients conn ;;
    Ok ("Total Patients: " ++ str_int total)
  else if contains "doctor" query_lower
          && (contains "most" query_lower || contains "top" query_lower) then
    result <- read_sql sql_top_doctor top_doctor conn ;;
    match result with
    | [] => Raise (IndexError "single positional indexer is out-of-bounds")
    | (name, count) :: _ =>
        Ok ("Top Doctor: " ++ name ++ " with " ++ str_int count
            ++ " appointments")
    end
  else if contains "cardiology" query_lower then
    result <- read_sql sql_cardiology cardiology conn ;;
    Ok (match records result with
        | [] => "No cardiology patients found"
        | _ => to_string result
        end)
  else if contains "fee" query_lower && contains "average" query_lower then
    result <- read_sql sql_average_fee average_fee conn ;;
    match result with
    | None =>
        Raise (TypeError
                 "unsupported format string passed to NoneType.__format__")
    | Some avg => Ok ("Average Consultation Fee: Rs. " ++ format_0f avg)
    end
  else if contains "emergency" query_lower then
    result <- read_sql sql_emergency emergency conn ;;
    Ok (match records result with
        | [] => "No emergency appointments"
        | _ => to_string result
        end)
  else Ok help.

(** [ai_query(query)]: the connection is opened before the [try]; every
    exception of the body is turned into text. *)
Definition ai_query (s : store database) (query : string) : result string :=
  conn <- connect empty_database s ;;
  let query_lower := lower query in
  match ai_query_try conn query_lower with
  | Ok answer => Ok answer
  | Raise e => Ok ("Error: " ++ str e)
  end.

End Dispatcher.

(** ** app_backup.py: the pages that read and write *)

(** A statement that writes, on a connection of its own: [connect], the
    statement, [commit], [close]. *)
Definition write (s : store database)
    (statement : database -> result database)
    : store database * result unit :=
  match connect empty_database s with
  | Raise e => (s, Raise e)
  | Ok conn =>
      match db <- read_file conn ;; statement db with
      | Ok db' => (Healthy db', Ok tt)
      | Raise e => (file_of conn, Raise e)
      end
  end.

(** What a submitted form tells the user: [st.success] or [st.error]. *)
Inductive notice : Type :=
| Success
| Error.

(** The text that [search] becomes part of. *)
Definition patients_query (search : string) : string :=
  "SELECT * FROM patients"
  ++ match search with
     | EmptyString => ""
     | _ => " WHERE name LIKE '%" ++ search ++ "%'"
     end.

(** A search text stays inside the quoted literal when it holds no quote
    (and no NUL, which ends the statement text). *)
Definition literal_text (search : string) : bool :=
  negb (contains "'" search)
  && negb (contains (String Ascii.zero EmptyString) search).

Inductive listing : Type :=
| Shown (rows : list Patient.t)
| NotInterpreted (sql : string).
  (* a search text that ends the literal makes another statement of the
     query; which one is the SQL parser's matter *)

(** The "View Patients" tab. *)
Definition view_patients (s : store database) (search : string)
    : result listing :=
  conn <- connect empty_database s ;;
  let query := patients_query search in
  match search with
  | EmptyString =>
      ps <- read_sql query
              (fun db => from_table "patients" (patients db)) conn ;;
      Ok (Shown ps)
  | _ =>
      if literal_text search then
        ps <- read_sql query
                (fun db =>
                   ps <- from_table "patients" (patients db) ;;
                   select_where
                     (fun p => like_func ("%" ++ search ++ "%")
                                         (Some (Patient.name p))) ps)
                conn ;;
        Ok (Shown ps)
      else Ok (NotInterpreted query)
  end.

(** The "Add Patient" form, submitted; [today] is
    [datetime.now().strftime('%Y-%m-%d')]. *)
Definition add_patient (s : store database) (name : string) (age : Z)
    (gender phone email address blood today : string)
    : store database * result notice :=
  match name with
  | EmptyString => (s, Ok Error)
  | _ =>
      let '(s', r) :=
        write s (fun db =>
          pa <- insert_into "patients" Patient.patient_id
                  [insert_patient
                     (name, age, gender, phone, email, address, blood, today)]
                  (patients db) ;;
          Ok {| departments := departments db; doctors := doctors db;
                patients := pa; appointments := appointments db |}) in
      (s', _ <- r ;; Ok Success)
  end.

(** [strftime]: two digits for [%m], [%d], [%I] and [%M]; the date widget
    hands over years of four digits. *)
Definition pad2 (n : Z) : string :=
  if n <? 10 then "0" ++ str_int n else str_int n.

Definition strftime_date (year month day : Z) : string :=
  str_int year ++ "-" ++ pad2 month ++ "-" ++ pad2 day.

Definition strftime_time (hour minute : Z) : string :=
  pad2 (if hour mod 12 =? 0 then 12 else hour mod 12)
  ++ ":" ++ pad2 minute ++ " " ++ (if hour <? 12 then "AM" else "PM").

(** The "Book Appointment" form, submitted.  [patient] and [doctor] are
    the values of the two select boxes ([None] when a box has no option);
    [date] is (year, month, day) and [time] is (hour, minute). *)
Definition book_appointment (s : store database) (patient doctor : option Z)
    (date : Z * Z * Z) (time : Z * Z) (reason : string)
    : store database * result notice :=
  let '(year, month, day) := date in
  let '(hour, minute) := time in
  let '(s', r) :=
    write s (fun db =>
      ap <- insert_into "appointments" Appointment.appointment_id
              [insert_appointment
                 (patient, doctor, strftime_date year month day,
                  strftime_time hour minute, "Scheduled", reason)]
              (appointments db) ;;
      Ok {| departments := departments db; doctors := doctors db;
            patients := patients db; appointments := ap |}) in
  (s', _ <- r ;; Ok Success).

(** The "Revenue by Doctor" panel of the analytics page. *)
Definition sql_revenue : string :=
"
            SELECT d.name, COUNT(a.appointment_id) * d.consultation_fee as revenue
            FROM doctors d
            LEFT JOIN appointments a ON d.doctor_id = a.doctor_id
            WHERE a.status = 'Completed'
            GROUP BY d.name, d.consultation_fee
            ORDER BY revenue DESC
        ".

(** [WHERE a.status = 'Completed'] on a joined row: false on the NULLs of
    a doctor without appointments, and on a NULL status. *)
Definition where_completed (r : Doctor.t * option Appointment.t) : bool :=
  match snd r with
  | Some a =>
      match Appointment.status a with
      | Some st => String.eqb st "Completed"
      | None => false
      end
  | None => false
  end.

(** The key of [GROUP BY d.name, d.consultation_fee]. *)
Definition key : Type := string * option Real.t.

Definition key_of (d : Doctor.t) : key :=
  (Doctor.name d, Doctor.consultation_fee d).

Definition key_eqb (k1 k2 : key) : bool :=
  String.eqb (fst k1) (fst k2)
  && match snd k1, snd k2 with
     | Some f1, Some f2 => Real.eqb f1 f2
     | None, None => true
     | _, _ => false
     end.

Definition key_dec (k1 k2 : key) : {k1 = k2} + {k1 <> k2}.
Proof. unfold key in *. repeat decide equality. Defined.

(** The rows that the FROM and WHERE clauses hand to the grouping. *)
Definition revenue_rows (ds : list Doctor.t) (aps : list Appointment.t)
    : list (Doctor.t * option Appointment.t) :=
  filter where_completed (left_join_appointments ds aps).

(** [COUNT(a.appointment_id)] of the group of key [k]. *)
Definition count_group (k : key)
    (kept : list (Doctor.t * option Appointment.t)) : Z :=
  Z.of_nat
    (List.length
       (filter (fun r => key_eqb (key_of (fst r)) k
                         && match snd r with Some _ => true | None => false end)
               kept)).

(** NULL sorts below every number. *)
Definition lt_null (x y : option Real.t) : bool :=
  match x, y with
  | None, Some _ => true
  | Some a, Some b => Real.ltb a b
  | _, None => false
  end.

(** [n * fee] of an integer and a REAL that may be NULL: the integer is
    converted to a double and the product is a double; NULL when the fee
    is, or when the product is NaN. *)
Definition times (n : Z) (fee : option Real.t) : option Real.t :=
  match fee with
  | Some f => Real.mul (Real.of_int n) f
  | None => None
  end.

(** The groups of the revenue query: key and count. *)
Definition revenue_groups (ds : list Doctor.t) (aps : list Appointment.t)
    : list (key * Z) :=
  let kept := revenue_rows ds aps in
  map (fun k => (k, count_group k kept))
      (nodup key_dec (map (fun r => key_of (fst r)) kept)).

(** The meaning of [sql_revenue]: [d.name] and
    [COUNT(a.appointment_id) * d.consultation_fee], the largest revenue
    first. *)
Definition run_revenue (db : database)
    : result (list (string * option Real.t)) :=
  ds <- from_table "doctors" (doctors db) ;;
  aps <- from_table "appointments" (appointments db) ;;
  Ok (order_by_desc (fun x y => lt_null (snd x) (snd y))
        (map (fun g => (fst (fst g), times (snd g) (snd (fst g))))
             (revenue_groups ds aps))).

(** [revenue = pd.read_sql(..., conn)] on the connection of the page. *)
Definition revenue (s : store database)
    : result (list (string * option Real.t)) :=
  conn <- connect empty_database s ;;
  read_sql sql_revenue run_revenue conn.

(** The "Appointment Status" panel of the analytics page: every status
    that occurs, NULL being one of them, with the number of appointments
    that have it.  SQL leaves the order of the groups open; they are listed
    here as they first occur. *)
Definition status_eqb (x y : option string) : bool :=
  match x, y with
  | Some a, Some b => String.eqb a b
  | None, None => true
  | _, _ => false
  end.

Definition status_dec (x y : option string) : {x = y} + {x <> y}.
Proof. decide equality. apply string_dec. Defined.

Definition run_status_distribution (db : database)
    : result (list (option string * Z)) :=
  aps <- from_table "appointments" (appointments db) ;;
  Ok (map (fun k =>
             (k, Z.of_nat
                   (List.length
                      (filter (fun a => status_eqb (Appointment.status a) k)
                              aps))))
          (nodup status_dec (map Appointment.status aps))).

Definition status_distribution (s : store database)
    : result (list (option string * Z)) :=
  conn <- connect empty_database s ;;
  read_sql "SELECT status, COUNT(*) as count FROM appointments GROUP BY status"
    run_status_distribution conn.

(** [get_stats()]: the four numbers of the dashboard, each from a query
    of its own, in the order of the dict display; nothing is caught. *)
Module Stats.
Record t : Type :=
  { patients : Z; doctors : Z; appointments : Z; pending : Z }.
End Stats.

Definition count_rows {R} (name : string) (t : option (table R))
    : result Z :=
  l <- from_table name t ;; Ok (Z.of_nat (List.length l)).

(** [WHERE status='Scheduled'] on an appointment. *)
Definition is_scheduled (a : Appointment.t) : bool :=
  match Appointment.status a with
  | Some st => String.eqb st "Scheduled"
  | None => false
  end.

Definition get_stats (s : store database) : result Stats.t :=
  conn <- connect empty_database s ;;
  p <- read_sql "SELECT COUNT(*) as c FROM patients"
         (fun db => count_rows "patients" (patients db)) conn ;;
  d <- read_sql "SELECT COUNT(*) as c FROM doctors"
         (fun db => count_rows "doctors" (doctors db)) conn ;;
  a <- read_sql "SELECT COUNT(*) as c FROM appointments"
         (fun db => count_rows "appointments" (appointments db)) conn ;;
  pe <- read_sql "SELECT COUNT(*) as c FROM appointments WHERE status='Scheduled'"
          (fun db =>
             l <- from_table "appointments" (appointments db) ;;
             Ok (Z.of_nat (List.length (filter is_scheduled l)))) conn ;;
  Ok {| Stats.patients := p; Stats.doctors := d;
        Stats.appointments := a; Stats.pending := pe |}.

(** The "View Doctors" tab: every doctor with the name of the department,
    NULL when no department has the doctor's [dept_id]. *)
Definition sql_view_doctors : string :=
"
            SELECT d.doctor_id, d.name, d.specialization, dept.dept_name, d.phone, 
                   d.email, d.experience, d.consultation_fee
            FROM doctors d
            LEFT JOIN departments dept ON d.dept_id = dept.dept_id
        ".

Record doctor_line : Type :=
  { line_doctor : Doctor.t; line_dept_name : option string }.

Definition run_view_doctors (db : database) : result (list doctor_line) :=
  ds <- from_table "doctors" (doctors db) ;;
  depts <- from_table "departments" (departments db) ;;
  Ok (flat_map
        (fun d =>
           match filter (fun dept => eq_id (Doctor.dept_id d)
                                           (Department.dept_id dept)) depts with
           | [] => [{| line_doctor := d; line_dept_name := None |}]
           | matched =>
               map (fun dept =>
                      {| line_doctor := d;
                         line_dept_name := Some (Department.dept_name dept) |})
                   matched
           end) ds).

Definition view_doctors (s : store database) : result (list doctor_line) :=
  conn <- connect empty_database s ;;
  read_sql sql_view_doctors run_view_doctors conn.

(** The "Add Doctor" form, submitted.  [dept] is the value of the
    department select box. *)
Definition add_doctor (s : store database) (name spec : string)
    (dept : option Z) (phone email : string) (exp fee : Z)
    : store database * result notice :=
  match name, spec with
  | String _ _, String _ _ =>
      let '(s', r) :=
        write s (fun db =>
          dr <- insert_into "doctors" Doctor.doctor_id
                  [insert_doctor (name, spec, dept, phone, email, exp, fee)]
                  (doctors db) ;;
          Ok {| departments := departments db; doctors := dr;
                patients := patients db; appointments := appointments db |}) in
      (s', _ <- r ;; Ok Success)
  | _, _ => (s, Ok Error)
  end.

(** The "View Appointments" tab.  The filter is the value of a select box
    with four options. *)
Inductive status_filter : Type :=
| All
| Scheduled
| Completed
| Cancelled.

Definition filter_text (f : status_filter) : string :=
  match f with
  | All => "All"
  | Scheduled => "Scheduled"
  | Completed => "Completed"
  | Cancelled => "Cancelled"
  end.

Definition sql_view_appointments : string :=
"
            SELECT a.appointment_id, p.name as Patient, d.name as Doctor, 
                   a.appointment_date, a.appointment_time, a.status, a.reason
            FROM appointments a
            JOIN patients p ON a.patient_id = p.patient_id
            JOIN doctors d ON a.doctor_id = d.doctor_id
        ".

Definition appointments_query (f : status_filter) : string :=
  sql_view_appointments
  ++ match f with
     | All => ""
     | _ => " WHERE a.status = '" ++ filter_text f ++ "'"
     end.

(** [WHERE a.status = '...'], absent under "All". *)
Definition passes (f : status_filter) (a : Appointment.t) : bool :=
  match f with
  | All => true
  | _ =>
      match Appointment.status a with
      | Some st => String.eqb st (filter_text f)
      | None => false
      end
  end.

Record appointment_line : Type :=
  { line_appointment : Appointment.t;
    line_patient : string;
    line_doctor_name : string }.

Definition run_view_appointments (f : status_filter) (db : database)
    : result (list appointment_line) :=
  aps <- from_table "appointments" (appointments db) ;;
  ps <- from_table "patients" (patients db) ;;
  ds <- from_table "doctors" (doctors db) ;;
  Ok (flat_map (fun a =>
        flat_map (fun p =>
          flat_map (fun d =>
            if eq_id (Appointment.patient_id a) (Patient.patient_id p)
               && eq_id (Appointment.doctor_id a) (Doctor.doctor_id d)
               && passes f a
            then [{| line_appointment := a;
                     line_patient := Patient.name p;
                     line_doctor_name := Doctor.name d |}]
            else []) ds) ps) aps).

Definition view_appointments (s : store database) (f : status_filter)
    : result (list appointment_line) :=
  conn <- connect empty_database s ;;
  read_sql (appointments_query f) (run_view_appointments f) conn.

End App.

(** ** database_setup.py: the standalone seeding script *)

Module Setup.
Import Py Sql.

Module Department.
Record t : Type :=
  { dept_id : Z;
    dept_name : string;
    head_doctor : option string;
    location : option string;
    phone : option string }.
End Department.

Module Doctor.
Record t : Type :=
  { doctor_id : Z;
    name : string;
    specialization : string;
    dept_id : option Z;
    phone : option string;
    email : option string;
    experience_years : option Z;
    consultation_fee : option Real.t }.
End Doctor.

Module Patient.
Record t : Type :=
  { patient_id : Z;
    name : string;
    age : option Z;
    gender : option string;
    phone : option string;
    email : option string;
    address : option string;
    emergency_contact : option string;
    blood_group : option string;
    registration_date : option string }.
End Patient.

Module Appointment.
Record t : Type :=
  { appointment_id : Z;
    patient_id : option Z;
    doctor_id : option Z;
    appointment_date : option string;
    appointment_time : option string;
    status : option string;
    reason : option string;
    notes : option string }.
End Appointment.

Module MedicalRecord.
Record t : Type :=
  { record_id : Z;
    patient_id : option Z;
    doctor_id : option Z;
    visit_date : option string;
    diagnosis : option string;
    prescription : option string;
    treatment : option string;
    follow_up_date : option string;
    cost : option Real.t }.
End MedicalRecord.

Record database : Type :=
  { departments : option (table Department.t);
    doctors : option (table Doctor.t);
    patients : option (table Patient.t);
    appointments : option (table Appointment.t);
    medical_records : option (table MedicalRecord.t) }.

Definition empty_database : database :=
  {| departments := None; doctors := None; patients := None;
     appointments := None; medical_records := None |}.

Definition insert_department
    '((n, h, l, ph) : string * string * string * string) (id : Z)
    : Department.t :=
  {| Department.dept_id := id; Department.dept_name := n;
     Department.head_doctor := Some h; Department.location := Some l;
     Department.phone := Some ph |}.

Definition insert_doctor
    '((n, s, d, ph, em, ex, fee)
      : string * string * Z * string * string * Z * Z) (id : Z) : Doctor.t :=
  {| Doctor.doctor_id := id; Doctor.name := n; Doctor.specialization := s;
     Doctor.dept_id := Some d; Doctor.phone := Some ph;
     Doctor.email := Some em; Doctor.experience_years := Some ex;
     Doctor.consultation_fee := Some (Real.of_int fee) |}.

Definition insert_patient
    '((n, a, g, ph, em, ad, ec, b, r)
      : string * Z * string * string * string * string * string * string
        * string) (id : Z) : Patient.t :=
  {| Patient.patient_id := id; Patient.name := n; Patient.age := Some a;
     Patient.gender := Some g; Patient.phone := Some ph;
     Patient.email := Some em; Patient.address := Some ad;
     Patient.emergency_contact := Some ec; Patient.blood_group := Some b;
     Patient.registration_date := Some r |}.

Definition insert_appointment
    '((p, d, date, time, st, r, n)
      : Z * Z * string * string * string * string * string) (id : Z)
    : Appointment.t :=
  {| Appointment.appointment_id := id; Appointment.patient_id := Some p;
     Appointment.doctor_id := Some d;
     Appointment.appointment_date := Some date;
     Appointment.appointment_time := Some time;
     Appointment.status := Some st; Appointment.reason := Some r;
     Appointment.notes := Some n |}.

Definition insert_medical_record
    '((p, d, v, dg, pr, tr, f, c)
      : Z * Z * string * string * string * string * string * Z) (id : Z)
    : MedicalRecord.t :=
  {| MedicalRecord.record_id := id; MedicalRecord.patient_id := Some p;
     MedicalRecord.doctor_id := Some d; MedicalRecord.visit_date := Some v;
     MedicalRecord.diagnosis := Some dg;
     MedicalRecord.prescription := Some pr;
     MedicalRecord.treatment := Some tr;
     MedicalRecord.follow_up_date := Some f;
     MedicalRecord.cost := Some (Real.of_int c) |}.

Definition departments_data : list (string * string * string * string) :=
  [ ("Cardiology", "Dr. Ahmed Khan", "Block A, Floor 2", "021-1234567");
    ("Neurology", "Dr. Sarah Ali", "Block B, Floor 3", "021-2345678");
    ("Orthopedics", "Dr. Hassan Sheikh", "Block C, Floor 1", "021-3456789");
    ("Pediatrics", "Dr. Fatima Malik", "Block A, Floor 1", "021-4567890");
    ("Emergency", "Dr. Omar Siddiqui", "Ground Floor", "021-5678901") ].

Definition doctors_data
    : list (string * string * Z * string * string * Z * Z) :=
  [ ("Dr. Ahmed Khan", "Cardiologist", 1, "0300-1234567",
     "ahmed.khan@hospital.com", 15, 3000);
    ("Dr. Sarah Ali", "Neurologist", 2, "0300-2345678",
     "sarah.ali@hospital.com", 12, 3500);
    ("Dr. Hassan Sheikh", "Orthopedic Surgeon", 3, "0300-3456789",
     "hassan.sheikh@hospital.com", 18, 4000);
    ("Dr. Fatima Malik", "Pediatrician", 4, "0300-4567890",
     "fatima.malik@hospital.com", 10, 2500);
    ("Dr. Omar Siddiqui", "Emergency Medicine", 5, "0300-5678901",
     "omar.siddiqui@hospital.com", 8, 2000);
    ("Dr. Zainab Qureshi", "Cardiologist", 1, "0300-6789012",
     "zainab.qureshi@hospital.com", 7, 2800);
    ("Dr. Ali Raza", "Neurologist", 2, "0300-7890123",
     "ali.raza@hospital.com", 5, 3200) ].

Definition patients_data
    : list (string * Z * string * string * string * string * string * string
            * string) :=
  [ ("Muhammad Asif", 45, "Male", "0301-1111111", "asif@email.com",
     "Karachi, Pakistan", "0302-2222222", "B+", "2024-01-15");
    ("Ayesha Khan", 32, "Female", "0301-3333333", "ayesha@email.com",
     "Lahore, Pakistan", "0302-4444444", "A+", "2024-01-20");
    ("Bilal Ahmed", 28, "Male", "0301-5555555", "bilal@email.com",
     "Islamabad, Pakistan", "0302-6666666", "O+", "2024-02-01");
    ("Sana Malik", 35, "Female", "0301-7777777", "sana@email.com",
     "Faisalabad, Pakistan", "0302-8888888", "AB+", "2024-02-10");
    ("Ahmed Ali", 50, "Male", "0301-9999999", "ahmed@email.com",
     "Peshawar, Pakistan", "0302-0000000", "B-", "2024-02-15") ].

Definition appointments_data
    : list (Z * Z * string * string * string * string * string) :=
  [ (1, 1, "2024-12-20", "10:00 AM", "Scheduled", "Chest pain",
     "Regular checkup");
    (2, 2, "2024-12-21", "2:00 PM", "Completed", "Headache",
     "MRI recommended");
    (3, 3, "2024-12-22", "11:00 AM", "Scheduled", "Knee pain",
     "X-ray required");
    (4, 4, "2024-12-23", "9:00 AM", "Scheduled", "Child fever",
     "Routine checkup");
    (5, 5, "2024-12-19", "8:00 PM", "Completed", "Emergency",
     "Accident case") ].

Definition medical_records_data
    : list (Z * Z * string * string * string * string * string * Z) :=
  [ (1, 1, "2024-12-15", "Hypertension", "Amlodipine 5mg daily",
     "Lifestyle changes recommended", "2025-01-15", 3000);
    (2, 2, "2024-12-10", "Migraine", "Sumatriptan as needed",
     "Stress management", "2024-12-25", 3500);
    (5, 5, "2024-12-19", "Fracture - Right arm", "Cast applied",
     "Surgery not required", "2025-01-02", 15000) ].

(** The five [DROP TABLE IF EXISTS] and the five [CREATE TABLE]: whatever
    the tables held, and their AUTOINCREMENT counters, are gone. *)
Definition recreate_tables (db : database) : database :=
  {| departments := Some empty_table; doctors := Some empty_table;
     patients := Some empty_table; appointments := Some empty_table;
     medical_records := Some empty_table |}.

(** The five [executemany] calls. *)
Definition populate (db : database) : result database :=
  de <- insert_into "departments" Department.dept_id
          (map insert_department departments_data) (departments db) ;;
  dr <- insert_into "doctors" Doctor.doctor_id
          (map insert_doctor doctors_data) (doctors db) ;;
  pa <- insert_into "patients" Patient.patient_id
          (map insert_patient patients_data) (patients db) ;;
  ap <- insert_into "appointments" Appointment.appointment_id
          (map insert_appointment appointments_data) (appointments db) ;;
  mr <- insert_into "medical_records" MedicalRecord.record_id
          (map insert_medical_record medical_records_data)
          (medical_records db) ;;
  Ok {| departments := de; doctors := dr; patients := pa;
        appointments := ap; medical_records := mr |}.

(** [create_hospital_database()]: the file it leaves and how it ends. *)
Definition create_hospital_database (s : store database)
    : store database * result unit :=
  match connect empty_database s with
  | Raise e => (s, Raise e)
  | Ok conn =>
      match read_file conn with
      | Raise e => (file_of conn, Raise e)
      | Ok db =>
          let db := recreate_tables db in
          match populate db with
          | Ok db' => (Healthy db', Ok tt)
          | Raise e => (Healthy db, Raise e)
          end
      end
  end.

End Setup.

(** ** Notions used by the properties *)

Import Py Sql.

(** A store on which nothing has been written yet: no file, or a database
    whose tables are missing or hold no row, with AUTOINCREMENT counters
    that leave room for the sample rows. *)
Definition blank {R} (t : option (table R)) : Prop :=
  match t with
  | None => True
  | Some t => rows t = [] /\ 0 <= seq t /\ seq t + 5 <= MAX_ROWID
  end.

Definition empty_store (s : store App.database) : Prop :=
  match s with
  | Absent => True
  | Healthy db =>
      blank (App.departments db) /\ blank (App.doctors db)
      /\ blank (App.patients db) /\ blank (App.appointments db)
  | _ => False
  end.

(** The row counts of the four tables that both programs have. *)
Definition app_counts (db : App.database) : nat * nat * nat * nat :=
  (List.length (contents (App.departments db)),
   List.length (contents (App.doctors db)),
   List.length (contents (App.patients db)),
   List.length (contents (App.appointments db))).

Definition setup_counts (db : Setup.database) : nat * nat * nat * nat :=
  (List.length (contents (Setup.departments db)),
   List.length (contents (Setup.doctors db)),
   List.length (contents (Setup.patients db)),
   List.length (contents (Setup.appointments db))).

(** The database that [init_db] makes of no file. *)
Definition seeded : store App.database := fst (App.init_db Absent).

(** Every rowid of the table, and its counter, leave room for one more
    row. *)
Definition has_room {R} (rowid : R -> Z) (t : table R) : Prop :=
  seq t < MAX_ROWID /\ Forall (fun r => rowid r < MAX_ROWID) (rows t).

(** A maker stores the rowid it is given as the row's primary key. *)
Definition keyed {R} (rowid : R -> Z) (mk : Z -> R) : Prop :=
  forall id, rowid (mk id) = id.

(** The counter is at or above every rowid of the table. *)
Definition counted {R} (rowid : R -> Z) (t : table R) : Prop :=
  Forall (fun r => rowid r <= seq t) (rows t).

(** Two doctors whose fees have a mean halfway between two integers. *)
Definition two_fees : App.database :=
  {| App.departments := Some empty_table;
     App.doctors :=
       Some {| rows :=
                 [ App.insert_doctor
                     ("Dr. Amna Shah", "Dermatologist", None, "", "", 3,
                      2000) 1;
                   App.insert_doctor
                     ("Dr. Imran Butt", "Dermatologist", None, "", "", 4,
                      2001) 2 ];
               seq := 2 |};
     App.patients := Some empty_table;
     App.appointments := Some empty_table |}.

(** A table rendering to run the dispatcher with. *)
Definition no_rendering (f : App.frame) : string := "".

(** The filter of the patient search on one row. *)
Definition matches (search : string) (p : Patient.t) : bool :=
  like ("%" ++ search ++ "%") (Patient.name p).

(** The appointments of a doctor that have status 'Completed', and their
    number. *)
Definition is_completed (a : Appointment.t) : bool :=
  match Appointment.status a with
  | Some st => String.eqb st "Completed"
  | None => false
  end.

Definition completed_of (d : Doctor.t) (aps : list Appointment.t)
    : list Appointment.t :=
  filter (fun a => App.eq_id (Appointment.doctor_id a) (Doctor.doctor_id d)
                   && is_completed a) aps.

Definition completed_count (d : Doctor.t) (aps : list Appointment.t) : Z :=
  Z.of_nat (List.length (completed_of d aps)).

(** The completed appointments of all the doctors that have the name and
    the fee [k]. *)
Definition group_count (k : App.key) (ds : list Doctor.t)
    (aps : list Appointment.t) : Z :=
  App.sum (map (fun d => if App.key_eqb (App.key_of d) k
                         then completed_count d aps else 0) ds).

(** Two doctors of one name and one fee (the fee that the add-doctor form
    proposes), each with one completed appointment. *)
Definition namesakes : App.database :=
  {| App.departments := Some empty_table;
     App.doctors :=
       Some {| rows :=
                 [ {| Doctor.doctor_id := 1; Doctor.name := "Dr. Khan";
                      Doctor.specialization := Some "Cardiologist";
                      Doctor.dept_id := None; Doctor.phone := Some "";
                      Doctor.email := Some ""; Doctor.experience := Some 5;
                      Doctor.consultation_fee := Some (Real.of_int 1500) |};
                   {| Doctor.doctor_id := 2; Doctor.name := "Dr. Khan";
                      Doctor.specialization := Some "Neurologist";
                      Doctor.dept_id := None; Doctor.phone := Some "";
                      Doctor.email := Some ""; Doctor.experience := Some 5;
                      Doctor.consultation_fee := Some (Real.of_int 1500) |} ];
               seq := 2 |};
     App.patients := Some empty_table;
     App.appointments :=
       Some {| rows :=
                 [ {| Appointment.appointment_id := 1;
                      Appointment.patient_id := None;
                      Appointment.doctor_id := Some 1;
                      Appointment.appointment_date := Some "2026-11-02";
                      Appointment.appointment_time := Some "10:00 AM";
                      Appointment.status := Some "Completed";
                      Appointment.reason := Some "" |};
                   {| Appointment.appointment_id := 2;
                      Appointment.patient_id := None;
                      Appointment.doctor_id := Some 2;
                      Appointment.appointment_date := Some "2026-11-03";
                      Appointment.appointment_time := Some "11:00 AM";
                      Appointment.status := Some "Completed";
                      Appointment.reason := Some "" |} ];
               seq := 2 |} |}.

(** The rows of the revenue report, from the rows of the two tables. *)
Definition revenue_result (ds : list Doctor.t) (aps : list Appointment.t)
    : list (string * option Real.t) :=
  App.order_by_desc (fun x y => App.lt_null (snd x) (snd y))
    (map (fun g => (fst (fst g), App.times (snd g) (snd (fst g))))
         (App.revenue_groups ds aps)).

(** The sample database, written out. *)
Definition seeded_db : App.database :=
  Eval vm_compute in
    match seeded with
    | Healthy db => db
    | _ => App.empty_database
    end.

(** Two doctors of the sample data: one with a completed appointment, one
    whose only appointment is scheduled. *)
Definition dr_sara_ali : Doctor.t :=
  App.insert_doctor
    ("Dr. Sara Ali", "Neurologist", Some 2, "0301-2345678",
     "sara@hospital.com", 10, 2500) 2.

Definition dr_hassan_raza : Doctor.t :=
  App.insert_doctor
    ("Dr. Hassan Raza", "Orthopedic Surgeon", Some 3, "0302-3456789",
     "hassan@hospital.com", 12, 1800) 3.

(** A lower-cased question without the keywords of any branch of the
    dispatcher. *)
Definition asks_nothing (q : string) : bool :=
  negb (contains "patient" q && contains "count" q
        || contains "how many patient" q)
  && negb (contains "doctor" q && (contains "most" q || contains "top" q))
  && negb (contains "cardiology" q)
  && negb (contains "fee" q && contains "average" q)
  && negb (contains "emergency" q).

(** A lower-cased question that the second branch answers. *)
Definition asks_top_doctor (q : string) : bool :=
  negb (contains "patient" q && contains "count" q
        || contains "how many patient" q)
  && (contains "doctor" q && (contains "most" q || contains "top" q)).

(** The appointments that name a doctor, and the appointments of all the
    doctors that bear the name [n]. *)
Definition appointments_of (d : Doctor.t) (aps : list Appointment.t)
    : list Appointment.t :=
  filter (fun a => App.eq_id (Appointment.doctor_id a) (Doctor.doctor_id d))
         aps.

Definition name_count (n : string) (ds : list Doctor.t)
    (aps : list Appointment.t) : Z :=
  App.sum (map (fun d => if String.eqb (Doctor.name d) n
                         then Z.of_nat (List.length (appointments_of d aps))
                         else 0) ds).

(** A list in the order of [ORDER BY ... DESC]: no row sorts below a later
    one. *)
Fixpoint descending {A} (lt : A -> A -> bool) (l : list A) : Prop :=
  match l with
  | [] => True
  | x :: l' => Forall (fun y => lt x y = false) l' /\ descending lt l'
  end.

(** The second table holds the rows of the first, in their order, and
    perhaps more after them. *)
Definition extends {R} (t t' : option (table R)) : Prop :=
  exists l, contents t' = (contents t ++ l)%list.

(** The table, when it exists, can take [n] more rows. *)
Definition room_for {R} (n : Z) (rowid : R -> Z) (t : option (table R))
    : Prop :=
  match t with
  | None => True
  | Some t =>
      0 <= seq t /\ seq t + n <= MAX_ROWID
      /\ Forall (fun r => rowid r + n <= MAX_ROWID) (rows t)
  end.

(** The sample database after its departments have been deleted. *)
Definition without_departments : App.database :=
  {| App.departments := Some {| rows := []; seq := 5 |};
     App.doctors := App.doctors seeded_db;
     App.patients := App.patients seeded_db;
     App.appointments := App.appointments seeded_db |}.

(** The text with its ASCII capitals in lower case: what LIKE compares. *)
Fixpoint fold_case (s : string) : string :=
  match s with
  | EmptyString => EmptyString
  | String c rest => String (fold_ascii c) (fold_case rest)
  end.

(** A lower-cased question that the third branch answers. *)
Definition asks_cardiology (q : string) : bool :=
  negb (contains "patient" q && contains "count" q
        || contains "how many patient" q)
  && negb (contains "doctor" q && (contains "most" q || contains "top" q))
  && contains "cardiology" q.

(** A text that has the word [w] in it, in any case of the ASCII letters,
    before its first NUL. *)
Definition has_word (w : string) (x : option string) : bool :=
  match x with
  | Some x => contains (fold_case w) (fold_case (c_string x))
  | None => false
  end.

(** A text without the wildcards of LIKE and without NUL. *)
Fixpoint plain (w : string) : bool :=
  match w with
  | EmptyString => true
  | String c rest =>
      negb (Ascii.eqb c "%") && negb (Ascii.eqb c "_")
      && negb (Ascii.eqb c Ascii.zero) && plain rest
  end.

(** The appointment [a] links the patient [p] to the doctor [d], whose
    specialization has "cardio" in it. *)
Definition cardiology_link (p : Patient.t) (a : Appointment.t)
    (d : Doctor.t) : Prop :=
  Appointment.patient_id a = Some (Patient.patient_id p)
  /\ Appointment.doctor_id a = Some (Doctor.doctor_id d)
  /\ has_word "Cardio" (Doctor.specialization d) = true.

Definition cardiology_visit (ps : list Patient.t) (aps : list Appointment.t)
    (ds : list Doctor.t) : Prop :=
  exists p a d, In p ps /\ In a aps /\ In d ds /\ cardiology_link p a d.

(** The row of a patient in the answer. *)
Definition cardiology_row (p : Patient.t) : list App.value :=
  [App.Text (Patient.name p); App.of_int (Patient.age p);
   App.of_text (Patient.phone p)].

(** The place of a double in the order of the doubles: its sign class,
    then its exponent and its mantissa, both reversed below zero. *)
Definition real_code (x : Real.t) : Z * Z * Z :=
  match x with
  | Real.Infinity true => (-2, 0, 0)
  | Real.Finite true m e => (-1, - e, - Z.pos m)
  | Real.Zero _ => (0, 0, 0)
  | Real.Finite false m e => (1, e, Z.pos m)
  | Real.Infinity false => (2, 0, 0)
  end.

Definition lex_lt (a b : Z * Z * Z) : Prop :=
  fst (fst a) < fst (fst b)
  \/ (fst (fst a) = fst (fst b)
      /\ (snd (fst a) < snd (fst b)
          \/ (snd (fst a) = snd (fst b) /\ snd a < snd b))).

(** The number of the appointments that have the status [k]. *)
Definition status_count (k : option string) (aps : list Appointment.t) : Z :=
  Z.of_nat
    (List.length
       (filter (fun a => App.status_eqb (Appointment.status a) k) aps)).

(** The text of [n] times the character [c]. *)
Definition run_of (c : ascii) (n : N) : string := N.iter n (String c) "".

(** The rows that a result of the search puts on the page, if any. *)
Definition rows_shown (r : result App.listing) : option (list Patient.t) :=
  match r with
  | Ok (App.Shown ps) => Some ps
  | _ => None
  end.

(** ** Properties *)

(** *** AUTOINCREMENT *)

Lemma fold_left_max_In (l : list Z) (i : Z) :
  fold_left Z.max l i = i \/ In (fold_left Z.max l i) l.
Proof.
  revert i; induction l as [|x l IH]; intros i; cbn; [now left|].
  destruct (IH (Z.max i x)) as [E | E].
  - rewrite E. destruct (Z.max_spec i x) as [[_ ->] | [_ ->]]; auto.
  - now right; right.
Qed.

Lemma largest_In (l : list Z) (m : Z) : largest l = Some m -> In m l.
Proof.
  destruct l as [|i l]; cbn; [discriminate|].
  intros [= <-]. destruct (fold_left_max_In l i) as [-> | H]; auto.
Qed.

Section Autoincrement.

Context {R : Type} (rowid : R -> Z).

Lemma insert_next (mk : Z -> R) (t : table R) :
  counted rowid t -> 0 <= seq t -> seq t < MAX_ROWID ->
  insert rowid mk t
  = Ok {| rows := rows t ++ [mk (seq t + 1)]; seq := seq t + 1 |}.
Proof.
  intros Hc H0 Hmax. unfold insert, new_rowid.
  destruct (largest (map rowid (rows t))) as [m|] eqn:El.
  - assert (Hm : m <= seq t).
    { apply largest_In, in_map_iff in El. destruct El as (r & <- & Hr).
      unfold counted in Hc. rewrite Forall_forall in Hc. now apply Hc. }
    destruct (Z.eqb_spec m MAX_ROWID); [lia|].
    destruct (Z.eqb_spec (seq t) MAX_ROWID); [lia|].
    cbn. destruct (Z.ltb_spec (m + 1) (seq t + 1)).
    + reflexivity.
    + now replace (m + 1) with (seq t + 1) by lia.
  - destruct (Z.eqb_spec (seq t) MAX_ROWID); [lia|].
    cbn. destruct (Z.ltb_spec 1 (seq t + 1)).
    + reflexivity.
    + now replace (seq t + 1) with 1 by lia.
Qed.

Lemma executemany_next (mks : list (Z -> R)) :
  Forall (keyed rowid) mks ->
  forall t : table R,
    counted rowid t -> 0 <= seq t ->
    seq t + Z.of_nat (List.length mks) <= MAX_ROWID ->
    exists t',
      executemany rowid mks t = Ok t'
      /\ List.length (rows t') = (List.length (rows t) + List.length mks)%nat
      /\ seq t' = seq t + Z.of_nat (List.length mks)
      /\ counted rowid t'.
Proof.
  induction 1 as [|mk mks Hk _ IH]; intros t Hc H0 Hmax.
  - exists t. cbn. repeat split; auto; lia.
  - cbn [executemany]. rewrite insert_next by (cbn in Hmax; auto; lia).
    cbn [bind]. cbn [List.length] in Hmax.
    edestruct IH as (t' & E & Hl & Hs & Hc'); [| | | exists t'; split; [exact E|]].
    + unfold counted in *. cbn. apply Forall_app. split.
      * eapply Forall_impl; [|exact Hc]. cbn. intros; lia.
      * constructor; [|constructor]. rewrite Hk. lia.
    + cbn. lia.
    + cbn. lia.
    + cbn in Hl, Hs. rewrite length_app in Hl. cbn in Hl.
      repeat split; auto; cbn; lia.
Qed.

(** The sample rows go into a table on which nothing has been written. *)
Lemma insert_into_blank (name : string) (mks : list (Z -> R))
    (t : option (table R)) :
  Forall (keyed rowid) mks -> blank t -> (List.length mks <= 5)%nat ->
  exists t',
    insert_into name rowid mks (create_table_if_not_exists t) = Ok (Some t')
    /\ List.length (rows t') = List.length mks.
Proof.
  intros Hk Hb Hn.
  assert (Hmax : 5 <= MAX_ROWID) by (unfold MAX_ROWID; lia).
  destruct t as [t|]; cbn [create_table_if_not_exists insert_into].
  - destruct Hb as (Hr & H0 & Hs).
    destruct (executemany_next mks Hk t) as (t' & E & Hl & _);
      [unfold counted; rewrite Hr; constructor | lia | lia |].
    exists t'. rewrite E. cbn. split; [reflexivity|].
    rewrite Hl, Hr. reflexivity.
  - destruct (executemany_next mks Hk empty_table) as (t' & E & Hl & _);
      [constructor | cbn; lia | cbn; lia |].
    exists t'. rewrite E. cbn. split; [reflexivity | exact Hl].
Qed.

(** A table with room takes one more row. *)
Lemma insert_room (mk : Z -> R) (t : table R) :
  has_room rowid t ->
  exists id,
    insert rowid mk t = Ok {| rows := rows t ++ [mk id]; seq := id |}.
Proof.
  intros [Hs Hr]. unfold insert, new_rowid.
  destruct (largest (map rowid (rows t))) as [m|] eqn:El.
  - assert (Hm : m < MAX_ROWID).
    { apply largest_In, in_map_iff in El. destruct El as (r & <- & Hin).
      rewrite Forall_forall in Hr. now apply Hr. }
    destruct (Z.eqb_spec m MAX_ROWID); [lia|].
    destruct (Z.eqb_spec (seq t) MAX_ROWID); [lia|].
    cbn. eexists; reflexivity.
  - destruct (Z.eqb_spec (seq t) MAX_ROWID); [lia|].
    cbn. eexists; reflexivity.
Qed.

(** A successful insert appends one row, built by the maker. *)
Lemma insert_inv (mk : Z -> R) (t t' : table R) :
  insert rowid mk t = Ok t' ->
  exists id, t' = {| rows := rows t ++ [mk id]; seq := id |}.
Proof.
  unfold insert. destruct (new_rowid rowid t) as [id|e]; cbn; [|discriminate].
  intros [= <-]. now exists id.
Qed.

End Autoincrement.

(** *** Bootstrap *)

Lemma keyed_map {R X} (rowid : R -> Z) (mk : X -> Z -> R) (l : list X) :
  (forall x id, rowid (mk x id) = id) -> Forall (keyed rowid) (map mk l).
Proof.
  intros H. apply Forall_forall. intros f Hf.
  apply in_map_iff in Hf. destruct Hf as (x & <- & _). intros id. apply H.
Qed.

Lemma blank_created_rows {R} (t : option (table R)) :
  blank t -> from_table "departments" (create_table_if_not_exists t) = Ok [].
Proof.
  destruct t as [t|]; cbn; [|reflexivity]. now intros [-> _].
Qed.

Lemma seed_blank (db : App.database) :
  blank (App.departments db) -> blank (App.doctors db) ->
  blank (App.patients db) -> blank (App.appointments db) ->
  exists db',
    App.seed (App.create_tables db) = Ok db'
    /\ app_counts db' = (5, 5, 5, 5)%nat.
Proof.
  intros Hde Hdr Hpa Hap. unfold App.seed, App.create_tables.
  cbn [App.departments App.doctors App.patients App.appointments].
  destruct (insert_into_blank Department.dept_id "departments"
              (map App.insert_department App.depts) (App.departments db))
    as (de & -> & Lde); [| exact Hde | cbn; lia |].
  { apply keyed_map. now intros [n l] id. }
  destruct (insert_into_blank Doctor.doctor_id "doctors"
              (map App.insert_doctor App.seed_doctors) (App.doctors db))
    as (dr & -> & Ldr); [| exact Hdr | cbn; lia |].
  { apply keyed_map. now intros [[[[[[n s] d] ph] em] ex] fee] id. }
  destruct (insert_into_blank Patient.patient_id "patients"
              (map App.insert_patient App.seed_patients) (App.patients db))
    as (pa & -> & Lpa); [| exact Hpa | cbn; lia |].
  { apply keyed_map. now intros [[[[[[[n a] g] ph] em] ad] b] r] id. }
  destruct (insert_into_blank Appointment.appointment_id "appointments"
              (map App.insert_appointment App.seed_appointments)
              (App.appointments db))
    as (ap & -> & Lap); [| exact Hap | cbn; lia |].
  { apply keyed_map. now intros [[[[[p d] date] time] st] r] id. }
  cbn [bind]. eexists; split; [reflexivity|].
  unfold app_counts; cbn [App.departments App.doctors App.patients
                          App.appointments contents].
  rewrite Lde, Ldr, Lpa, Lap. reflexivity.
Qed.

(** C6.  After bootstrap on an empty store the department, doctor, patient
    and appointment tables hold the fixed numbers of sample rows: 5/5/5/5
    after [init_db] of the interactive program, 5/7/5/5 after
    [create_hospital_database] of the seeding script (which empties the
    tables first, so there whatever the file held before). *)
Theorem bootstrap_seed_counts :
  (forall s : store App.database,
      empty_store s ->
      exists db,
        App.init_db s = (Healthy db, Ok tt)
        /\ app_counts db = (5, 5, 5, 5)%nat)
  /\ (exists db,
        Setup.create_hospital_database Absent = (Healthy db, Ok tt)
        /\ setup_counts db = (5, 7, 5, 5)%nat)
  /\ (forall db0 : Setup.database,
      exists db,
        Setup.create_hospital_database (Healthy db0) = (Healthy db, Ok tt)
        /\ setup_counts db = (5, 7, 5, 5)%nat).
Proof.
  split; [|split].
  - intros [|db| |] He; try contradiction.
    + eexists; split; vm_compute; reflexivity.
    + destruct He as (Hde & Hdr & Hpa & Hap).
      destruct (seed_blank db Hde Hdr Hpa Hap) as (db' & Es & Ec).
      exists db'. split; [|exact Ec].
      unfold App.init_db, App.try_probe. cbn [connect select_1].
      unfold App.bootstrap. cbn [read_file].
      change (App.departments (App.create_tables db))
        with (create_table_if_not_exists (App.departments db)).
      rewrite (blank_created_rows _ Hde). cbn [List.length Z.of_nat Z.eqb].
      now rewrite Es.
  - eexists; split; vm_compute; reflexivity.
  - intros db0. eexists; split; vm_compute; reflexivity.
Qed.

Lemma bootstrap_seed_counts_witness :
  empty_store (Healthy (App.create_tables App.empty_database))
  /\ exists db,
       App.init_db (Healthy (App.create_tables App.empty_database))
       = (Healthy db, Ok tt)
       /\ app_counts db = (5, 5, 5, 5)%nat.
Proof.
  assert (H : empty_store (Healthy (App.create_tables App.empty_database))).
  { cbn. unfold MAX_ROWID. repeat split; lia. }
  split; [exact H|].
  exact (proj1 bootstrap_seed_counts _ H).
Defined.

(** C5.  Bootstrap is idempotent: when the departments table holds a row,
    [init_db] ends normally and no table gains or loses a row; a database
    that has its four tables is left exactly as it was. *)
Theorem init_db_idempotent (db : App.database) :
  contents (App.departments db) <> [] ->
  exists db',
    App.init_db (Healthy db) = (Healthy db', Ok tt)
    /\ contents (App.departments db') = contents (App.departments db)
    /\ contents (App.doctors db') = contents (App.doctors db)
    /\ contents (App.patients db') = contents (App.patients db)
    /\ contents (App.appointments db') = contents (App.appointments db)
    /\ (App.doctors db <> None -> App.patients db <> None ->
        App.appointments db <> None -> db' = db).
Proof.
  intros Hne. exists (App.create_tables db).
  destruct db as [[de|] dr pa ap]; cbn in Hne; [|congruence].
  split.
  - unfold App.init_db, App.try_probe. cbn [connect select_1].
    unfold App.bootstrap. cbn.
    destruct (rows de) as [|d ds]; [congruence|]. reflexivity.
  - cbn. repeat split.
    + now destruct dr.
    + now destruct pa.
    + now destruct ap.
    + intros Hdr Hpa Hap. unfold App.create_tables.
      destruct dr, pa, ap; cbn in *; congruence.
Qed.

Lemma init_db_idempotent_witness :
  exists db, seeded = Healthy db /\ App.init_db (Healthy db) = (Healthy db, Ok tt).
Proof.
  eexists. split; [vm_compute; reflexivity|].
  match goal with |- App.init_db (Healthy ?d) = _ =>
    destruct (init_db_idempotent d) as (db' & E & _ & _ & _ & _ & Hsame)
  end.
  - cbn. discriminate.
  - rewrite E. rewrite Hsame; [reflexivity | | |]; cbn; discriminate.
Defined.

(** C8.  A store that is unreadable or corrupt is not discarded.  When the
    path cannot be opened, [connect] raises inside the [try], the handler
    runs [conn.close()] with [conn] never assigned, and [init_db] ends in
    that [UnboundLocalError]; when the file is not a database, the probe
    [SELECT 1] passes and the first [CREATE TABLE] raises.  Both times the
    store is left as it was. *)
Theorem init_db_does_not_recover :
  App.init_db Unopenable
  = (Unopenable,
     Raise (UnboundLocalError
       "cannot access local variable 'conn' where it is not associated with a value"))
  /\ App.init_db NotADatabase
     = (NotADatabase, Raise (SqliteDatabaseError "file is not a database")).
Proof. split; reflexivity. Qed.

(** *** The dispatcher *)

Section DispatcherProperties.

Variable to_string : App.frame -> string.

Lemma try_how_many (conn : connection App.database) (q : string) :
  contains "how many patient" q = true ->
  App.ai_query_try to_string conn q
  = (total <- App.read_sql App.sql_count_patients App.count_patients conn ;;
     Ok ("Total Patients: " ++ str_int total)).
Proof.
  intros H. unfold App.ai_query_try. now rewrite H, orb_true_r.
Qed.

Lemma try_average_fee (conn : connection App.database) :
  App.ai_query_try to_string conn "average fee?"
  = (result <- App.read_sql App.sql_average_fee App.average_fee conn ;;
     match result with
     | None =>
         Raise (TypeError
                  "unsupported format string passed to NoneType.__format__")
     | Some avg => Ok ("Average Consultation Fee: Rs. " ++ App.format_0f avg)
     end).
Proof. reflexivity. Qed.

End DispatcherProperties.

Lemma round_half_even_near (a d : Z) :
  0 <= a -> 0 < d -> 2 * Z.abs (App.round_half_even a d * d - a) <= d.
Proof.
  intros Ha Hd. unfold App.round_half_even.
  pose proof (Z.div_mod a d ltac:(lia)) as E.
  pose proof (Z.mod_pos_bound a d Hd) as B.
  set (q := a / d) in *. set (r := a mod d) in *.
  destruct (Z.ltb_spec (2 * r) d); [|destruct (Z.ltb_spec d (2 * r));
    [|destruct (Z.even q)]]; nia.
Qed.

(** A tie goes to the even integer. *)
Lemma round_half_even_tie (a d : Z) :
  0 <= a -> 0 < d ->
  2 * Z.abs (App.round_half_even a d * d - a) = d ->
  Z.even (App.round_half_even a d) = true.
Proof.
  intros Ha Hd. unfold App.round_half_even.
  pose proof (Z.div_mod a d ltac:(lia)) as E.
  pose proof (Z.mod_pos_bound a d Hd) as B.
  set (q := a / d) in *. set (r := a mod d) in *.
  destruct (Z.ltb_spec (2 * r) d); [nia|].
  destruct (Z.ltb_spec d (2 * r)); [nia|].
  intros _. destruct (Z.even q) eqn:Eq; [exact Eq|].
  rewrite Z.add_1_r, Z.even_succ, <- Z.negb_even. now rewrite Eq.
Qed.

Lemma round_half_even_nonneg (a d : Z) :
  0 <= a -> 0 < d -> 0 <= App.round_half_even a d.
Proof.
  intros Ha Hd. pose proof (round_half_even_near a d Ha Hd). nia.
Qed.

Lemma numerator_nonneg (m : positive) (e : Z) : 0 <= Real.numerator m e.
Proof.
  unfold Real.numerator. destruct (Z.leb_spec 0 e); [|lia].
  pose proof (Z.pow_pos_nonneg 2 e). nia.
Qed.

Lemma denominator_pos (e : Z) : 0 < Real.denominator e.
Proof.
  unfold Real.denominator. destruct (Z.leb_spec 0 e); [lia|].
  apply Z.pow_pos_nonneg; lia.
Qed.

(** C9.  A question whose lower-casing contains 'how many patient' is
    answered by the first branch, whatever keywords of later branches it
    contains as well: the dispatcher gives what it gives on the bare
    keyword, which is the number of rows of the patients table. *)
Theorem how_many_patient_shadows (to_string : App.frame -> string)
    (s : store App.database) (query : string) :
  contains "how many patient" (lower query) = true ->
  App.ai_query to_string s query
  = App.ai_query to_string s "how many patient"
  /\ forall db t,
       s = Healthy db -> App.patients db = Some t ->
       App.ai_query to_string s query
       = Ok ("Total Patients: " ++ str_int (Z.of_nat (List.length (rows t)))).
Proof.
  intros H. split.
  - unfold App.ai_query. destruct (connect App.empty_database s) as [conn|e];
      cbn [bind]; [|reflexivity].
    rewrite (try_how_many to_string conn _ H).
    now rewrite (try_how_many to_string conn (lower "how many patient")).
  - intros db t -> Hp. unfold App.ai_query. cbn [connect bind].
    rewrite (try_how_many to_string _ _ H).
    unfold App.read_sql, App.count_patients. cbn [read_file bind].
    rewrite Hp. reflexivity.
Qed.

Lemma how_many_patient_shadows_witness :
  App.ai_query no_rendering seeded
    "How many patients did the top doctor of Cardiology see in Emergency, at which average fee?"
  = Ok "Total Patients: 5".
Proof.
  refine (let H := how_many_patient_shadows no_rendering seeded
            "How many patients did the top doctor of Cardiology see in Emergency, at which average fee?"
            eq_refl in _).
  destruct H as [_ H].
  eapply eq_trans; [eapply H; vm_compute; reflexivity|].
  reflexivity.
Defined.

(** C7.  Once the connection is open the dispatcher always returns text:
    an exception raised in the body of its [try], by the selected query or
    by the formatting of its result, comes back as "Error: " followed by
    the text of the exception. *)
Theorem ai_query_catches (to_string : App.frame -> string)
    (s : store App.database) (conn : connection App.database)
    (query : string) :
  connect App.empty_database s = Ok conn ->
  (exists text, App.ai_query to_string s query = Ok text)
  /\ forall e,
       App.ai_query_try to_string conn (lower query) = Raise e ->
       App.ai_query to_string s query = Ok ("Error: " ++ str e).
Proof.
  intros Hc. unfold App.ai_query. rewrite Hc. cbn [bind]. split.
  - destruct (App.ai_query_try to_string conn (lower query)); eexists;
      reflexivity.
  - now intros e ->.
Qed.

Lemma ai_query_catches_witness :
  App.ai_query no_rendering NotADatabase "How many patients?"
  = Ok "Error: Execution failed on sql 'SELECT COUNT(*) as total FROM patients': file is not a database".
Proof.
  exact (proj2 (ai_query_catches no_rendering NotADatabase OnGarbage
                  "How many patients?" eq_refl)
           (PandasDatabaseError
              "Execution failed on sql 'SELECT COUNT(*) as total FROM patients': file is not a database")
           eq_refl).
Defined.

(** C3, as the code has it.  When the average that SQLite computes over
    the fees is not NULL, the answer to "average fee?" is "Average
    Consultation Fee: Rs. " followed by that average as [:.0f] prints it:
    for a finite average its sign and the integer nearest to its
    magnitude, a tie going to the even integer; [inf] for an infinite
    one.  The average is [Real.avg]: the fees that are not NULL, added in
    double precision in the order of the table and divided by their
    number. *)
Theorem average_fee_answer (to_string : App.frame -> string)
    (db : App.database) (t : table Doctor.t) (avg : Real.t) :
  App.doctors db = Some t ->
  Real.avg (App.fees (rows t)) = Some avg ->
  App.ai_query to_string (Healthy db) "average fee?"
  = Ok ("Average Consultation Fee: Rs. " ++ App.format_0f avg)
  /\ match avg with
     | Real.Finite s m e =>
         exists r,
           App.format_0f avg = (if s then "-" else "") ++ str_int r
           /\ 0 <= r
           /\ 2 * Z.abs (r * Real.denominator e - Real.numerator m e)
              <= Real.denominator e
           /\ (2 * Z.abs (r * Real.denominator e - Real.numerator m e)
               = Real.denominator e -> Z.even r = true)
     | Real.Zero s => App.format_0f avg = (if s then "-0" else "0")
     | Real.Infinity s => App.format_0f avg = (if s then "-inf" else "inf")
     end.
Proof.
  intros Hd Ha. split.
  - unfold App.ai_query. cbn [connect bind].
    change (lower "average fee?") with "average fee?".
    rewrite try_average_fee.
    unfold App.read_sql, App.average_fee. cbn [read_file bind].
    rewrite Hd. cbn [from_table bind]. now rewrite Ha.
  - destruct avg as [s|s|s m e]; [now destruct s | now destruct s |].
    exists (App.round_half_even (Real.numerator m e) (Real.denominator e)).
    pose proof (numerator_nonneg m e). pose proof (denominator_pos e).
    split; [reflexivity|]. split; [now apply round_half_even_nonneg|].
    split; [now apply round_half_even_near | now apply round_half_even_tie].
Qed.

Lemma average_fee_answer_witness :
  Real.avg (App.fees (contents (App.doctors two_fees)))
  = Some (Real.Finite false 8798292045463552 (-42))
  /\ App.ai_query no_rendering (Healthy two_fees) "average fee?"
     = Ok "Average Consultation Fee: Rs. 2000".
Proof.
  assert (E : Real.avg (App.fees (contents (App.doctors two_fees)))
              = Some (Real.Finite false 8798292045463552 (-42)))
    by (vm_compute; reflexivity).
  split; [exact E|].
  destruct (average_fee_answer no_rendering two_fees _ _ eq_refl E)
    as [Ha _].
  rewrite Ha. vm_compute. reflexivity.
Defined.

(** C3, counterexample.  In a database without doctors there is no fee to
    average, and the answer to "average fee?" is an error text. *)
Lemma average_fee_without_doctors :
  App.average_fee (App.create_tables App.empty_database) = Ok None
  /\ App.ai_query no_rendering (Healthy (App.create_tables App.empty_database))
       "average fee?"
     = Ok "Error: unsupported format string passed to NoneType.__format__".
Proof. split; reflexivity. Qed.

(** *** The write forms and the patient search *)

Lemma write_success (s s' : store App.database)
    (statement : App.database -> result App.database) :
  App.write s statement = (s', Ok tt) ->
  exists db db',
    (s = Healthy db \/ (s = Absent /\ db = App.empty_database))
    /\ statement db = Ok db' /\ s' = Healthy db'.
Proof.
  unfold App.write.
  destruct s as [|db| |]; cbn [connect read_file bind].
  - destruct (statement App.empty_database) as [db'|e] eqn:E;
      intros [= <-]. exists App.empty_database, db'. auto.
  - destruct (statement db) as [db'|e] eqn:E; intros [= <-].
    exists db, db'. auto.
  - intros [= <-].
  - intros [= <-].
Qed.

Lemma insert_into_one {R} (name : string) (rowid : R -> Z) (mk : Z -> R)
    (t : option (table R)) (t' : option (table R)) :
  insert_into name rowid [mk] t = Ok t' ->
  exists t0 id,
    t = Some t0 /\ t' = Some {| rows := rows t0 ++ [mk id]; seq := id |}.
Proof.
  destruct t as [t0|]; cbn; [|discriminate].
  destruct (insert rowid mk t0) as [t1|e] eqn:E; cbn; [|discriminate].
  intros [= <-]. apply insert_inv in E. destruct E as (id & ->).
  now exists t0, id.
Qed.

(** C4.  Booking an appointment stores status 'Scheduled'.  The status is
    not a field of the form: a submission that stores a row appends one
    row to the appointments table, with the patient, the doctor and the
    reason of the form and status 'Scheduled'; and a submission does store
    a row whenever the appointments table exists and has room. *)
Theorem book_appointment_scheduled (patient doctor : option Z)
    (date : Z * Z * Z) (time : Z * Z) (reason : string) :
  (forall s s' : store App.database,
      App.book_appointment s patient doctor date time reason
      = (s', Ok App.Success) ->
      exists db db' t a,
        s = Healthy db /\ s' = Healthy db'
        /\ App.appointments db = Some t
        /\ contents (App.appointments db') = (rows t ++ [a])%list
        /\ Appointment.status a = Some "Scheduled"
        /\ Appointment.patient_id a = patient
        /\ Appointment.doctor_id a = doctor
        /\ Appointment.reason a = Some reason)
  /\ (forall (db : App.database) (t : table Appointment.t),
      App.appointments db = Some t ->
      has_room Appointment.appointment_id t ->
      exists s',
        App.book_appointment (Healthy db) patient doctor date time reason
        = (s', Ok App.Success)).
Proof.
  destruct date as [[year month] day], time as [hour minute]. split.
  - intros s s'. unfold App.book_appointment.
    match goal with
    | |- context [App.write s ?f] =>
        destruct (App.write s f) as [s1 [[]|e]] eqn:E
    end; cbn [bind]; [|discriminate].
    intros [= <-]. apply write_success in E.
    destruct E as (db & db' & Hs & E & ->).
    match type of E with
    | context [insert_into ?n ?r [?mk] ?t] =>
        destruct (insert_into n r [mk] t) as [ap|e] eqn:Ei
    end; cbn [bind] in E; [|discriminate].
    injection E as <-. apply insert_into_one in Ei.
    destruct Ei as (t0 & id & Ht & ->).
    destruct Hs as [-> | [_ ->]]; [|discriminate].
    eexists db, _, t0, _.
    split; [reflexivity|]. split; [reflexivity|]. split; [exact Ht|].
    cbn. repeat split; reflexivity.
  - intros db t Ht Hroom. unfold App.book_appointment, App.write.
    cbn [connect read_file bind]. rewrite Ht. cbn [insert_into executemany].
    match goal with
    | |- context [insert ?r ?mk t] =>
        destruct (insert_room r mk t Hroom) as (id & ->)
    end.
    cbn [bind]. eexists; reflexivity.
Qed.

Lemma book_appointment_scheduled_witness :
  exists s' db' a,
    App.book_appointment seeded (Some 1) (Some 2) (2026, 11, 4) (15, 5) "Cough"
    = (s', Ok App.Success)
    /\ s' = Healthy db'
    /\ last (contents (App.appointments db')) a = a
    /\ Appointment.status a = Some "Scheduled".
Proof.
  pose (r := App.book_appointment seeded (Some 1) (Some 2) (2026, 11, 4)
               (15, 5) "Cough").
  assert (E : r = (fst r, Ok App.Success)) by (vm_compute; reflexivity).
  destruct (proj1 (book_appointment_scheduled (Some 1) (Some 2) (2026, 11, 4)
                     (15, 5) "Cough") seeded (fst r) E)
    as (db & db' & t & a & _ & Hs & _ & Hc & Hst & _).
  exists (fst r), db', a. split; [exact E|]. split; [exact Hs|].
  rewrite Hc, last_last. split; [reflexivity | exact Hst].
Defined.

Lemma prefix_split (a b : string) :
  prefix a b = true -> exists post, b = a ++ post.
Proof.
  revert b; induction a as [|c a IH]; intros b; cbn [prefix].
  - intros _. now exists b.
  - destruct b as [|c' b]; cbn [prefix]; [discriminate|].
    destruct (ascii_dec c c') as [<-|]; [|discriminate].
    intros H. destruct (IH b H) as (post & ->). now exists post.
Qed.

Lemma contains_split (a b : string) :
  contains a b = true -> exists pre post, b = pre ++ a ++ post.
Proof.
  induction b as [|c b IH]; cbn [contains]; intros H;
    apply orb_true_iff in H; destruct H as [H | H]; try discriminate.
  - apply prefix_split in H. destruct H as (post & ->). now exists "", post.
  - apply prefix_split in H. destruct H as (post & ->). now exists "", post.
  - destruct (IH H) as (pre & post & ->). now exists (String c pre), post.
Qed.

(** LIKE, one pattern character at a time. *)
Lemma compare_cons (c : ascii) (p s : string) :
  pattern_compare (String c p) s
  = if Ascii.eqb c "%" then
      pattern_compare p s
      || match s with
         | EmptyString => false
         | String _ s' => pattern_compare (String c p) s'
         end
    else if Ascii.eqb c "_" then
      match s with
      | EmptyString => false
      | String _ s' => pattern_compare p s'
      end
    else
      match s with
      | EmptyString => false
      | String d s' => Ascii.eqb (fold_ascii c) (fold_ascii d) && pattern_compare p s'
      end.
Proof.
  cbn [pattern_compare]. destruct (Ascii.eqb c "%") eqn:E1.
  - destruct s; reflexivity.
  - destruct (Ascii.eqb c "_"); reflexivity.
Qed.

Lemma compare_percent (s : string) : pattern_compare "%" s = true.
Proof.
  induction s as [|c s IH]; rewrite compare_cons; cbn [Ascii.eqb Bool.eqb].
  - reflexivity.
  - cbn -[pattern_compare]. rewrite IH. apply orb_true_r.
Qed.

Lemma compare_skip (p pre s : string) :
  pattern_compare (String "%" p) s = true -> pattern_compare (String "%" p) (pre ++ s) = true.
Proof.
  intros H. induction pre as [|c pre IH]; [exact H|].
  rewrite compare_cons. cbn [Ascii.eqb Bool.eqb append]. cbn -[pattern_compare].
  rewrite IH. apply orb_true_r.
Qed.

Lemma compare_itself (a rest : string) : pattern_compare (a ++ "%") (a ++ rest) = true.
Proof.
  induction a as [|c a IH]; cbn [append]; [apply compare_percent|].
  rewrite compare_cons. destruct (Ascii.eqb c "%") eqn:E1.
  - apply Ascii.eqb_eq in E1. subst c.
    replace (pattern_compare (String "%" (a ++ "%")) (a ++ rest)) with true.
    + apply orb_true_r.
    + symmetry. rewrite compare_cons. cbn [Ascii.eqb Bool.eqb]. cbn -[pattern_compare append].
      rewrite IH. reflexivity.
  - destruct (Ascii.eqb c "_"); [exact IH|].
    now rewrite Ascii.eqb_refl, IH.
Qed.

(** A name matches the pattern made of one of its own substrings. *)
Lemma compare_contains (search name : string) :
  contains search name = true ->
  pattern_compare ("%" ++ search ++ "%") name = true.
Proof.
  intros H. apply contains_split in H. destruct H as (pre & post & ->).
  cbn [append]. apply compare_skip. rewrite compare_cons.
  cbn [Ascii.eqb Bool.eqb]. cbn -[pattern_compare append].
  now rewrite compare_itself.
Qed.

Lemma c_string_id (s : string) :
  contains (String Ascii.zero EmptyString) s = false -> c_string s = s.
Proof.
  induction s as [|c s IH]; [reflexivity|].
  cbn [contains prefix c_string]. intros H.
  apply orb_false_iff in H. destruct H as [H1 H2].
  destruct (Ascii.eqb c Ascii.zero) eqn:E.
  - apply Ascii.eqb_eq in E. subst c.
    destruct (ascii_dec Ascii.zero Ascii.zero) as [_|N];
      [destruct s; cbn in H1; discriminate | now destruct N].
  - now rewrite IH.
Qed.

Lemma c_string_app (a b : string) :
  c_string a = a -> c_string (a ++ b) = a ++ c_string b.
Proof.
  induction a as [|c a IH]; [reflexivity|].
  cbn [c_string append]. destruct (Ascii.eqb c Ascii.zero); [discriminate|].
  intros [= H]. now rewrite IH.
Qed.

Lemma c_string_pattern (search : string) :
  contains (String Ascii.zero EmptyString) search = false ->
  c_string ("%" ++ search ++ "%") = "%" ++ search ++ "%".
Proof.
  intros H. apply c_string_id in H.
  rewrite (c_string_app "%" _ eq_refl), (c_string_app search "%" H).
  reflexivity.
Qed.

Lemma literal_text_no_nul (search : string) :
  App.literal_text search = true ->
  contains (String Ascii.zero EmptyString) search = false.
Proof.
  unfold App.literal_text. intros H. apply andb_true_iff in H.
  destruct H as [_ H]. now apply negb_true_iff in H.
Qed.

(** A text that holds the search text before its first NUL matches the
    pattern of the search. *)
Lemma like_contains (search name : string) :
  contains (String Ascii.zero EmptyString) search = false ->
  contains search (c_string name) = true ->
  like ("%" ++ search ++ "%") name = true.
Proof.
  intros Hn H. unfold like. rewrite (c_string_pattern _ Hn).
  now apply compare_contains.
Qed.

Lemma select_where_like {R} (pattern : string) (f : R -> option string)
    (l : list R) :
  utf8_bytes pattern <= SQLITE_LIMIT_LIKE_PATTERN_LENGTH ->
  select_where (fun r => like_func pattern (f r)) l
  = Ok (filter (fun r => App.like_null pattern (f r)) l).
Proof.
  intros H. unfold like_func.
  destruct (Z.ltb_spec SQLITE_LIMIT_LIKE_PATTERN_LENGTH (utf8_bytes pattern));
    [lia|].
  induction l as [|r l IH]; [reflexivity|].
  cbn [select_where bind filter]. rewrite IH. cbn [bind].
  unfold App.like_null. now destruct (f r) as [x|]; [destruct (like pattern x)|].
Qed.

Lemma select_where_too_complex {R} (pattern : string)
    (f : R -> option string) (r : R) (l : list R) :
  SQLITE_LIMIT_LIKE_PATTERN_LENGTH < utf8_bytes pattern ->
  select_where (fun r => like_func pattern (f r)) (r :: l)
  = Raise (SqliteOperationalError "LIKE or GLOB pattern too complex").
Proof.
  intros H. cbn [select_where]. unfold like_func.
  destruct (Z.ltb_spec SQLITE_LIMIT_LIKE_PATTERN_LENGTH (utf8_bytes pattern));
    [reflexivity | lia].
Qed.

Lemma filter_all {A} (f : A -> bool) (l : list A) :
  (forall x, f x = true) -> filter f l = l.
Proof.
  intros H. induction l as [|x l IH]; cbn; [reflexivity|].
  now rewrite H, IH.
Qed.

Lemma filter_none {A} (f : A -> bool) (l : list A) :
  (forall x, In x l -> f x = false) -> filter f l = [].
Proof.
  induction l as [|x l IH]; cbn; intros H; [reflexivity|].
  rewrite (H x) by auto. apply IH. auto.
Qed.

(** What the search shows on a database that has its patients table, for
    a search text whose pattern is within the limit of LIKE. *)
Lemma view_patients_shown (db : App.database) (t : table Patient.t)
    (search : string) :
  App.patients db = Some t ->
  App.literal_text search = true ->
  utf8_bytes ("%" ++ search ++ "%") <= SQLITE_LIMIT_LIKE_PATTERN_LENGTH ->
  App.view_patients (Healthy db) search
  = Ok (App.Shown
          match search with
          | EmptyString => rows t
          | _ => filter (matches search) (rows t)
          end).
Proof.
  intros Hp Hl Hb. unfold App.view_patients, App.read_sql.
  cbn [connect read_file bind].
  destruct search as [|c search].
  - rewrite Hp. reflexivity.
  - rewrite Hl, Hp. cbn [from_table bind].
    rewrite (select_where_like _ (fun p => Some (Patient.name p)) _ Hb).
    reflexivity.
Qed.

(** A search text whose pattern is beyond the limit of LIKE fails as soon
    as there is a patient to compare it with. *)
Lemma view_patients_too_complex (db : App.database) (t : table Patient.t)
    (search : string) :
  App.patients db = Some t ->
  rows t <> [] ->
  App.literal_text search = true ->
  SQLITE_LIMIT_LIKE_PATTERN_LENGTH < utf8_bytes ("%" ++ search ++ "%") ->
  App.view_patients (Healthy db) search
  = Raise (PandasDatabaseError
             ("Execution failed on sql '" ++ App.patients_query search
              ++ "': LIKE or GLOB pattern too complex")).
Proof.
  intros Hp Hr Hl Hb. unfold App.view_patients, App.read_sql.
  cbn [connect read_file bind].
  destruct search as [|c search]; [vm_compute in Hb; discriminate|].
  rewrite Hl, Hp. cbn [from_table bind].
  destruct (rows t) as [|r l]; [now destruct Hr|].
  rewrite (select_where_too_complex _ (fun p => Some (Patient.name p)) r l Hb).
  reflexivity.
Qed.

(** C2, as the code has it.  After the add-patient form has stored a
    patient named [name], a search text that holds neither a quote nor a
    NUL, whose pattern [%search%] has at most 50000 bytes in UTF-8, and
    that is found in [name] before the first NUL of [name], shows the
    earlier patients whose names match the pattern under LIKE, and then the
    new row; it shows that row alone when no earlier name matches. *)
Theorem search_finds_inserted (s s' : store App.database) (name : string)
    (age : Z) (gender phone email address blood today search : string) :
  App.add_patient s name age gender phone email address blood today
  = (s', Ok App.Success) ->
  contains search (c_string name) = true ->
  App.literal_text search = true ->
  utf8_bytes ("%" ++ search ++ "%") <= SQLITE_LIMIT_LIKE_PATTERN_LENGTH ->
  exists db t row,
    s = Healthy db /\ App.patients db = Some t
    /\ Patient.name row = name
    /\ App.view_patients s' search
       = Ok (App.Shown (filter (matches search) (rows t) ++ [row])%list)
    /\ ((forall p, In p (rows t) -> matches search p = false) ->
        App.view_patients s' search = Ok (App.Shown [row])).
Proof.
  intros Ha Hc Hl Hb. unfold App.add_patient in Ha.
  destruct name as [|c name]; [discriminate|].
  match type of Ha with
  | context [App.write s ?f] =>
      destruct (App.write s f) as [s1 [[]|e]] eqn:E
  end; cbn [bind] in Ha; [|discriminate].
  injection Ha as <-. apply write_success in E.
  destruct E as (db & db' & Hs & E & ->).
  match type of E with
  | context [insert_into ?n ?r [?mk] ?t] =>
      destruct (insert_into n r [mk] t) as [pa|e] eqn:Ei
  end; cbn [bind] in E; [|discriminate].
  injection E as <-. apply insert_into_one in Ei.
  destruct Ei as (t & id & Ht & ->).
  destruct Hs as [-> | [_ ->]]; [|discriminate].
  exists db, t,
    (App.insert_patient
       (String c name, age, gender, phone, email, address, blood, today) id).
  split; [reflexivity|]. split; [exact Ht|]. split; [reflexivity|].
  pose proof (literal_text_no_nul _ Hl) as Hn.
  assert (Hv : App.view_patients
                 (Healthy
                    {| App.departments := App.departments db;
                       App.doctors := App.doctors db;
                       App.patients :=
                         Some {| rows := rows t
                                   ++ [App.insert_patient
                                         (String c name, age, gender, phone,
                                          email, address, blood, today) id];
                                 seq := id |};
                       App.appointments := App.appointments db |}) search
               = Ok (App.Shown
                       (filter (matches search) (rows t)
                        ++ [App.insert_patient
                              (String c name, age, gender, phone, email,
                               address, blood, today) id])%list)).
  { erewrite view_patients_shown by (reflexivity || exact Hl || exact Hb).
    cbn [rows]. do 2 f_equal.
    assert (Hm : like ("%" ++ search ++ "%") (String c name) = true)
      by now apply like_contains.
    destruct search as [|c' search'].
    - rewrite filter_all; [reflexivity|].
      intros p. unfold matches. apply like_contains; [reflexivity|].
      destruct (c_string (Patient.name p)); reflexivity.
    - rewrite filter_app. cbn [filter]. unfold matches at 2.
      cbn [App.insert_patient Patient.name]. now rewrite Hm. }
  split; [exact Hv|].
  intros Hnone. rewrite Hv. now rewrite filter_none.
Qed.

Lemma search_finds_inserted_witness :
  exists row,
    Patient.name row = "Omar Farooq"
    /\ App.view_patients
         (fst (App.add_patient seeded "Omar Farooq" 41 "Male" "0316-6666666"
                 "omar@email.com" "Multan" "B+" "2026-11-04")) "Farooq"
       = Ok (App.Shown [row]).
Proof.
  pose (r := App.add_patient seeded "Omar Farooq" 41 "Male" "0316-6666666"
               "omar@email.com" "Multan" "B+" "2026-11-04").
  assert (E : r = (fst r, Ok App.Success)) by (vm_compute; reflexivity).
  assert (Hb : utf8_bytes ("%" ++ "Farooq" ++ "%")
               <= SQLITE_LIMIT_LIKE_PATTERN_LENGTH)
    by (vm_compute; discriminate).
  destruct (search_finds_inserted seeded (fst r) "Omar Farooq" 41 "Male"
              "0316-6666666" "omar@email.com" "Multan" "B+" "2026-11-04"
              "Farooq" E eq_refl eq_refl Hb)
    as (db & t & row & Hs & Hp & Hn & _ & Hone).
  exists row. split; [exact Hn|]. apply Hone.
  vm_compute in Hs. injection Hs as <-. cbn in Hp. injection Hp as <-.
  intros p Hin. cbn in Hin.
  repeat (destruct Hin as [<- | Hin]; [vm_compute; reflexivity|]).
  contradiction.
Defined.

(** C2, counterexample.  After a patient named "Ali" has been added to the
    sample data, the search for "Ali" shows four rows: LIKE finds the text
    inside other names too, in either case of letters. *)
Lemma search_shows_other_patients :
  exists s' shown,
    App.add_patient seeded "Ali" 30 "Male" "" "" "" "A+" "2026-11-04"
    = (s', Ok App.Success)
    /\ contains "Ali" (c_string "Ali") = true
    /\ App.literal_text "Ali" = true
    /\ utf8_bytes ("%" ++ "Ali" ++ "%") <= SQLITE_LIMIT_LIKE_PATTERN_LENGTH
    /\ App.view_patients s' "Ali" = Ok (App.Shown shown)
    /\ map Patient.name shown
       = ["Ali Hassan"; "Zainab Ali"; "Hamza Malik"; "Ali"].
Proof.
  eexists _, _. split; [vm_compute; reflexivity|].
  split; [reflexivity|]. split; [reflexivity|].
  split; [vm_compute; discriminate|].
  split; vm_compute; reflexivity.
Qed.

(** The search does not look behind a NUL of a name: after a patient whose
    name is "ab", a NUL and "cd" has been added to the sample data, the
    search for "cd" shows nothing. *)
Lemma search_stops_at_nul :
  exists s',
    App.add_patient seeded
      ("ab" ++ String Ascii.zero "cd") 30 "Male" "" "" "" "A+" "2026-11-04"
    = (s', Ok App.Success)
    /\ contains "cd" ("ab" ++ String Ascii.zero "cd") = true
    /\ App.view_patients s' "cd" = Ok (App.Shown []).
Proof.
  eexists. split; [vm_compute; reflexivity|].
  split; vm_compute; reflexivity.
Qed.

Lemma utf8_bytes_app (a b : string) :
  utf8_bytes (a ++ b) = utf8_bytes a + utf8_bytes b.
Proof.
  induction a as [|c a IH]; [reflexivity|].
  cbn [append utf8_bytes]. rewrite IH. lia.
Qed.

Lemma run_of_succ (c : ascii) (n : N) :
  run_of c (N.succ n) = String c (run_of c n).
Proof. unfold run_of. apply N.iter_succ. Qed.

Lemma utf8_bytes_run_of (c : ascii) (n : N) :
  (N_of_ascii c <? 128)%N = true -> utf8_bytes (run_of c n) = Z.of_N n.
Proof.
  intros Hc. induction n as [|n IH] using N.peano_ind; [reflexivity|].
  rewrite run_of_succ. cbn [utf8_bytes]. rewrite IH, Hc. lia.
Qed.

Lemma literal_text_run_of (c : ascii) (n : N) :
  c <> "'"%char -> c <> Ascii.zero -> App.literal_text (run_of c n) = true.
Proof.
  intros H1 H2. induction n as [|n IH] using N.peano_ind; [reflexivity|].
  rewrite run_of_succ. unfold App.literal_text in *.
  apply andb_true_iff in IH. destruct IH as [E1 E2].
  apply negb_true_iff in E1, E2.
  cbn [contains prefix]. rewrite E1, E2.
  destruct (ascii_dec "'" c) as [E | _]; [now destruct H1|].
  destruct (ascii_dec Ascii.zero c) as [E | _]; [now destruct H2|].
  reflexivity.
Qed.

Lemma pattern_bytes_run_of (c : ascii) (n : N) :
  (N_of_ascii c <? 128)%N = true ->
  utf8_bytes ("%" ++ run_of c n ++ "%") = Z.of_N n + 2.
Proof.
  intros Hc. rewrite !utf8_bytes_app, (utf8_bytes_run_of _ _ Hc).
  change (utf8_bytes "%") with 1. lia.
Qed.

(** The longest pattern that LIKE takes has 50000 bytes: on the sample
    data a search text of 49998 letters is answered, and one of 49999
    letters fails. *)
Lemma search_beyond_limit :
  (exists ps,
      App.view_patients seeded (run_of "a" 49998) = Ok (App.Shown ps))
  /\ App.view_patients seeded (run_of "a" 49999)
     = Raise (PandasDatabaseError
                ("Execution failed on sql '"
                 ++ App.patients_query (run_of "a" 49999)
                 ++ "': LIKE or GLOB pattern too complex")).
Proof.
  split.
  - eexists. eapply (view_patients_shown seeded_db);
      [reflexivity | now apply literal_text_run_of |].
    rewrite pattern_bytes_run_of by reflexivity.
    unfold SQLITE_LIMIT_LIKE_PATTERN_LENGTH. lia.
  - eapply (view_patients_too_complex seeded_db);
      [reflexivity | discriminate | now apply literal_text_run_of |].
    rewrite pattern_bytes_run_of by reflexivity.
    unfold SQLITE_LIMIT_LIKE_PATTERN_LENGTH. lia.
Qed.

(** *** The revenue report *)

Lemma filter_of_map {A B} (f : B -> bool) (g : A -> B) (l : list A) :
  filter f (map g l) = map g (filter (fun x => f (g x)) l).
Proof.
  induction l as [|x l IH]; cbn; [reflexivity|].
  destruct (f (g x)); cbn; now rewrite IH.
Qed.

Lemma filter_both {A} (p q : A -> bool) (l : list A) :
  filter (fun x => p x && q x) l = filter q (filter p l).
Proof.
  induction l as [|x l IH]; cbn; [reflexivity|].
  destruct (p x); cbn; [destruct (q x)|]; now rewrite IH.
Qed.

Lemma filter_swap {A} (p q : A -> bool) (l : list A) :
  filter p (filter q l) = filter q (filter p l).
Proof.
  rewrite <- !filter_both. apply filter_ext. intros x. apply andb_comm.
Qed.

Lemma real_eqb_eq (x y : Real.t) : Real.eqb x y = true <-> x = y.
Proof.
  destruct x as [a|a|a m e], y as [b|b|b m' e']; cbn;
    try (split; [discriminate | congruence]).
  - rewrite Bool.eqb_true_iff. split; congruence.
  - rewrite Bool.eqb_true_iff. split; congruence.
  - rewrite !andb_true_iff, Bool.eqb_true_iff, Pos.eqb_eq, Z.eqb_eq.
    split; [intros [[-> ->] ->]; reflexivity | intros [= -> -> ->]; auto].
Qed.

Lemma key_eqb_eq (k1 k2 : App.key) : App.key_eqb k1 k2 = true <-> k1 = k2.
Proof.
  destruct k1 as [n1 f1], k2 as [n2 f2]. unfold App.key_eqb. cbn [fst snd].
  rewrite andb_true_iff, String.eqb_eq. split.
  - intros [-> H]. destruct f1, f2; try discriminate; [|reflexivity].
    apply real_eqb_eq in H. now subst.
  - intros [= -> ->]. split; [reflexivity|].
    destruct f2; [now apply real_eqb_eq | reflexivity].
Qed.

Lemma In_insert_desc {A} (lt : A -> A -> bool) (x y : A) (l : list A) :
  In y (App.insert_desc lt x l) <-> y = x \/ In y l.
Proof.
  induction l as [|z l IH]; cbn; [intuition|].
  destruct (lt x z); cbn; rewrite ?IH; intuition.
Qed.

Lemma In_order_by_desc {A} (lt : A -> A -> bool) (y : A) (l : list A) :
  In y (App.order_by_desc lt l) <-> In y l.
Proof.
  unfold App.order_by_desc. induction l as [|x l IH]; cbn; [reflexivity|].
  rewrite In_insert_desc, IH. intuition.
Qed.

(** The LEFT JOIN followed by the WHERE clause keeps, for every doctor,
    the completed appointments of that doctor, and nothing else. *)
Lemma revenue_rows_completed (ds : list Doctor.t) (aps : list Appointment.t) :
  App.revenue_rows ds aps
  = flat_map (fun d => map (fun a => (d, Some a)) (completed_of d aps)) ds.
Proof.
  unfold App.revenue_rows, App.left_join_appointments.
  induction ds as [|d ds IH]; cbn [flat_map]; [reflexivity|].
  rewrite filter_app, IH. f_equal.
  unfold completed_of. rewrite filter_both.
  destruct (filter (fun a => App.eq_id (Appointment.doctor_id a)
                                       (Doctor.doctor_id d)) aps) as [|a m].
  - reflexivity.
  - rewrite filter_of_map. f_equal.
Qed.

Lemma In_revenue_rows (ds : list Doctor.t) (aps : list Appointment.t)
    (d : Doctor.t) (oa : option Appointment.t) :
  In (d, oa) (App.revenue_rows ds aps)
  <-> In d ds /\ exists a, oa = Some a /\ In a (completed_of d aps).
Proof.
  rewrite revenue_rows_completed, in_flat_map. split.
  - intros (d' & Hd & H). apply in_map_iff in H.
    destruct H as (a & [= <- <-] & Ha). eauto.
  - intros (Hd & a & -> & Ha). exists d. split; [exact Hd|].
    apply in_map_iff. eauto.
Qed.

Lemma completed_count_pos (d : Doctor.t) (aps : list Appointment.t) :
  1 <= completed_count d aps <-> exists a, In a (completed_of d aps).
Proof.
  unfold completed_count. destruct (completed_of d aps) as [|a l]; cbn.
  - split; [lia | intros [a []]].
  - split; [intros _; exists a; auto | lia].
Qed.

Lemma count_group_app (k : App.key)
    (l1 l2 : list (Doctor.t * option Appointment.t)) :
  App.count_group k (l1 ++ l2)%list
  = App.count_group k l1 + App.count_group k l2.
Proof.
  unfold App.count_group. rewrite filter_app, length_app. lia.
Qed.

Lemma count_group_doctor (k : App.key) (d : Doctor.t)
    (l : list Appointment.t) :
  App.count_group k (map (fun a => (d, Some a)) l)
  = if App.key_eqb (App.key_of d) k then Z.of_nat (List.length l) else 0.
Proof.
  unfold App.count_group. rewrite filter_of_map. cbn [fst snd].
  destruct (App.key_eqb (App.key_of d) k); cbn [andb].
  - rewrite filter_all by reflexivity. now rewrite length_map.
  - rewrite filter_none by reflexivity. reflexivity.
Qed.

(** [COUNT(a.appointment_id)] of a group is the number of completed
    appointments of the doctors of that name and fee. *)
Lemma count_group_revenue_rows (k : App.key) (ds : list Doctor.t)
    (aps : list Appointment.t) :
  App.count_group k (App.revenue_rows ds aps) = group_count k ds aps.
Proof.
  rewrite revenue_rows_completed. unfold group_count.
  induction ds as [|d ds IH]; cbn [flat_map map App.sum fold_right];
    [reflexivity|].
  rewrite count_group_app, count_group_doctor. fold (App.sum
    (map (fun d0 => if App.key_eqb (App.key_of d0) k
                    then completed_count d0 aps else 0) ds)).
  rewrite IH. reflexivity.
Qed.

Lemma sum_filter {A} (p : A -> bool) (f : A -> Z) (l : list A) :
  App.sum (map (fun x => if p x then f x else 0) l)
  = App.sum (map f (filter p l)).
Proof.
  induction l as [|x l IH]; cbn; [reflexivity|].
  unfold App.sum in IH. destruct (p x); cbn; lia.
Qed.

Lemma group_count_single (d : Doctor.t) (ds : list Doctor.t)
    (aps : list Appointment.t) :
  filter (fun d' => App.key_eqb (App.key_of d') (App.key_of d)) ds = [d] ->
  group_count (App.key_of d) ds aps = completed_count d aps.
Proof.
  intros H. unfold group_count.
  rewrite (sum_filter (fun d' => App.key_eqb (App.key_of d') (App.key_of d))
             (fun d' => completed_count d' aps)), H.
  cbn. lia.
Qed.

(** The rows of the report: one for every name and fee under which some
    doctor has a completed appointment. *)
Lemma revenue_result_iff (ds : list Doctor.t) (aps : list Appointment.t)
    (n : string) (r : option Real.t) :
  In (n, r) (revenue_result ds aps)
  <-> exists fee,
        (exists d, In d ds /\ App.key_of d = (n, fee)
                   /\ 1 <= completed_count d aps)
        /\ r = App.times (group_count (n, fee) ds aps) fee.
Proof.
  unfold revenue_result. rewrite In_order_by_desc, in_map_iff.
  unfold App.revenue_groups. split.
  - intros ([[n' fee] c] & E0 & Hg). cbn [fst snd] in E0.
    injection E0 as -> <-.
    apply in_map_iff in Hg. destruct Hg as (k & Ek & Hk).
    injection Ek as -> <-.
    apply nodup_In, in_map_iff in Hk.
    destruct Hk as ([d oa] & Hkey & Hrow). cbn [fst] in Hkey.
    apply In_revenue_rows in Hrow. destruct Hrow as (Hd & a & _ & Ha).
    exists fee. split.
    + exists d. split; [exact Hd|]. split; [exact Hkey|].
      apply completed_count_pos. eauto.
    + now rewrite count_group_revenue_rows.
  - intros (fee & (d & Hd & Hkey & Hc) & ->).
    apply completed_count_pos in Hc. destruct Hc as (a & Ha).
    exists ((n, fee), App.count_group (n, fee) (App.revenue_rows ds aps)).
    cbn [fst snd]. split.
    + now rewrite count_group_revenue_rows.
    + apply in_map_iff. exists (n, fee). split; [reflexivity|].
      apply nodup_In, in_map_iff. exists (d, Some a). split; [exact Hkey|].
      apply In_revenue_rows. eauto.
Qed.

Lemma revenue_of_tables (db : App.database) (td : table Doctor.t)
    (ta : table Appointment.t) :
  App.doctors db = Some td -> App.appointments db = Some ta ->
  App.revenue (Healthy db) = Ok (revenue_result (rows td) (rows ta)).
Proof.
  intros Hd Ha. unfold App.revenue, App.read_sql, App.run_revenue.
  cbn [connect read_file bind]. rewrite Hd, Ha. reflexivity.
Qed.

(** The report reads the appointments that are completed, and no other. *)
Lemma revenue_result_completed (ds : list Doctor.t)
    (aps aps' : list Appointment.t) :
  filter is_completed aps' = filter is_completed aps ->
  revenue_result ds aps' = revenue_result ds aps.
Proof.
  intros H. unfold revenue_result, App.revenue_groups.
  rewrite !revenue_rows_completed.
  assert (E : forall d, completed_of d aps' = completed_of d aps).
  { intros d. unfold completed_of. rewrite !filter_both.
    rewrite 2!(filter_swap is_completed). now rewrite H. }
  rewrite (flat_map_ext _ _ (fun d => f_equal (map (fun a => (d, Some a)))
                                        (E d))).
  reflexivity.
Qed.

Lemma completed_count_nonneg (d : Doctor.t) (aps : list Appointment.t) :
  0 <= completed_count d aps.
Proof. unfold completed_count. lia. Qed.

Lemma group_count_ge (k : App.key) (d : Doctor.t) (ds : list Doctor.t)
    (aps : list Appointment.t) :
  In d ds -> App.key_of d = k ->
  completed_count d aps <= group_count k ds aps.
Proof.
  intros Hin Hk. unfold group_count.
  set (f := fun d0 => if App.key_eqb (App.key_of d0) k
                      then completed_count d0 aps else 0).
  assert (Hf : forall x, 0 <= f x).
  { intros x. unfold f. pose proof (completed_count_nonneg x aps).
    destruct (App.key_eqb (App.key_of x) k); lia. }
  assert (Hpos : forall l, 0 <= App.sum (map f l)).
  { induction l as [|x l IH]; [cbn; lia|].
    change (0 <= f x + App.sum (map f l)). specialize (Hf x). lia. }
  induction ds as [|x ds IH]; [destruct Hin|].
  change (completed_count d aps <= f x + App.sum (map f ds)).
  specialize (Hpos ds). destruct Hin as [-> | Hin].
  - assert (E : f d = completed_count d aps).
    { unfold f. now rewrite (proj2 (key_eqb_eq _ _) Hk). }
    lia.
  - specialize (IH Hin). specialize (Hf x). lia.
Qed.

(** The product of the report is the product of doubles, not of
    integers. *)
Lemma times_rounds_to_double :
  App.times 3 (Some (Real.of_int 9007199254740991))
  = Some (Real.of_int 27021597764222972).
Proof. vm_compute. reflexivity. Qed.

(** C1, as the code has it.  The report groups by name and fee.  Every row
    of it pairs a name with the product, in double precision, of the
    number of completed appointments of the doctors of that name and fee
    and the fee; for a doctor who shares name and fee with no other, and
    has a completed appointment, that is the row of the doctor's own count
    times the fee; and the report is the same for any two states of the
    appointments table that have the same completed appointments. *)
Theorem revenue_by_name_and_fee (db : App.database) (td : table Doctor.t)
    (ta : table Appointment.t) :
  App.doctors db = Some td ->
  App.appointments db = Some ta ->
  exists result,
    App.revenue (Healthy db) = Ok result
    /\ (forall n r,
          In (n, r) result ->
          exists fee,
            In (n, fee) (map App.key_of (rows td))
            /\ r = App.times (group_count (n, fee) (rows td) (rows ta)) fee)
    /\ (forall d,
          filter (fun d' => App.key_eqb (App.key_of d') (App.key_of d))
                 (rows td) = [d] ->
          1 <= completed_count d (rows ta) ->
          In (Doctor.name d,
              App.times (completed_count d (rows ta))
                        (Doctor.consultation_fee d)) result)
    /\ (forall ta' : table Appointment.t,
          filter is_completed (rows ta') = filter is_completed (rows ta) ->
          App.revenue
            (Healthy {| App.departments := App.departments db;
                        App.doctors := App.doctors db;
                        App.patients := App.patients db;
                        App.appointments := Some ta' |})
          = Ok result).
Proof.
  intros Hd Ha. exists (revenue_result (rows td) (rows ta)).
  split; [now apply revenue_of_tables|]. split; [|split].
  - intros n r H. apply revenue_result_iff in H.
    destruct H as (fee & (d & Hin & Hk & _) & ->).
    exists fee. split; [|reflexivity].
    apply in_map_iff. now exists d.
  - intros d Hu Hc. apply revenue_result_iff.
    exists (Doctor.consultation_fee d).
    assert (Hin : In d (rows td)).
    { eapply proj1. apply filter_In with
        (f := fun d' => App.key_eqb (App.key_of d') (App.key_of d)).
      rewrite Hu. now left. }
    split; [exists d; auto|].
    change (Doctor.name d, Doctor.consultation_fee d) with (App.key_of d).
    now rewrite group_count_single.
  - intros ta' H.
    rewrite (revenue_of_tables _ td ta') by (cbn; auto).
    now rewrite (revenue_result_completed _ _ _ H).
Qed.

Lemma revenue_by_name_and_fee_witness :
  exists result,
    App.revenue (Healthy seeded_db) = Ok result
    /\ In ("Dr. Sara Ali", Some (Real.of_int 2500)) result.
Proof.
  destruct (revenue_by_name_and_fee seeded_db _ _ eq_refl eq_refl)
    as (result & E & _ & Hown & _).
  exists result. split; [exact E|].
  assert (H : In (Doctor.name dr_sara_ali,
                  App.times
                    (completed_count dr_sara_ali
                       (contents (App.appointments seeded_db)))
                    (Doctor.consultation_fee dr_sara_ali)) result).
  { apply (Hown dr_sara_ali);
      [vm_compute; reflexivity | vm_compute; discriminate]. }
  vm_compute in H. vm_compute. exact H.
Defined.

(** C1, counterexample.  Two doctors of one name and one fee, each with
    one completed appointment, are listed as one row of revenue 3000,
    whereas the count times the fee of either of them is 1500. *)
Lemma revenue_merges_namesakes :
  App.revenue (Healthy namesakes)
  = Ok [("Dr. Khan", Some (Real.of_int 3000))]
  /\ map (fun d =>
            (Doctor.name d,
             App.times
               (completed_count d (contents (App.appointments namesakes)))
               (Doctor.consultation_fee d)))
         (contents (App.doctors namesakes))
     = [("Dr. Khan", Some (Real.of_int 1500));
        ("Dr. Khan", Some (Real.of_int 1500))].
Proof. split; vm_compute; reflexivity. Qed.

(** C10, as the code has it.  The report lists the names under which a
    completed appointment exists: a name is listed exactly when some
    doctor of that name has a completed appointment, and every row stands
    for at least one completed appointment, so that nobody is listed with
    a revenue of 0 for want of appointments.  The name of a doctor without
    completed appointments is absent when no doctor of the same name has
    one. *)
Theorem revenue_lists_completed_only (db : App.database)
    (td : table Doctor.t) (ta : table Appointment.t) :
  App.doctors db = Some td ->
  App.appointments db = Some ta ->
  exists result,
    App.revenue (Healthy db) = Ok result
    /\ (forall n,
          In n (map fst result)
          <-> exists d,
                In d (rows td) /\ Doctor.name d = n
                /\ 1 <= completed_count d (rows ta))
    /\ (forall n r,
          In (n, r) result ->
          exists fee,
            1 <= group_count (n, fee) (rows td) (rows ta)
            /\ r = App.times (group_count (n, fee) (rows td) (rows ta)) fee)
    /\ (forall d,
          In d (rows td) ->
          completed_count d (rows ta) = 0 ->
          (forall d', In d' (rows td) ->
                      Doctor.name d' = Doctor.name d ->
                      completed_count d' (rows ta) = 0) ->
          ~ In (Doctor.name d) (map fst result)).
Proof.
  intros Hd Ha. exists (revenue_result (rows td) (rows ta)).
  split; [now apply revenue_of_tables|].
  assert (Hlisted : forall n,
             In n (map fst (revenue_result (rows td) (rows ta)))
             <-> exists d, In d (rows td) /\ Doctor.name d = n
                           /\ 1 <= completed_count d (rows ta)).
  { intros n. split.
    - intros H. apply in_map_iff in H. destruct H as ([n' r] & <- & H).
      apply revenue_result_iff in H.
      destruct H as (fee & (d & Hin & Hk & Hc) & _).
      exists d. split; [exact Hin|]. split; [|exact Hc].
      now injection Hk.
    - intros (d & Hin & <- & Hc).
      apply in_map_iff.
      exists (Doctor.name d,
              App.times (group_count (App.key_of d) (rows td) (rows ta))
                        (Doctor.consultation_fee d)).
      split; [reflexivity|]. apply revenue_result_iff.
      exists (Doctor.consultation_fee d). split; [|reflexivity].
      exists d. auto. }
  split; [exact Hlisted|]. split.
  - intros n r H. apply revenue_result_iff in H.
    destruct H as (fee & (d & Hin & Hk & Hc) & ->).
    exists fee. split; [|reflexivity].
    pose proof (group_count_ge (n, fee) d (rows td) (rows ta) Hin Hk). lia.
  - intros d Hin H0 Hall H. apply Hlisted in H.
    destruct H as (d' & Hin' & Hn & Hc). specialize (Hall d' Hin' Hn). lia.
Qed.

Lemma revenue_lists_completed_only_witness :
  exists result,
    App.revenue (Healthy seeded_db) = Ok result
    /\ ~ In "Dr. Hassan Raza" (map fst result).
Proof.
  destruct (revenue_lists_completed_only seeded_db _ _ eq_refl eq_refl)
    as (result & E & _ & _ & Habsent).
  exists result. split; [exact E|].
  apply (Habsent dr_hassan_raza).
  - vm_compute. auto.
  - vm_compute. reflexivity.
  - intros d' Hin Hn. cbn in Hin.
    repeat (destruct Hin as [<- | Hin];
            [first [vm_compute; reflexivity
                   | vm_compute in Hn; discriminate]|]).
    contradiction.
Defined.

(** C10, counterexample.  After the add-doctor form has stored a second
    doctor named "Dr. Sara Ali" with the fee 2500, who has no appointment
    at all, the report still has the row of "Dr. Sara Ali" and 2500: a
    doctor without completed appointments who is listed. *)
Lemma revenue_lists_namesake :
  exists s' db' d result,
    App.add_doctor seeded "Dr. Sara Ali" "Cardiologist" (Some 1)
      "0305-6789012" "sara.ali@hospital.com" 5 2500 = (s', Ok App.Success)
    /\ s' = Healthy db'
    /\ In d (contents (App.doctors db'))
    /\ Doctor.doctor_id d = 6
    /\ completed_count d (contents (App.appointments db')) = 0
    /\ App.revenue s' = Ok result
    /\ In (Doctor.name d, Doctor.consultation_fee d) result
    /\ In (Doctor.name d) (map fst result).
Proof.
  eexists _, _,
    (App.insert_doctor
       ("Dr. Sara Ali", "Cardiologist", Some 1, "0305-6789012",
        "sara.ali@hospital.com", 5, 2500) 6), _.
  split; [vm_compute; reflexivity|].
  split; [reflexivity|].
  split; [vm_compute; auto 10|].
  split; [reflexivity|].
  split; [vm_compute; reflexivity|].
  split; [vm_compute; reflexivity|].
  split; vm_compute; auto.
Qed.

(** *** More on the dispatcher *)

Lemma lower_char_idempotent (c : ascii) :
  lower_char (lower_char c) = lower_char c.
Proof. destruct c as [[] [] [] [] [] [] [] []]; reflexivity. Qed.

Lemma lower_idempotent (s : string) : lower (lower s) = lower s.
Proof.
  induction s as [|c s IH]; cbn; [reflexivity|].
  now rewrite lower_char_idempotent, IH.
Qed.

(** X1.  The dispatcher reads the question in lower case only: two
    questions that differ in the case of their letters get the same
    answer, and a question gets the answer of its lower-cased form. *)
Theorem ai_query_ignores_case (to_string : App.frame -> string)
    (s : store App.database) (q1 q2 : string) :
  lower q1 = lower q2 ->
  App.ai_query to_string s q1 = App.ai_query to_string s q2
  /\ App.ai_query to_string s q1 = App.ai_query to_string s (lower q1).
Proof.
  intros H. unfold App.ai_query. rewrite H, lower_idempotent. auto.
Qed.

Lemma ai_query_ignores_case_witness :
  App.ai_query no_rendering seeded "HOW MANY PATIENTS?"
  = App.ai_query no_rendering seeded "How many Patients?".
Proof.
  exact (proj1 (ai_query_ignores_case no_rendering seeded
                  "HOW MANY PATIENTS?" "How many Patients?" eq_refl)).
Defined.

(** X2.  A question without any keyword gets the help text, and no query
    is run for it: the answer is the same on a file that is not a
    database. *)
Theorem ai_query_help (to_string : App.frame -> string)
    (s : store App.database) (query : string) :
  s <> Unopenable ->
  asks_nothing (lower query) = true ->
  App.ai_query to_string s query = Ok App.help.
Proof.
  intros Hs H. unfold asks_nothing in H.
  repeat (apply andb_true_iff in H; destruct H as [H ?]).
  repeat match goal with
         | E : negb _ = true |- _ => apply negb_true_iff in E
         end.
  unfold App.ai_query.
  destruct (connect App.empty_database s) as [conn|e] eqn:Ec.
  - cbn [bind]. unfold App.ai_query_try.
    repeat match goal with E : _ = false |- _ => rewrite E; clear E end.
    reflexivity.
  - destruct s; cbn in Ec; congruence.
Qed.

Lemma ai_query_help_witness :
  App.ai_query no_rendering NotADatabase "xyzzy" = Ok App.help.
Proof.
  apply ai_query_help; [discriminate | reflexivity].
Defined.

(** X3.  The dispatcher ends in an exception exactly when the file cannot
    be opened: the connection is made before the [try]. *)
Theorem ai_query_raises_iff (to_string : App.frame -> string)
    (s : store App.database) (query : string) :
  (exists e, App.ai_query to_string s query = Raise e) <-> s = Unopenable.
Proof.
  unfold App.ai_query. split.
  - intros [e H]. destruct s; cbn [connect bind] in H; try reflexivity;
      destruct (App.ai_query_try to_string _ (lower query)); discriminate.
  - intros ->. cbn. eauto.
Qed.

(** *** ORDER BY ... DESC *)

Section Ordering.

Context {A : Type} (lt : A -> A -> bool).

Hypothesis lt_asym : forall x y, lt x y = true -> lt y x = false.
Hypothesis lt_trans :
  forall x y z, lt x y = false -> lt y z = false -> lt x z = false.

Lemma insert_desc_descending (x : A) (l : list A) :
  descending lt l -> descending lt (App.insert_desc lt x l).
Proof.
  induction l as [|y l IH]; cbn [App.insert_desc descending].
  - intros _. split; [constructor | exact I].
  - intros [Hy Hl]. destruct (lt x y) eqn:E; cbn [descending].
    + split; [|now apply IH].
      apply Forall_forall. intros z Hz. apply In_insert_desc in Hz.
      destruct Hz as [-> | Hz]; [now apply lt_asym|].
      rewrite Forall_forall in Hy. now apply Hy.
    + split; [|split; assumption].
      constructor; [exact E|].
      eapply Forall_impl; [|exact Hy]. cbn. intros z Hz.
      now apply lt_trans with y.
Qed.

Lemma order_by_desc_descending (l : list A) :
  descending lt (App.order_by_desc lt l).
Proof.
  unfold App.order_by_desc. induction l as [|x l IH]; cbn; [exact I|].
  now apply insert_desc_descending.
Qed.

(** The first row of the ordered result sorts below no row. *)
Lemma order_by_desc_head (l : list A) (x : A) (rest : list A) :
  App.order_by_desc lt l = x :: rest ->
  In x l /\ forall y, In y l -> lt x y = false.
Proof.
  intros E. pose proof (order_by_desc_descending l) as Hd.
  rewrite E in Hd. destruct Hd as [Hx _]. split.
  - apply (In_order_by_desc lt). rewrite E. now left.
  - intros y Hy. apply (In_order_by_desc lt) in Hy. rewrite E in Hy.
    destruct Hy as [<- | Hy].
    + destruct (lt x x) eqn:Exx; [|reflexivity].
      now rewrite (lt_asym _ _ Exx) in Exx.
    + rewrite Forall_forall in Hx. now apply Hx.
Qed.

End Ordering.

(** *** The top doctor *)

Lemma In_left_join (ds : list Doctor.t) (aps : list Appointment.t)
    (d : Doctor.t) :
  In d ds <-> exists oa, In (d, oa) (App.left_join_appointments ds aps).
Proof.
  unfold App.left_join_appointments. split.
  - intros Hd.
    destruct (filter (fun a => App.eq_id (Appointment.doctor_id a)
                                         (Doctor.doctor_id d)) aps)
      as [|a m] eqn:E.
    + exists None. apply in_flat_map. exists d. split; [exact Hd|].
      rewrite E. now left.
    + exists (Some a). apply in_flat_map. exists d. split; [exact Hd|].
      rewrite E. now left.
  - intros (oa & H). apply in_flat_map in H. destruct H as (d' & Hd & H).
    destruct (filter (fun a => App.eq_id (Appointment.doctor_id a)
                                         (Doctor.doctor_id d')) aps).
    + destruct H as [[= <- _] | []]. exact Hd.
    + apply in_map_iff in H. destruct H as (a' & [= <- _] & _). exact Hd.
Qed.

(** [COUNT(a.appointment_id)] of a name: the appointments of the doctors
    of that name; the NULL row of a doctor without appointments counts
    for nothing. *)
Lemma count_appointments_left_join (n : string) (ds : list Doctor.t)
    (aps : list Appointment.t) :
  App.count_appointments n (App.left_join_appointments ds aps)
  = name_count n ds aps.
Proof.
  unfold App.count_appointments, App.left_join_appointments, name_count.
  match goal with
  | |- context [flat_map ?g ds] => set (f := g)
  end.
  induction ds as [|d ds IH]; cbn [flat_map map App.sum fold_right];
    [reflexivity|].
  rewrite filter_app, length_app, Nat2Z.inj_add, IH. f_equal.
  subst f. cbn beta. unfold appointments_of.
  destruct (filter (fun a => App.eq_id (Appointment.doctor_id a)
                                       (Doctor.doctor_id d)) aps) as [|a m].
  - cbn. rewrite andb_false_r. cbn. now destruct (Doctor.name d =? n)%string.
  - rewrite filter_of_map. cbn [fst snd].
    destruct (Doctor.name d =? n)%string; cbn [andb].
    + rewrite filter_all by reflexivity. now rewrite length_map.
    + rewrite filter_none by reflexivity. reflexivity.
Qed.

(** X4.  "Which doctor has most appointments": without doctors the answer
    is the text of the [IndexError] of [iloc[0]]; otherwise it names a
    doctor such that no name has more appointments than this doctor's
    name, counted over all the doctors that bear the name. *)
Theorem top_doctor_answer (to_string : App.frame -> string)
    (db : App.database) (td : table Doctor.t) (ta : table Appointment.t)
    (query : string) :
  App.doctors db = Some td ->
  App.appointments db = Some ta ->
  asks_top_doctor (lower query) = true ->
  (rows td = [] ->
   App.ai_query to_string (Healthy db) query
   = Ok "Error: single positional indexer is out-of-bounds")
  /\ (rows td <> [] ->
      exists d,
        In d (rows td)
        /\ App.ai_query to_string (Healthy db) query
           = Ok ("Top Doctor: " ++ Doctor.name d ++ " with "
                 ++ str_int (name_count (Doctor.name d) (rows td) (rows ta))
                 ++ " appointments")
        /\ forall d', In d' (rows td) ->
             name_count (Doctor.name d') (rows td) (rows ta)
             <= name_count (Doctor.name d) (rows td) (rows ta)).
Proof.
  intros Hd Ha Hq. unfold asks_top_doctor in Hq.
  apply andb_true_iff in Hq. destruct Hq as [H1 H2].
  apply negb_true_iff in H1.
  assert (E : App.ai_query to_string (Healthy db) query
              = match
                  firstn 1
                    (App.order_by_desc (fun x y => snd x <? snd y)
                       (map (fun n =>
                               (n, App.count_appointments n
                                     (App.left_join_appointments
                                        (rows td) (rows ta))))
                            (nodup string_dec
                               (map (fun r => Doctor.name (fst r))
                                    (App.left_join_appointments
                                       (rows td) (rows ta))))))
                with
                | [] => Ok "Error: single positional indexer is out-of-bounds"
                | (name, count) :: _ =>
                    Ok ("Top Doctor: " ++ name ++ " with " ++ str_int count
                        ++ " appointments")
                end).
  { unfold App.ai_query. cbn [connect bind]. unfold App.ai_query_try.
    rewrite H1, H2. unfold App.read_sql, App.top_doctor.
    cbn [read_file bind]. rewrite Hd, Ha. cbn [from_table bind].
    match goal with
    | |- context [firstn 1 ?l] => destruct (firstn 1 l) as [|[n c] ?]
    end; reflexivity. }
  rewrite E. clear E. split.
  - intros ->. reflexivity.
  - intros Hne.
    match goal with
    | |- context [App.order_by_desc ?lt ?l] =>
        destruct (App.order_by_desc lt l) as [|[n c] rest] eqn:Eo;
        [|destruct (order_by_desc_head lt
                      ltac:(cbn; intros; lia) ltac:(cbn; intros; lia)
                      l (n, c) rest Eo) as [Hin Hmax]]
    end.
    + exfalso. destruct (rows td) as [|d ds] eqn:Er; [congruence|].
      assert (Hin : In d (rows td)) by (rewrite Er; now left).
      apply (In_left_join _ (rows ta)) in Hin. destruct Hin as (oa & Hin).
      rewrite Er in Hin.
      match type of Eo with
      | App.order_by_desc ?lt ?l = [] =>
          assert (Hx : In (Doctor.name d,
                          App.count_appointments (Doctor.name d)
                            (App.left_join_appointments (d :: ds) (rows ta)))
                         (App.order_by_desc lt l))
      end.
      { apply In_order_by_desc, in_map_iff. eexists. split; [reflexivity|].
        apply nodup_In, in_map_iff. exists (d, oa). auto. }
      rewrite Eo in Hx. destruct Hx.
    + apply in_map_iff in Hin. destruct Hin as (n' & [= -> <-] & Hn).
      apply nodup_In, in_map_iff in Hn. destruct Hn as ([d oa] & <- & Hrow).
      cbn [fst] in *. exists d. split.
      { apply (In_left_join _ (rows ta)). eauto. }
      cbn [firstn]. rewrite count_appointments_left_join. split; [reflexivity|].
      intros d' Hd'. apply (In_left_join _ (rows ta)) in Hd'.
      destruct Hd' as (oa' & Hd').
      assert (Hin' : In (Doctor.name d',
                         App.count_appointments (Doctor.name d')
                           (App.left_join_appointments (rows td) (rows ta)))
                        (map (fun n =>
                                (n, App.count_appointments n
                                      (App.left_join_appointments
                                         (rows td) (rows ta))))
                             (nodup string_dec
                                (map (fun r => Doctor.name (fst r))
                                     (App.left_join_appointments
                                        (rows td) (rows ta)))))).
      { apply in_map_iff. eexists. split; [reflexivity|].
        apply nodup_In, in_map_iff. exists (d', oa'). auto. }
      apply Hmax in Hin'. cbn [snd] in Hin'.
      rewrite !count_appointments_left_join in Hin'. now apply Z.ltb_ge.
Qed.

Lemma top_doctor_answer_witness :
  App.ai_query no_rendering
    (Healthy (App.create_tables App.empty_database)) "Top doctor?"
  = Ok "Error: single positional indexer is out-of-bounds".
Proof.
  exact (proj1 (top_doctor_answer no_rendering
                  (App.create_tables App.empty_database) _ _ "Top doctor?"
                  eq_refl eq_refl eq_refl) eq_refl).
Defined.

(** *** Fresh rowids; the forms *)

Lemma fold_left_max_ge (l : list Z) (i : Z) :
  i <= fold_left Z.max l i /\ forall x, In x l -> x <= fold_left Z.max l i.
Proof.
  revert i; induction l as [|y l IH]; intros i; cbn.
  - split; [lia | intros x []].
  - destruct (IH (Z.max i y)) as [H1 H2]. split; [lia|].
    intros x [<- | Hx]; [lia | now apply H2].
Qed.

Lemma largest_ge (l : list Z) (m : Z) :
  largest l = Some m -> forall x, In x l -> x <= m.
Proof.
  destruct l as [|i l]; cbn; [discriminate|]. intros [= <-] x [<- | Hx].
  - exact (proj1 (fold_left_max_ge l i)).
  - exact (proj2 (fold_left_max_ge l i) x Hx).
Qed.

(** AUTOINCREMENT hands out a rowid above every rowid of the table and
    above the counter. *)
Lemma new_rowid_fresh {R} (rowid : R -> Z) (t : table R) (id : Z) :
  new_rowid rowid t = Ok id ->
  seq t < id /\ Forall (fun r => rowid r < id) (rows t).
Proof.
  unfold new_rowid.
  destruct (largest (map rowid (rows t))) as [m|] eqn:El.
  - destruct (Z.eqb_spec m MAX_ROWID); [discriminate|].
    destruct (Z.eqb_spec (seq t) MAX_ROWID); [discriminate|].
    intros [= <-].
    assert (Hm : forall r, In r (rows t) -> rowid r <= m).
    { intros r Hr. apply (largest_ge _ _ El). now apply in_map. }
    split.
    + destruct (Z.ltb_spec (m + 1) (seq t + 1)); lia.
    + apply Forall_forall. intros r Hr. specialize (Hm r Hr).
      destruct (Z.ltb_spec (m + 1) (seq t + 1)); lia.
  - destruct (Z.eqb_spec (seq t) MAX_ROWID); [discriminate|].
    intros [= <-]. split.
    + destruct (Z.ltb_spec 1 (seq t + 1)); lia.
    + destruct (rows t); [constructor | discriminate].
Qed.

Lemma insert_into_one_fresh {R} (name : string) (rowid : R -> Z)
    (mk : Z -> R) (t t' : option (table R)) :
  insert_into name rowid [mk] t = Ok t' ->
  exists t0 id,
    t = Some t0
    /\ t' = Some {| rows := rows t0 ++ [mk id]; seq := id |}
    /\ seq t0 < id /\ Forall (fun r => rowid r < id) (rows t0).
Proof.
  destruct t as [t0|]; cbn; [|discriminate].
  unfold insert. destruct (new_rowid rowid t0) as [id|e] eqn:E; cbn;
    [|discriminate].
  intros [= <-]. apply new_rowid_fresh in E. destruct E.
  now exists t0, id.
Qed.

Lemma NoDup_fresh (ids : list Z) (id : Z) :
  NoDup ids -> Forall (fun i => i < id) ids -> NoDup (ids ++ [id]).
Proof.
  intros Hn Hf. apply NoDup_app; [exact Hn | repeat constructor; auto |].
  intros i Hi [<- | []]. rewrite Forall_forall in Hf.
  specialize (Hf _ Hi). lia.
Qed.

(** What a stored patient is. *)
Lemma add_patient_inv (s s' : store App.database) (name : string) (age : Z)
    (gender phone email address blood today : string) :
  App.add_patient s name age gender phone email address blood today
  = (s', Ok App.Success) ->
  exists db t id,
    s = Healthy db /\ App.patients db = Some t /\ name <> ""
    /\ seq t < id /\ Forall (fun p => Patient.patient_id p < id) (rows t)
    /\ s' = Healthy
              {| App.departments := App.departments db;
                 App.doctors := App.doctors db;
                 App.patients :=
                   Some {| rows := rows t
                             ++ [App.insert_patient
                                   (name, age, gender, phone, email, address,
                                    blood, today) id];
                           seq := id |};
                 App.appointments := App.appointments db |}.
Proof.
  intros Ha. unfold App.add_patient in Ha.
  destruct name as [|c name]; [discriminate|].
  match type of Ha with
  | context [App.write s ?f] =>
      destruct (App.write s f) as [s1 [[]|e]] eqn:E
  end; cbn [bind] in Ha; [|discriminate].
  injection Ha as <-. apply write_success in E.
  destruct E as (db & db' & Hs & E & ->).
  match type of E with
  | context [insert_into ?n ?r [?mk] ?t] =>
      destruct (insert_into n r [mk] t) as [pa|e] eqn:Ei
  end; cbn [bind] in E; [|discriminate].
  injection E as <-. apply insert_into_one_fresh in Ei.
  destruct Ei as (t & id & Ht & -> & Hseq & Hids).
  destruct Hs as [-> | [_ ->]]; [|discriminate].
  exists db, t, id. repeat split; auto. discriminate.
Qed.

Lemma add_doctor_inv (s s' : store App.database) (name spec : string)
    (dept : option Z) (phone email : string) (exp fee : Z) :
  App.add_doctor s name spec dept phone email exp fee
  = (s', Ok App.Success) ->
  exists db t id,
    s = Healthy db /\ App.doctors db = Some t /\ name <> "" /\ spec <> ""
    /\ seq t < id /\ Forall (fun d => Doctor.doctor_id d < id) (rows t)
    /\ s' = Healthy
              {| App.departments := App.departments db;
                 App.doctors :=
                   Some {| rows := rows t
                             ++ [App.insert_doctor
                                   (name, spec, dept, phone, email, exp, fee)
                                   id];
                           seq := id |};
                 App.patients := App.patients db;
                 App.appointments := App.appointments db |}.
Proof.
  intros Ha. unfold App.add_doctor in Ha.
  destruct name as [|c name]; [discriminate|].
  destruct spec as [|c' spec]; [discriminate|].
  match type of Ha with
  | context [App.write s ?f] =>
      destruct (App.write s f) as [s1 [[]|e]] eqn:E
  end; cbn [bind] in Ha; [|discriminate].
  injection Ha as <-. apply write_success in E.
  destruct E as (db & db' & Hs & E & ->).
  match type of E with
  | context [insert_into ?n ?r [?mk] ?t] =>
      destruct (insert_into n r [mk] t) as [pa|e] eqn:Ei
  end; cbn [bind] in E; [|discriminate].
  injection E as <-. apply insert_into_one_fresh in Ei.
  destruct Ei as (t & id & Ht & -> & Hseq & Hids).
  destruct Hs as [-> | [_ ->]]; [|discriminate].
  exists db, t, id. repeat split; auto; discriminate.
Qed.

Lemma book_appointment_inv (s s' : store App.database)
    (patient doctor : option Z) (date : Z * Z * Z) (time : Z * Z)
    (reason : string) :
  App.book_appointment s patient doctor date time reason
  = (s', Ok App.Success) ->
  exists db t id,
    s = Healthy db /\ App.appointments db = Some t
    /\ seq t < id
    /\ Forall (fun a => Appointment.appointment_id a < id) (rows t)
    /\ s' = Healthy
              {| App.departments := App.departments db;
                 App.doctors := App.doctors db;
                 App.patients := App.patients db;
                 App.appointments :=
                   Some {| rows := rows t
                             ++ [App.insert_appointment
                                   (patient, doctor,
                                    App.strftime_date (fst (fst date))
                                      (snd (fst date)) (snd date),
                                    App.strftime_time (fst time) (snd time),
                                    "Scheduled", reason) id];
                           seq := id |} |}.
Proof.
  destruct date as [[year month] day], time as [hour minute].
  intros Ha. unfold App.book_appointment in Ha.
  match type of Ha with
  | context [App.write s ?f] =>
      destruct (App.write s f) as [s1 [[]|e]] eqn:E
  end; cbn [bind] in Ha; [|discriminate].
  injection Ha as <-. apply write_success in E.
  destruct E as (db & db' & Hs & E & ->).
  match type of E with
  | context [insert_into ?n ?r [?mk] ?t] =>
      destruct (insert_into n r [mk] t) as [pa|e] eqn:Ei
  end; cbn [bind] in E; [|discriminate].
  injection E as <-. apply insert_into_one_fresh in Ei.
  destruct Ei as (t & id & Ht & -> & Hseq & Hids).
  destruct Hs as [-> | [_ ->]]; [|discriminate].
  exists db, t, id. repeat split; auto.
Qed.

(** X5.  The three forms never reuse a primary key.  A stored patient,
    doctor or appointment gets an identifier above every identifier of its
    table, so identifiers that were distinct stay distinct; the form
    touches no other table. *)
Theorem forms_keep_keys_distinct (s s' : store App.database) :
  (forall name age gender phone email address blood today,
      App.add_patient s name age gender phone email address blood today
      = (s', Ok App.Success) ->
      exists db db' t row,
        s = Healthy db /\ s' = Healthy db' /\ App.patients db = Some t
        /\ contents (App.patients db') = (rows t ++ [row])%list
        /\ Forall (fun p => Patient.patient_id p < Patient.patient_id row)
                  (rows t)
        /\ (NoDup (map Patient.patient_id (rows t)) ->
            NoDup (map Patient.patient_id (contents (App.patients db'))))
        /\ App.departments db' = App.departments db
        /\ App.doctors db' = App.doctors db
        /\ App.appointments db' = App.appointments db)
  /\ (forall name spec dept phone email exp fee,
      App.add_doctor s name spec dept phone email exp fee
      = (s', Ok App.Success) ->
      exists db db' t row,
        s = Healthy db /\ s' = Healthy db' /\ App.doctors db = Some t
        /\ contents (App.doctors db') = (rows t ++ [row])%list
        /\ Forall (fun d => Doctor.doctor_id d < Doctor.doctor_id row)
                  (rows t)
        /\ (NoDup (map Doctor.doctor_id (rows t)) ->
            NoDup (map Doctor.doctor_id (contents (App.doctors db'))))
        /\ App.departments db' = App.departments db
        /\ App.patients db' = App.patients db
        /\ App.appointments db' = App.appointments db)
  /\ (forall patient doctor date time reason,
      App.book_appointment s patient doctor date time reason
      = (s', Ok App.Success) ->
      exists db db' t row,
        s = Healthy db /\ s' = Healthy db' /\ App.appointments db = Some t
        /\ contents (App.appointments db') = (rows t ++ [row])%list
        /\ Forall (fun a => Appointment.appointment_id a
                            < Appointment.appointment_id row) (rows t)
        /\ (NoDup (map Appointment.appointment_id (rows t)) ->
            NoDup (map Appointment.appointment_id
                       (contents (App.appointments db'))))
        /\ App.departments db' = App.departments db
        /\ App.doctors db' = App.doctors db
        /\ App.patients db' = App.patients db).
Proof.
  split; [|split].
  - intros name age gender phone email address blood today H.
    apply add_patient_inv in H.
    destruct H as (db & t & id & -> & Ht & _ & _ & Hids & ->).
    eexists db, _, t, _. split; [reflexivity|]. split; [reflexivity|].
    split; [exact Ht|]. cbn. split; [reflexivity|]. split; [exact Hids|].
    split; [|auto]. intros Hn. rewrite map_app. cbn.
    apply NoDup_fresh; [exact Hn|]. now apply Forall_map.
  - intros name spec dept phone email exp fee H.
    apply add_doctor_inv in H.
    destruct H as (db & t & id & -> & Ht & _ & _ & _ & Hids & ->).
    eexists db, _, t, _. split; [reflexivity|]. split; [reflexivity|].
    split; [exact Ht|]. cbn. split; [reflexivity|]. split; [exact Hids|].
    split; [|auto]. intros Hn. rewrite map_app. cbn.
    apply NoDup_fresh; [exact Hn|]. now apply Forall_map.
  - intros patient doctor date time reason H.
    apply book_appointment_inv in H.
    destruct H as (db & t & id & -> & Ht & _ & Hids & ->).
    eexists db, _, t, _. split; [reflexivity|]. split; [reflexivity|].
    split; [exact Ht|]. cbn. split; [reflexivity|]. split; [exact Hids|].
    split; [|auto]. intros Hn. rewrite map_app. cbn.
    apply NoDup_fresh; [exact Hn|]. now apply Forall_map.
Qed.

Lemma forms_keep_keys_distinct_witness :
  exists s' db',
    App.add_patient seeded "Omar Farooq" 41 "Male" "0316-6666666"
      "omar@email.com" "Multan" "B+" "2026-11-04" = (s', Ok App.Success)
    /\ s' = Healthy db'
    /\ NoDup (map Patient.patient_id (contents (App.patients db'))).
Proof.
  pose (r := App.add_patient seeded "Omar Farooq" 41 "Male" "0316-6666666"
               "omar@email.com" "Multan" "B+" "2026-11-04").
  assert (E : r = (fst r, Ok App.Success)) by (vm_compute; reflexivity).
  destruct (proj1 (forms_keep_keys_distinct seeded (fst r)) _ _ _ _ _ _ _ _ E)
    as (db & db' & t & row & Hs & Hs' & Ht & _ & _ & Hn & _).
  exists (fst r), db'. split; [exact E|]. split; [exact Hs'|].
  apply Hn. vm_compute in Hs. injection Hs as <-. cbn in Ht.
  injection Ht as <-. cbn.
  repeat (constructor; [cbn; intuition discriminate|]). constructor.
Defined.

(** *** The numbers of the dashboard *)

Lemma get_stats_healthy (db : App.database) (tp : table Patient.t)
    (td : table Doctor.t) (ta : table Appointment.t) :
  App.patients db = Some tp -> App.doctors db = Some td ->
  App.appointments db = Some ta ->
  App.get_stats (Healthy db)
  = Ok {| App.Stats.patients := Z.of_nat (List.length (rows tp));
          App.Stats.doctors := Z.of_nat (List.length (rows td));
          App.Stats.appointments := Z.of_nat (List.length (rows ta));
          App.Stats.pending :=
            Z.of_nat (List.length (filter App.is_scheduled (rows ta))) |}.
Proof.
  intros Hp Hd Ha. unfold App.get_stats, App.read_sql, App.count_rows.
  cbn [connect read_file bind]. rewrite Hp, Hd, Ha. reflexivity.
Qed.

Lemma get_stats_inv (s : store App.database) (st : App.Stats.t) :
  App.get_stats s = Ok st ->
  exists db tp td ta,
    s = Healthy db /\ App.patients db = Some tp /\ App.doctors db = Some td
    /\ App.appointments db = Some ta.
Proof.
  unfold App.get_stats, App.read_sql, App.count_rows.
  destruct s as [|db| |]; cbn [connect read_file bind]; try discriminate.
  destruct db as [de [td|] [tp|] [ta|]]; cbn; try discriminate.
  intros _. now exists {| App.departments := de; App.doctors := Some td;
                          App.patients := Some tp;
                          App.appointments := Some ta |}, tp, td, ta.
Qed.

(** X6.  The numbers of the dashboard follow the forms: a stored patient
    or doctor raises its count by one and no other number; a booked
    appointment raises the appointments and the pending ones by one each.
    The pending appointments are never more than the appointments. *)
Theorem stats_follow_forms (s s' : store App.database) (st : App.Stats.t) :
  App.get_stats s = Ok st ->
  0 <= App.Stats.pending st <= App.Stats.appointments st
  /\ (forall name age gender phone email address blood today,
      App.add_patient s name age gender phone email address blood today
      = (s', Ok App.Success) ->
      App.get_stats s'
      = Ok {| App.Stats.patients := App.Stats.patients st + 1;
              App.Stats.doctors := App.Stats.doctors st;
              App.Stats.appointments := App.Stats.appointments st;
              App.Stats.pending := App.Stats.pending st |})
  /\ (forall name spec dept phone email exp fee,
      App.add_doctor s name spec dept phone email exp fee
      = (s', Ok App.Success) ->
      App.get_stats s'
      = Ok {| App.Stats.patients := App.Stats.patients st;
              App.Stats.doctors := App.Stats.doctors st + 1;
              App.Stats.appointments := App.Stats.appointments st;
              App.Stats.pending := App.Stats.pending st |})
  /\ (forall patient doctor date time reason,
      App.book_appointment s patient doctor date time reason
      = (s', Ok App.Success) ->
      App.get_stats s'
      = Ok {| App.Stats.patients := App.Stats.patients st;
              App.Stats.doctors := App.Stats.doctors st;
              App.Stats.appointments := App.Stats.appointments st + 1;
              App.Stats.pending := App.Stats.pending st + 1 |}).
Proof.
  intros Hst. destruct (get_stats_inv _ _ Hst) as (db & tp & td & ta & -> & Hp & Hd & Ha).
  rewrite (get_stats_healthy db tp td ta Hp Hd Ha) in Hst.
  injection Hst as <-. cbn [App.Stats.patients App.Stats.doctors
                           App.Stats.appointments App.Stats.pending].
  split; [|split; [|split]].
  - pose proof (filter_length_le App.is_scheduled (rows ta)). lia.
  - intros name age gender phone email address blood today H.
    apply add_patient_inv in H.
    destruct H as (db0 & t & id & [= <-] & Ht & _ & _ & _ & ->).
    rewrite Hp in Ht. injection Ht as <-.
    erewrite get_stats_healthy by (cbn; eauto).
    cbn [rows]. rewrite length_app. cbn [List.length].
    do 2 f_equal. lia.
  - intros name spec dept phone email exp fee H.
    apply add_doctor_inv in H.
    destruct H as (db0 & t & id & [= <-] & Ht & _ & _ & _ & _ & ->).
    rewrite Hd in Ht. injection Ht as <-.
    erewrite get_stats_healthy by (cbn; eauto).
    cbn [rows]. rewrite length_app. cbn [List.length].
    do 2 f_equal. lia.
  - intros patient doctor date time reason H.
    apply book_appointment_inv in H.
    destruct H as (db0 & t & id & [= <-] & Ht & _ & _ & ->).
    rewrite Ha in Ht. injection Ht as <-.
    erewrite get_stats_healthy by (cbn; eauto).
    cbn [rows]. rewrite filter_app, !length_app. cbn.
    f_equal. f_equal; lia.
Qed.

Lemma stats_follow_forms_witness :
  exists s',
    App.book_appointment seeded (Some 1) (Some 2) (2026, 11, 4) (9, 30) "Cough"
    = (s', Ok App.Success)
    /\ App.get_stats seeded
       = Ok {| App.Stats.patients := 5; App.Stats.doctors := 5;
               App.Stats.appointments := 5; App.Stats.pending := 2 |}
    /\ App.get_stats s'
       = Ok {| App.Stats.patients := 5; App.Stats.doctors := 5;
               App.Stats.appointments := 6; App.Stats.pending := 3 |}.
Proof.
  pose (r := App.book_appointment seeded (Some 1) (Some 2) (2026, 11, 4)
               (9, 30) "Cough").
  assert (E : r = (fst r, Ok App.Success)) by (vm_compute; reflexivity).
  assert (Hst : App.get_stats seeded
                = Ok {| App.Stats.patients := 5; App.Stats.doctors := 5;
                        App.Stats.appointments := 5; App.Stats.pending := 2 |})
    by (vm_compute; reflexivity).
  exists (fst r). split; [exact E|]. split; [exact Hst|].
  exact (proj2 (proj2 (proj2 (stats_follow_forms seeded (fst r) _ Hst)))
           _ _ _ _ _ E).
Defined.

(** *** More on the bootstrap *)

Lemma executemany_appends {R} (rowid : R -> Z) (mks : list (Z -> R)) :
  forall t t' : table R,
    executemany rowid mks t = Ok t' ->
    exists l, rows t' = (rows t ++ l)%list
              /\ List.length l = List.length mks.
Proof.
  induction mks as [|mk mks IH]; intros t t'; cbn [executemany].
  - intros [= <-]. exists []. now rewrite app_nil_r.
  - destruct (insert rowid mk t) as [t1|e] eqn:E; cbn [bind]; [|discriminate].
    intros H. apply insert_inv in E. destruct E as (id & ->).
    destruct (IH _ _ H) as (l & -> & Hl). cbn [rows].
    exists (mk id :: l). rewrite <- app_assoc. cbn. now rewrite Hl.
Qed.

Lemma insert_into_extends {R} (name : string) (rowid : R -> Z)
    (mks : list (Z -> R)) (t t' : option (table R)) :
  insert_into name rowid mks t = Ok t' -> extends t t'.
Proof.
  destruct t as [t|]; cbn; [|discriminate].
  destruct (executemany rowid mks t) as [t1|e] eqn:E; cbn; [|discriminate].
  intros [= <-]. apply executemany_appends in E. destruct E as (l & E & _).
  exists l. exact E.
Qed.

Lemma created_extends {R} (t : option (table R)) :
  extends t (create_table_if_not_exists t).
Proof. exists []. destruct t; cbn; now rewrite ?app_nil_r. Qed.

Lemma extends_trans {R} (t1 t2 t3 : option (table R)) :
  extends t1 t2 -> extends t2 t3 -> extends t1 t3.
Proof.
  intros [l1 H1] [l2 H2]. exists (l1 ++ l2)%list.
  now rewrite H2, H1, app_assoc.
Qed.

(** X7.  [init_db] never deletes a row of a database it can read: whether
    it seeds or not, and however it ends, every table holds afterwards the
    rows it held before, in their order, followed by what was added. *)
Theorem init_db_keeps_rows (db : App.database) :
  exists db' r,
    App.init_db (Healthy db) = (Healthy db', r)
    /\ extends (App.departments db) (App.departments db')
    /\ extends (App.doctors db) (App.doctors db')
    /\ extends (App.patients db) (App.patients db')
    /\ extends (App.appointments db) (App.appointments db').
Proof.
  assert (Hc : extends (App.departments db)
                 (App.departments (App.create_tables db))
               /\ extends (App.doctors db) (App.doctors (App.create_tables db))
               /\ extends (App.patients db)
                    (App.patients (App.create_tables db))
               /\ extends (App.appointments db)
                    (App.appointments (App.create_tables db))).
  { cbn. repeat split; apply created_extends. }
  unfold App.init_db, App.try_probe. cbn [connect select_1].
  unfold App.bootstrap. cbn [read_file].
  destruct (from_table "departments"
              (App.departments (App.create_tables db))) as [ds|e];
    [|eexists _, _; split; [reflexivity | exact Hc]].
  destruct (Z.of_nat (List.length ds) =? 0);
    [|eexists _, _; split; [reflexivity | exact Hc]].
  destruct (App.seed (App.create_tables db)) as [db'|e] eqn:Es;
    [|eexists _, _; split; [reflexivity | exact Hc]].
  eexists _, _; split; [reflexivity|].
  destruct Hc as (H1 & H2 & H3 & H4). unfold App.seed in Es.
  repeat match type of Es with
         | context [insert_into ?n ?r ?m ?t] =>
             let E := fresh "E" in
             destruct (insert_into n r m t) eqn:E; cbn [bind] in Es;
             [apply insert_into_extends in E | discriminate]
         end.
  injection Es as <-. cbn.
  repeat split; eapply extends_trans; eassumption.
Qed.

Lemma new_rowid_room {R} (rowid : R -> Z) (t : table R) :
  0 <= seq t -> has_room rowid t ->
  exists id,
    new_rowid rowid t = Ok id
    /\ (id = seq t + 1 \/ id = 1
        \/ exists r, In r (rows t) /\ id = rowid r + 1).
Proof.
  intros H0 [Hs Hr]. unfold new_rowid.
  destruct (largest (map rowid (rows t))) as [m|] eqn:El.
  - apply largest_In, in_map_iff in El. destruct El as (r & <- & Hin).
    rewrite Forall_forall in Hr. pose proof (Hr r Hin).
    destruct (Z.eqb_spec (rowid r) MAX_ROWID); [lia|].
    destruct (Z.eqb_spec (seq t) MAX_ROWID); [lia|].
    eexists. split; [reflexivity|].
    destruct (Z.ltb_spec (rowid r + 1) (seq t + 1)); eauto.
  - destruct (Z.eqb_spec (seq t) MAX_ROWID); [lia|].
    eexists. split; [reflexivity|].
    destruct (Z.ltb_spec 1 (seq t + 1)); auto.
Qed.

Lemma executemany_room {R} (rowid : R -> Z) (mks : list (Z -> R)) :
  Forall (keyed rowid) mks ->
  forall t : table R,
    room_for (Z.of_nat (List.length mks)) rowid (Some t) ->
    exists t',
      executemany rowid mks t = Ok t'
      /\ List.length (rows t') = (List.length (rows t) + List.length mks)%nat.
Proof.
  induction 1 as [|mk mks Hk _ IH]; intros t (H0 & Hs & Hr).
  - exists t. cbn. split; [reflexivity | lia].
  - cbn [List.length] in Hs, Hr. cbn [executemany].
    destruct (new_rowid_room rowid t H0) as (id & Eid & Hid).
    { split; [lia|]. eapply Forall_impl; [|exact Hr]. cbn. intros; lia. }
    unfold insert. rewrite Eid. cbn [bind].
    destruct (IH {| rows := rows t ++ [mk id]; seq := id |})
      as (t' & E & Hl).
    + assert (Hb : 0 <= id /\ id + Z.of_nat (List.length mks) <= MAX_ROWID).
      { pose proof (proj1 (new_rowid_fresh _ _ _ Eid)) as Hf.
        destruct Hid as [-> | [-> | (r & Hin & ->)]]; try lia.
        rewrite Forall_forall in Hr. specialize (Hr r Hin). lia. }
      cbn. split; [lia|]. split; [lia|].
      apply Forall_app. split.
      * eapply Forall_impl; [|exact Hr]. cbn. intros; lia.
      * constructor; [|constructor]. rewrite Hk. lia.
    + exists t'. split; [exact E|]. rewrite Hl. cbn [rows].
      rewrite length_app. cbn. lia.
Qed.

Lemma insert_into_room {R} (name : string) (rowid : R -> Z)
    (mks : list (Z -> R)) (t : option (table R)) :
  Forall (keyed rowid) mks ->
  Z.of_nat (List.length mks) <= MAX_ROWID ->
  room_for (Z.of_nat (List.length mks)) rowid t ->
  exists t',
    insert_into name rowid mks (create_table_if_not_exists t) = Ok (Some t')
    /\ List.length (rows t')
       = (List.length (contents t) + List.length mks)%nat.
Proof.
  intros Hk Hn Hr.
  destruct t as [t|];
    cbn [create_table_if_not_exists insert_into contents].
  - destruct (executemany_room rowid mks Hk t Hr) as (t' & -> & Hl).
    exists t'. split; [reflexivity | exact Hl].
  - destruct (executemany_room rowid mks Hk empty_table) as (t' & -> & Hl).
    + cbn. split; [lia|]. split; [exact Hn | constructor].
    + exists t'. split; [reflexivity | exact Hl].
Qed.

(** X8.  Whether [init_db] seeds is decided by the departments table
    alone.  When that table holds no row and the tables have room, the
    five sample rows are added to each of the four tables, also to tables
    that hold rows already. *)
Theorem init_db_seeds_without_departments (db : App.database) :
  contents (App.departments db) = [] ->
  room_for 5 Department.dept_id (App.departments db) ->
  room_for 5 Doctor.doctor_id (App.doctors db) ->
  room_for 5 Patient.patient_id (App.patients db) ->
  room_for 5 Appointment.appointment_id (App.appointments db) ->
  exists db',
    App.init_db (Healthy db) = (Healthy db', Ok tt)
    /\ List.length (contents (App.departments db')) = 5%nat
    /\ List.length (contents (App.doctors db'))
       = (List.length (contents (App.doctors db)) + 5)%nat
    /\ List.length (contents (App.patients db'))
       = (List.length (contents (App.patients db)) + 5)%nat
    /\ List.length (contents (App.appointments db'))
       = (List.length (contents (App.appointments db)) + 5)%nat.
Proof.
  intros He Hde Hdr Hpa Hap.
  assert (H5 : Z.of_nat 5 <= MAX_ROWID) by (unfold MAX_ROWID; lia).
  destruct (insert_into_room "departments" Department.dept_id
              (map App.insert_department App.depts) (App.departments db))
    as (de & Ede & Lde); [| exact H5 | exact Hde |].
  { apply keyed_map. now intros [n l] id. }
  destruct (insert_into_room "doctors" Doctor.doctor_id
              (map App.insert_doctor App.seed_doctors) (App.doctors db))
    as (dr & Edr & Ldr); [| exact H5 | exact Hdr |].
  { apply keyed_map. now intros [[[[[[n s] d] ph] em] ex] fee] id. }
  destruct (insert_into_room "patients" Patient.patient_id
              (map App.insert_patient App.seed_patients) (App.patients db))
    as (pa & Epa & Lpa); [| exact H5 | exact Hpa |].
  { apply keyed_map. now intros [[[[[[[n a] g] ph] em] ad] b] r] id. }
  destruct (insert_into_room "appointments" Appointment.appointment_id
              (map App.insert_appointment App.seed_appointments)
              (App.appointments db))
    as (ap & Eap & Lap); [| exact H5 | exact Hap |].
  { apply keyed_map. now intros [[[[[p d] date] time] st] r] id. }
  exists {| App.departments := Some de; App.doctors := Some dr;
            App.patients := Some pa; App.appointments := Some ap |}.
  split.
  - unfold App.init_db, App.try_probe. cbn [connect select_1].
    unfold App.bootstrap. cbn [read_file].
    assert (Hds : from_table "departments"
                    (App.departments (App.create_tables db)) = Ok []).
    { cbn. destruct (App.departments db) as [t|]; cbn in *;
        [now rewrite He | reflexivity]. }
    rewrite Hds. cbn [List.length Z.of_nat Z.eqb].
    unfold App.seed, App.create_tables.
    cbn [App.departments App.doctors App.patients App.appointments].
    rewrite Ede, Edr, Epa, Eap. reflexivity.
  - cbn [App.departments App.doctors App.patients App.appointments contents].
    rewrite Lde, Ldr, Lpa, Lap, He. repeat split; reflexivity.
Qed.

Lemma init_db_seeds_without_departments_witness :
  exists db',
    App.init_db (Healthy without_departments) = (Healthy db', Ok tt)
    /\ app_counts db' = (5, 10, 10, 10)%nat.
Proof.
  destruct (init_db_seeds_without_departments without_departments)
    as (db' & E & L1 & L2 & L3 & L4).
  - reflexivity.
  - cbn. unfold MAX_ROWID. repeat split; try lia. constructor.
  - cbn. unfold MAX_ROWID. repeat split; try lia.
    repeat (constructor; [cbn; lia|]). constructor.
  - cbn. unfold MAX_ROWID. repeat split; try lia.
    repeat (constructor; [cbn; lia|]). constructor.
  - cbn. unfold MAX_ROWID. repeat split; try lia.
    repeat (constructor; [cbn; lia|]). constructor.
  - exists db'. split; [exact E|]. unfold app_counts.
    rewrite L1, L2, L3, L4. reflexivity.
Defined.

(** X9.  The seeding script starts over each time: what it leaves does not
    depend on what the database held, so a second run leaves what the
    first one left; a file that is not a database is left as it is. *)
Theorem create_hospital_database_resets :
  (forall db0 : Setup.database,
      Setup.create_hospital_database (Healthy db0)
      = Setup.create_hospital_database Absent)
  /\ (forall s : store Setup.database,
      Setup.create_hospital_database (fst (Setup.create_hospital_database s))
      = Setup.create_hospital_database s)
  /\ Setup.create_hospital_database NotADatabase
     = (NotADatabase, Raise (SqliteDatabaseError "file is not a database")).
Proof.
  split; [|split].
  - intros db0. vm_compute. reflexivity.
  - intros [|db0| |]; vm_compute; reflexivity.
  - reflexivity.
Qed.

(** *** More on the revenue report *)

Lemma real_ltb_code (x y : Real.t) :
  Real.ltb x y = true <-> lex_lt (real_code x) (real_code y).
Proof.
  unfold Real.ltb, SFltb, lex_lt.
  destruct x as [[]|[]|[] m1 e1], y as [[]|[]|[] m2 e2];
    cbn [Real.to_spec SFcompare real_code fst snd];
    try (split; [discriminate | lia]);
    try (split; [intros _; lia | reflexivity]).
  - destruct (Z.compare_spec e1 e2); cbn;
      [rewrite Pos.compare_cont_spec; cbn;
       destruct (Pos.compare_spec m1 m2); cbn | |];
      (split; [try discriminate; intros _; lia
              | first [reflexivity | intros; exfalso; lia]]).
  - destruct (Z.compare_spec e1 e2); cbn;
      [rewrite Pos.compare_cont_spec; cbn;
       destruct (Pos.compare_spec m1 m2); cbn | |];
      (split; [try discriminate; intros _; lia
              | first [reflexivity | intros; exfalso; lia]]).
Qed.

Lemma real_ltb_asym (x y : Real.t) :
  Real.ltb x y = true -> Real.ltb y x = false.
Proof.
  intros H. destruct (Real.ltb y x) eqn:E; [|reflexivity].
  apply real_ltb_code in H, E. unfold lex_lt in *.
  destruct (real_code x) as [[a b] c], (real_code y) as [[a' b'] c'].
  cbn in *. lia.
Qed.

Lemma real_ltb_trans (x y z : Real.t) :
  Real.ltb x y = false -> Real.ltb y z = false -> Real.ltb x z = false.
Proof.
  intros H1 H2. destruct (Real.ltb x z) eqn:E; [|reflexivity].
  apply real_ltb_code in E.
  assert (N1 : ~ lex_lt (real_code x) (real_code y))
    by (intros H; apply real_ltb_code in H; congruence).
  assert (N2 : ~ lex_lt (real_code y) (real_code z))
    by (intros H; apply real_ltb_code in H; congruence).
  unfold lex_lt in *.
  destruct (real_code x) as [[a b] c], (real_code y) as [[a' b'] c'],
           (real_code z) as [[a'' b''] c''].
  cbn in *. lia.
Qed.

Lemma lt_null_asym (x y : option Real.t) :
  App.lt_null x y = true -> App.lt_null y x = false.
Proof.
  destruct x, y; cbn; intros; try reflexivity; try discriminate.
  now apply real_ltb_asym.
Qed.

Lemma lt_null_trans (x y z : option Real.t) :
  App.lt_null x y = false -> App.lt_null y z = false ->
  App.lt_null x z = false.
Proof.
  destruct x, y, z; cbn; intros; try reflexivity; try discriminate.
  eapply real_ltb_trans; eassumption.
Qed.

(** X10.  The revenue report comes largest revenue first: no row has a
    smaller revenue than a row after it, and a row without revenue (a
    doctor whose fee is NULL) comes after every row that has one. *)
Theorem revenue_descending (db : App.database) (td : table Doctor.t)
    (ta : table Appointment.t) :
  App.doctors db = Some td ->
  App.appointments db = Some ta ->
  exists result,
    App.revenue (Healthy db) = Ok result
    /\ descending (fun x y => App.lt_null (snd x) (snd y)) result.
Proof.
  intros Hd Ha. exists (revenue_result (rows td) (rows ta)).
  split; [now apply revenue_of_tables|].
  unfold revenue_result. apply order_by_desc_descending.
  - intros x y. apply lt_null_asym.
  - intros x y z. apply lt_null_trans.
Qed.

Lemma revenue_descending_witness :
  exists result,
    App.revenue (Healthy seeded_db) = Ok result
    /\ descending (fun x y => App.lt_null (snd x) (snd y)) result.
Proof.
  exact (revenue_descending seeded_db _ _ eq_refl eq_refl).
Defined.

(** *** The listings of appointments and doctors *)

Lemma view_appointments_healthy (db : App.database) (f : App.status_filter) :
  App.view_appointments (Healthy db) f
  = match App.run_view_appointments f db with
    | Ok lines => Ok lines
    | Raise e =>
        Raise (PandasDatabaseError
                 ("Execution failed on sql '" ++ App.appointments_query f
                  ++ "': " ++ str e))
    end.
Proof. reflexivity. Qed.

(** The lines of the listing: an appointment that passes the filter, with
    a patient and a doctor that its two references name. *)
Lemma In_run_view_appointments (db : App.database) (f : App.status_filter)
    (tp : table Patient.t) (td : table Doctor.t) (ta : table Appointment.t)
    (line : App.appointment_line) :
  App.patients db = Some tp -> App.doctors db = Some td ->
  App.appointments db = Some ta ->
  exists lines,
    App.run_view_appointments f db = Ok lines
    /\ (In line lines <->
        exists a p d,
          In a (rows ta) /\ In p (rows tp) /\ In d (rows td)
          /\ App.eq_id (Appointment.patient_id a) (Patient.patient_id p) = true
          /\ App.eq_id (Appointment.doctor_id a) (Doctor.doctor_id d) = true
          /\ App.passes f a = true
          /\ line = {| App.line_appointment := a;
                       App.line_patient := Patient.name p;
                       App.line_doctor_name := Doctor.name d |}).
Proof.
  intros Hp Hd Ha. unfold App.run_view_appointments.
  rewrite Ha, Hp, Hd. cbn [from_table bind].
  eexists. split; [reflexivity|]. split.
  - intros H. apply in_flat_map in H. destruct H as (a & Hina & H).
    apply in_flat_map in H. destruct H as (p & Hinp & H).
    apply in_flat_map in H. destruct H as (d & Hind & H).
    destruct (App.eq_id (Appointment.patient_id a) (Patient.patient_id p))
      eqn:E1; [|destruct H].
    destruct (App.eq_id (Appointment.doctor_id a) (Doctor.doctor_id d))
      eqn:E2; [|destruct H].
    destruct (App.passes f a) eqn:E3; [|destruct H].
    destruct H as [<- | []]. exists a, p, d. auto 10.
  - intros (a & p & d & Hina & Hinp & Hind & E1 & E2 & E3 & ->).
    apply in_flat_map. exists a. split; [exact Hina|].
    apply in_flat_map. exists p. split; [exact Hinp|].
    apply in_flat_map. exists d. split; [exact Hind|].
    rewrite E1, E2, E3. now left.
Qed.

(** X11.  A booked appointment in the listing.  When the patient and the
    doctor of the form exist, the line of the new appointment, with their
    names, is listed under "All" and under "Scheduled", and under no other
    filter.  When a select box had no option, the appointment is stored
    without that reference, and no filter lists it. *)
Theorem booked_appointment_listing (s s' : store App.database)
    (patient doctor : option Z) (date : Z * Z * Z) (time : Z * Z)
    (reason : string) :
  App.book_appointment s patient doctor date time reason
  = (s', Ok App.Success) ->
  exists db db' a,
    s = Healthy db /\ s' = Healthy db'
    /\ In a (contents (App.appointments db'))
    /\ Appointment.patient_id a = patient
    /\ Appointment.doctor_id a = doctor
    /\ Appointment.reason a = Some reason
    /\ (forall tp td p d f lines,
          App.patients db = Some tp -> App.doctors db = Some td ->
          In p (rows tp) -> patient = Some (Patient.patient_id p) ->
          In d (rows td) -> doctor = Some (Doctor.doctor_id d) ->
          App.view_appointments s' f = Ok lines ->
          (In {| App.line_appointment := a;
                 App.line_patient := Patient.name p;
                 App.line_doctor_name := Doctor.name d |} lines
           <-> f = App.All \/ f = App.Scheduled))
    /\ (patient = None \/ doctor = None ->
        forall f lines line,
          App.view_appointments s' f = Ok lines ->
          In line lines -> App.line_appointment line <> a).
Proof.
  intros H. apply book_appointment_inv in H.
  destruct H as (db & t & id & -> & Ht & _ & _ & ->).
  eexists db, _, _. split; [reflexivity|]. split; [reflexivity|].
  cbn [App.appointments contents rows]. split.
  { apply in_or_app. right. now left. }
  split; [reflexivity|]. split; [reflexivity|]. split; [reflexivity|].
  split.
  - intros tp td p d f lines Hp Hd Hinp -> Hind -> Hv.
    rewrite view_appointments_healthy in Hv.
    match type of Hv with
    | context [App.run_view_appointments f ?db'] =>
        destruct (In_run_view_appointments db' f tp td _
                    {| App.line_appointment :=
                         App.insert_appointment
                           (Some (Patient.patient_id p),
                            Some (Doctor.doctor_id d),
                            App.strftime_date (fst (fst date))
                              (snd (fst date)) (snd date),
                            App.strftime_time (fst time) (snd time),
                            "Scheduled", reason) id;
                       App.line_patient := Patient.name p;
                       App.line_doctor_name := Doctor.name d |}
                    Hp Hd eq_refl) as (lines' & E & Hiff)
    end.
    rewrite E in Hv. injection Hv as <-. rewrite Hiff. clear Hiff E.
    split.
    + intros (a & p' & d' & _ & _ & _ & _ & _ & Hpass & Hl).
      injection Hl as <- _ _. destruct f; cbn in Hpass; auto; discriminate.
    + intros Hf. eexists _, p, d. split.
      { cbn [rows]. apply in_or_app. right. now left. }
      split; [exact Hinp|]. split; [exact Hind|].
      cbn [App.insert_appointment Appointment.patient_id
           Appointment.doctor_id App.eq_id].
      rewrite !Z.eqb_refl. split; [reflexivity|]. split; [reflexivity|].
      split; [|reflexivity]. destruct Hf as [-> | ->]; reflexivity.
  - intros Hnone f lines line Hv Hin Heq.
    rewrite view_appointments_healthy in Hv.
    destruct (App.run_view_appointments f _) as [lines'|e] eqn:E;
      [|discriminate].
    injection Hv as <-. unfold App.run_view_appointments in E.
    cbn [App.appointments App.patients App.doctors] in E.
    destruct (App.patients db) as [tp|]; cbn in E; [|discriminate].
    destruct (App.doctors db) as [td|]; cbn in E; [|discriminate].
    injection E as <-.
    apply in_flat_map in Hin. destruct Hin as (a & _ & Hin).
    apply in_flat_map in Hin. destruct Hin as (p & _ & Hin).
    apply in_flat_map in Hin. destruct Hin as (d & _ & Hin).
    destruct (App.eq_id (Appointment.patient_id a) (Patient.patient_id p))
      eqn:E1; [|destruct Hin].
    destruct (App.eq_id (Appointment.doctor_id a) (Doctor.doctor_id d))
      eqn:E2; [|destruct Hin].
    destruct (App.passes f a); [|destruct Hin].
    destruct Hin as [<- | []]. cbn in Heq. subst a.
    destruct Hnone as [-> | ->]; cbn in E1, E2; discriminate.
Qed.

Lemma booked_appointment_listing_witness :
  exists s' db' a,
    App.book_appointment seeded (Some 1) None (2026, 11, 4) (9, 30) "Cough"
    = (s', Ok App.Success)
    /\ s' = Healthy db'
    /\ In a (contents (App.appointments db'))
    /\ forall f lines line,
         App.view_appointments s' f = Ok lines ->
         In line lines -> App.line_appointment line <> a.
Proof.
  pose (r := App.book_appointment seeded (Some 1) None (2026, 11, 4) (9, 30)
               "Cough").
  assert (E : r = (fst r, Ok App.Success)) by (vm_compute; reflexivity).
  destruct (booked_appointment_listing seeded (fst r) _ _ _ _ _ E)
    as (db & db' & a & _ & Hs' & Hin & _ & _ & _ & _ & Hhidden).
  exists (fst r), db', a. split; [exact E|]. split; [exact Hs'|].
  split; [exact Hin|]. apply Hhidden. now right.
Defined.

Lemma filter_key_unique {A} (key : A -> Z) (k : Z) (l : list A) :
  NoDup (map key l) ->
  (List.length (filter (fun x => Z.eqb k (key x)) l) <= 1)%nat.
Proof.
  induction l as [|x l IH]; cbn [map filter]; intros Hn; [cbn; lia|].
  inversion Hn as [|? ? Hx Hl]; subst.
  destruct (Z.eqb_spec k (key x)) as [-> | _]; [|now apply IH].
  rewrite filter_none; [cbn; lia|].
  intros y Hy. destruct (Z.eqb_spec (key x) (key y)) as [E|]; [|reflexivity].
  exfalso. apply Hx. rewrite E. now apply in_map.
Qed.

(** X12.  The doctor listing shows every doctor once, in the order of the
    table, as long as no two departments share an identifier: with the
    name of the department that the doctor's [dept_id] names, and without a
    department name when it names none. *)
Theorem view_doctors_each_once (db : App.database)
    (tde : table Department.t) (td : table Doctor.t) :
  App.departments db = Some tde ->
  App.doctors db = Some td ->
  NoDup (map Department.dept_id (rows tde)) ->
  exists lines,
    App.view_doctors (Healthy db) = Ok lines
    /\ map App.line_doctor lines = rows td
    /\ forall line,
         In line lines ->
         match App.line_dept_name line with
         | Some n =>
             exists dept,
               In dept (rows tde)
               /\ Doctor.dept_id (App.line_doctor line)
                  = Some (Department.dept_id dept)
               /\ Department.dept_name dept = n
         | None =>
             forall dept,
               In dept (rows tde) ->
               Doctor.dept_id (App.line_doctor line)
               <> Some (Department.dept_id dept)
         end.
Proof.
  intros Hde Hd Hn. unfold App.view_doctors, App.read_sql,
    App.run_view_doctors.
  cbn [connect read_file bind]. rewrite Hd, Hde. cbn [from_table bind].
  eexists. split; [reflexivity|].
  match goal with
  | |- context [flat_map ?g (rows td)] => set (f := g)
  end.
  assert (Hone : forall d,
             exists o,
               f d = [{| App.line_doctor := d; App.line_dept_name := o |}]
               /\ match o with
                  | Some n =>
                      exists dept,
                        In dept (rows tde)
                        /\ Doctor.dept_id d = Some (Department.dept_id dept)
                        /\ Department.dept_name dept = n
                  | None =>
                      forall dept,
                        In dept (rows tde) ->
                        Doctor.dept_id d <> Some (Department.dept_id dept)
                  end).
  { intros d. subst f. cbn beta.
    destruct (filter (fun dept => App.eq_id (Doctor.dept_id d)
                                            (Department.dept_id dept))
                     (rows tde)) as [|dept m] eqn:E.
    - exists None. split; [reflexivity|]. intros dept Hin Heq.
      assert (Hf : In dept
                     (filter (fun dept => App.eq_id (Doctor.dept_id d)
                                            (Department.dept_id dept))
                             (rows tde))).
      { apply filter_In. split; [exact Hin|]. rewrite Heq. cbn.
        apply Z.eqb_refl. }
      rewrite E in Hf. destruct Hf.
    - assert (Hin : In dept
                      (filter (fun dept => App.eq_id (Doctor.dept_id d)
                                             (Department.dept_id dept))
                              (rows tde))) by (rewrite E; now left).
      apply filter_In in Hin. destruct Hin as [Hin Heq].
      destruct (Doctor.dept_id d) as [k|] eqn:Ek; [|discriminate].
      cbn in Heq. apply Z.eqb_eq in Heq. subst k.
      pose proof (filter_key_unique Department.dept_id
                    (Department.dept_id dept) (rows tde) Hn) as Hu.
      cbn [App.eq_id] in E. rewrite E in Hu.
      destruct m; [|cbn in Hu; lia].
      exists (Some (Department.dept_name dept)). split; [reflexivity|].
      exists dept. auto. }
  clearbody f. split.
  - induction (rows td) as [|d ds IH]; cbn [flat_map map]; [reflexivity|].
    destruct (Hone d) as (o & -> & _). cbn. now rewrite IH.
  - intros line Hin. apply in_flat_map in Hin. destruct Hin as (d & _ & Hin).
    destruct (Hone d) as (o & E & Ho). rewrite E in Hin.
    destruct Hin as [<- | []]. exact Ho.
Qed.

Lemma view_doctors_each_once_witness :
  exists lines,
    App.view_doctors (Healthy seeded_db) = Ok lines
    /\ map App.line_doctor lines = contents (App.doctors seeded_db).
Proof.
  destruct (view_doctors_each_once seeded_db _ _ eq_refl eq_refl)
    as (lines & E & Hm & _).
  - cbn. repeat (constructor; [cbn; intuition discriminate|]). constructor.
  - exists lines. split; [exact E | exact Hm].
Defined.

(** X13.  The forms insist on their required fields and on nothing else:
    the patient form refuses exactly an empty name, the doctor form
    exactly an empty name or an empty specialization, and a refused form
    leaves the store as it was. *)
Theorem forms_require_names (s s' : store App.database) :
  (forall name age gender phone email address blood today,
      App.add_patient s name age gender phone email address blood today
      = (s', Ok App.Error)
      <-> name = "" /\ s' = s)
  /\ (forall name spec dept phone email exp fee,
      App.add_doctor s name spec dept phone email exp fee
      = (s', Ok App.Error)
      <-> (name = "" \/ spec = "") /\ s' = s).
Proof.
  split.
  - intros name age gender phone email address blood today.
    unfold App.add_patient. destruct name as [|c name].
    + split; [intros [= <-]; auto | intros [_ ->]; reflexivity].
    + match goal with
      | |- context [App.write s ?f] =>
          destruct (App.write s f) as [s1 [[]|e]]
      end; cbn [bind]; split; try discriminate; intros [? _]; discriminate.
  - intros name spec dept phone email exp fee.
    unfold App.add_doctor. destruct name as [|c name].
    + split; [intros [= <-]; auto | intros [_ ->]; reflexivity].
    + destruct spec as [|c' spec].
      * split; [intros [= <-]; auto | intros [_ ->]; reflexivity].
      * match goal with
        | |- context [App.write s ?f] =>
            destruct (App.write s f) as [s1 [[]|e]]
        end; cbn [bind]; split; try discriminate;
          intros [[? | ?] _]; discriminate.
Qed.

Lemma forms_require_names_witness :
  App.add_patient seeded "" 30 "Male" "0300-0000000" "" "" "A+" "2026-11-04"
  = (seeded, Ok App.Error).
Proof.
  apply (proj1 (forms_require_names seeded seeded)). split; reflexivity.
Defined.

(** *** The search and the case of letters *)

Lemma fold_ascii_percent (c : ascii) :
  Ascii.eqb (fold_ascii c) "%" = Ascii.eqb c "%".
Proof. destruct c as [[] [] [] [] [] [] [] []]; reflexivity. Qed.

Lemma fold_ascii_underscore (c : ascii) :
  Ascii.eqb (fold_ascii c) "_" = Ascii.eqb c "_".
Proof. destruct c as [[] [] [] [] [] [] [] []]; reflexivity. Qed.

Lemma fold_ascii_idempotent (c : ascii) :
  fold_ascii (fold_ascii c) = fold_ascii c.
Proof. destruct c as [[] [] [] [] [] [] [] []]; reflexivity. Qed.

Lemma fold_case_app (a b : string) :
  fold_case (a ++ b) = fold_case a ++ fold_case b.
Proof. induction a as [|c a IH]; cbn; [reflexivity | now rewrite IH]. Qed.

Lemma compare_percent_nil (p : string) :
  pattern_compare (String "%" p) "" = pattern_compare p "".
Proof. rewrite compare_cons. cbn [Ascii.eqb Bool.eqb]. apply orb_false_r. Qed.

Lemma compare_percent_cons (p : string) (d : ascii) (s : string) :
  pattern_compare (String "%" p) (String d s)
  = pattern_compare p (String d s) || pattern_compare (String "%" p) s.
Proof. rewrite compare_cons at 1. reflexivity. Qed.

(** The comparison does not see the case of the ASCII letters of the text. *)
Lemma compare_fold_subject (p s : string) : pattern_compare p (fold_case s) = pattern_compare p s.
Proof.
  revert s; induction p as [|c p IH]; intros s.
  - destruct s; reflexivity.
  - destruct (Ascii.eqb c "%") eqn:E1; [|destruct (Ascii.eqb c "_") eqn:E2].
    + apply Ascii.eqb_eq in E1. subst c.
      induction s as [|d s IHs]; [reflexivity|].
      change (fold_case (String d s))
        with (String (fold_ascii d) (fold_case s)).
      rewrite !compare_percent_cons, IHs.
      change (String (fold_ascii d) (fold_case s))
        with (fold_case (String d s)).
      now rewrite IH.
    + rewrite !(compare_cons c). rewrite E1, E2.
      destruct s; cbn [fold_case]; [reflexivity | apply IH].
    + rewrite !(compare_cons c). rewrite E1, E2.
      destruct s as [|d s]; cbn [fold_case]; [reflexivity|].
      now rewrite fold_ascii_idempotent, IH.
Qed.

(** Nor the case of the ASCII letters of the pattern. *)
Lemma compare_fold_pattern (p s : string) : pattern_compare (fold_case p) s = pattern_compare p s.
Proof.
  revert s; induction p as [|c p IH]; intros s; [reflexivity|].
  cbn [fold_case].
  destruct (Ascii.eqb c "%") eqn:E1; [|destruct (Ascii.eqb c "_") eqn:E2].
  - apply Ascii.eqb_eq in E1. subst c. change (fold_ascii "%") with "%"%char.
    induction s as [|d s IHs].
    + now rewrite !compare_percent_nil, IH.
    + now rewrite !compare_percent_cons, IH, IHs.
  - apply Ascii.eqb_eq in E2. subst c. change (fold_ascii "_") with "_"%char.
    rewrite !(compare_cons "_"). cbn [Ascii.eqb Bool.eqb]. cbn match.
    destruct s; [reflexivity | apply IH].
  - rewrite (compare_cons c), (compare_cons (fold_ascii c)).
    rewrite fold_ascii_percent, fold_ascii_underscore, E1, E2.
    destruct s as [|d s]; [reflexivity|].
    now rewrite fold_ascii_idempotent, IH.
Qed.

Lemma c_string_fold_case (s : string) :
  c_string (fold_case s) = fold_case (c_string s).
Proof.
  induction s as [|c s IH]; [reflexivity|]. cbn [fold_case c_string].
  replace (Ascii.eqb (fold_ascii c) Ascii.zero) with (Ascii.eqb c Ascii.zero)
    by (destruct c as [[] [] [] [] [] [] [] []]; reflexivity).
  destruct (Ascii.eqb c Ascii.zero); [reflexivity|].
  cbn [fold_case]. now rewrite IH.
Qed.

Lemma utf8_bytes_fold_case (s : string) :
  utf8_bytes (fold_case s) = utf8_bytes s.
Proof.
  induction s as [|c s IH]; [reflexivity|]. cbn [fold_case utf8_bytes].
  rewrite IH. f_equal.
  destruct c as [[] [] [] [] [] [] [] []]; reflexivity.
Qed.

(** LIKE does not see the case of the ASCII letters of its operands. *)
Lemma like_fold_pattern (p s : string) : like (fold_case p) s = like p s.
Proof.
  unfold like. rewrite c_string_fold_case. apply compare_fold_pattern.
Qed.

Lemma like_fold_subject (p s : string) : like p (fold_case s) = like p s.
Proof.
  unfold like. rewrite c_string_fold_case. apply compare_fold_subject.
Qed.

Lemma view_patients_none (db : App.database) (t : table Patient.t)
    (search : string) :
  App.patients db = Some t ->
  rows t = [] ->
  App.literal_text search = true ->
  App.view_patients (Healthy db) search = Ok (App.Shown []).
Proof.
  intros Hp Hr Hl. unfold App.view_patients, App.read_sql.
  cbn [connect read_file bind].
  destruct search as [|c search].
  - rewrite Hp. cbn. now rewrite Hr.
  - rewrite Hl, Hp. cbn [from_table bind]. rewrite Hr. reflexivity.
Qed.

(** X14.  The patient search does not see the case of ASCII letters: two
    search texts that differ in it put the same rows on the page, or both
    fail; and the two results are the same altogether when the pattern is
    within the limit of LIKE or there is no patient (a failure quotes the
    statement, and with it the search text as it was typed). *)
Theorem search_ignores_ascii_case (db : App.database) (t : table Patient.t)
    (search1 search2 : string) :
  App.patients db = Some t ->
  App.literal_text search1 = true ->
  App.literal_text search2 = true ->
  fold_case search1 = fold_case search2 ->
  rows_shown (App.view_patients (Healthy db) search1)
  = rows_shown (App.view_patients (Healthy db) search2)
  /\ (utf8_bytes ("%" ++ search1 ++ "%") <= SQLITE_LIMIT_LIKE_PATTERN_LENGTH
      \/ rows t = [] ->
      App.view_patients (Healthy db) search1
      = App.view_patients (Healthy db) search2).
Proof.
  intros Hp H1 H2 Hf.
  assert (Hb : utf8_bytes ("%" ++ search1 ++ "%")
               = utf8_bytes ("%" ++ search2 ++ "%")).
  { rewrite <- (utf8_bytes_fold_case ("%" ++ search1 ++ "%")),
            <- (utf8_bytes_fold_case ("%" ++ search2 ++ "%")).
    cbn [append fold_case]. rewrite !fold_case_app. now rewrite Hf. }
  assert (Hm : forall p, matches search1 p = matches search2 p).
  { intros p. unfold matches.
    rewrite <- (like_fold_pattern ("%" ++ search1 ++ "%")),
            <- (like_fold_pattern ("%" ++ search2 ++ "%")).
    cbn [append fold_case]. rewrite !fold_case_app. now rewrite Hf. }
  assert (Hsame : utf8_bytes ("%" ++ search1 ++ "%")
                  <= SQLITE_LIMIT_LIKE_PATTERN_LENGTH ->
                App.view_patients (Healthy db) search1
                = App.view_patients (Healthy db) search2).
  { intros Hle.
    rewrite (view_patients_shown db t search1 Hp H1 Hle).
    rewrite Hb in Hle.
    rewrite (view_patients_shown db t search2 Hp H2 Hle).
    do 2 f_equal.
    destruct search1 as [|c1 s1], search2 as [|c2 s2]; try discriminate.
    - reflexivity.
    - apply filter_ext. exact Hm. }
  assert (Hnone : rows t = [] ->
                  App.view_patients (Healthy db) search1
                  = App.view_patients (Healthy db) search2).
  { intros Hr. now rewrite !(view_patients_none db t) by assumption. }
  destruct (Z.le_gt_cases (utf8_bytes ("%" ++ search1 ++ "%"))
              SQLITE_LIMIT_LIKE_PATTERN_LENGTH) as [Hle | Hgt].
  - split; [now rewrite (Hsame Hle) | intros _; exact (Hsame Hle)].
  - destruct (rows t) as [|r l] eqn:Hr.
    + split; [now rewrite (Hnone eq_refl) | intros _; exact (Hnone eq_refl)].
    + split.
      * rewrite (view_patients_too_complex db t search1 Hp) by
          (assumption || (rewrite Hr; discriminate)).
        rewrite Hb in Hgt.
        rewrite (view_patients_too_complex db t search2 Hp) by
          (assumption || (rewrite Hr; discriminate)).
        reflexivity.
      * intros [H | H]; [lia | discriminate].
Qed.

(** Beyond the limit of LIKE the two failures differ as the search texts
    do: each quotes its own statement. *)
Lemma search_failure_quotes_search :
  fold_case (run_of "A" 49999) = fold_case (run_of "a" 49999)
  /\ App.view_patients seeded (run_of "A" 49999)
     <> App.view_patients seeded (run_of "a" 49999).
Proof.
  split.
  - generalize 49999%N as n. intros n.
    induction n as [|n IH] using N.peano_ind; [reflexivity|].
    rewrite !run_of_succ. cbn [fold_case]. now rewrite IH.
  - assert (H : forall c,
               (N_of_ascii c <? 128)%N = true ->
               c <> "'"%char -> c <> Ascii.zero ->
               App.view_patients seeded (run_of c 49999)
               = Raise (PandasDatabaseError
                          ("Execution failed on sql '"
                           ++ App.patients_query (run_of c 49999)
                           ++ "': LIKE or GLOB pattern too complex"))).
    { intros c Hc H1 H2.
      apply (view_patients_too_complex seeded_db _ _ eq_refl);
        [discriminate | now apply literal_text_run_of |].
      rewrite (pattern_bytes_run_of _ _ Hc).
      unfold SQLITE_LIMIT_LIKE_PATTERN_LENGTH. lia. }
    rewrite !H by (reflexivity || discriminate).
    change 49999%N with (N.succ 49998). rewrite !run_of_succ.
    cbn [App.patients_query append]. discriminate.
Qed.

Lemma search_ignores_ascii_case_witness :
  App.view_patients seeded "KHAN" = App.view_patients seeded "khan".
Proof.
  apply (search_ignores_ascii_case seeded_db _ "KHAN" "khan"
           eq_refl eq_refl eq_refl eq_refl).
  left. vm_compute. discriminate.
Defined.

(** *** The status distribution *)

Lemma status_eqb_eq (x y : option string) :
  App.status_eqb x y = true <-> x = y.
Proof.
  destruct x as [a|], y as [b|]; cbn; try (split; congruence).
  rewrite String.eqb_eq. split; congruence.
Qed.

Lemma count_one_key (ks : list (option string)) (k : option string) :
  NoDup ks -> In k ks ->
  App.sum (map (fun k' => if App.status_eqb k k' then 1 else 0) ks) = 1.
Proof.
  induction 1 as [|k0 ks Hk0 Hn IH]; intros Hin; [destruct Hin|].
  cbn [map App.sum fold_right].
  fold (App.sum (map (fun k' => if App.status_eqb k k' then 1 else 0) ks)).
  destruct (App.status_eqb k k0) eqn:E.
  - apply status_eqb_eq in E. subst k0.
    assert (Hz : App.sum (map (fun k' => if App.status_eqb k k' then 1 else 0)
                              ks) = 0).
    { clear IH Hn Hin. induction ks as [|k1 ks IH]; [reflexivity|].
      cbn [map App.sum fold_right].
      fold (App.sum (map (fun k' => if App.status_eqb k k' then 1 else 0) ks)).
      destruct (App.status_eqb k k1) eqn:E1.
      - apply status_eqb_eq in E1. subst k1. exfalso. apply Hk0. now left.
      - rewrite IH; [reflexivity|]. intros H. apply Hk0. now right. }
    lia.
  - destruct Hin as [-> | Hin].
    + assert (App.status_eqb k k = true) by now apply status_eqb_eq.
      congruence.
    + rewrite (IH Hin). lia.
Qed.

(** Counting by key counts every row once. *)
Lemma counts_add_up (ks : list (option string)) (aps : list Appointment.t) :
  NoDup ks ->
  (forall a, In a aps -> In (Appointment.status a) ks) ->
  App.sum (map (fun k =>
                  Z.of_nat
                    (List.length
                       (filter (fun a => App.status_eqb (Appointment.status a) k)
                               aps))) ks)
  = Z.of_nat (List.length aps).
Proof.
  intros Hn. induction aps as [|a aps IH]; intros Hall.
  - cbn. induction ks as [|k ks IHk]; [reflexivity|].
    inversion Hn; subst. cbn. now apply IHk.
  - assert (E : forall l,
               App.sum (map (fun k =>
                  Z.of_nat (List.length
                    (filter (fun a0 => App.status_eqb (Appointment.status a0) k)
                            (a :: aps)))) l)
               = App.sum (map (fun k =>
                  Z.of_nat (List.length
                    (filter (fun a0 => App.status_eqb (Appointment.status a0) k)
                            aps))) l)
                 + App.sum (map (fun k' =>
                     if App.status_eqb (Appointment.status a) k'
                     then 1 else 0) l)).
    { induction l as [|k l IHl]; [reflexivity|].
      cbn [map App.sum fold_right]. unfold App.sum in IHl.
      rewrite IHl. cbn [filter].
      destruct (App.status_eqb (Appointment.status a) k); cbn [List.length];
        lia. }
    rewrite E, IH by (intros; apply Hall; now right).
    rewrite count_one_key by (auto; apply Hall; now left).
    cbn [List.length]. lia.
Qed.

(** X15.  The status distribution has one row for every status that
    occurs among the appointments and for no other, and the count of a row
    is the number of the appointments that have its status: a row [(k, c)]
    is listed exactly when some appointment has the status [k] and [c] of
    them have it.  No status is listed twice, every count is at least one,
    and the counts add up to the number of appointments. *)
Theorem status_distribution_adds_up (db : App.database)
    (ta : table Appointment.t) :
  App.appointments db = Some ta ->
  exists groups,
    App.status_distribution (Healthy db) = Ok groups
    /\ NoDup (map fst groups)
    /\ (forall k c,
          In (k, c) groups
          <-> (exists a, In a (rows ta) /\ Appointment.status a = k)
              /\ c = status_count k (rows ta))
    /\ (forall k c, In (k, c) groups -> 1 <= c)
    /\ App.sum (map snd groups) = Z.of_nat (List.length (rows ta)).
Proof.
  intros Ha. unfold App.status_distribution, App.read_sql,
    App.run_status_distribution.
  cbn [connect read_file bind]. rewrite Ha. cbn [from_table bind].
  eexists. split; [reflexivity|]. split; [|split; [|split]].
  - rewrite map_map. cbn [fst]. rewrite map_id. apply NoDup_nodup.
  - intros k c. rewrite in_map_iff. split.
    + intros (k' & [= -> <-] & Hk).
      apply nodup_In, in_map_iff in Hk. destruct Hk as (a & Hs & Hin).
      split; [eauto | reflexivity].
    + intros [(a & Hin & Hs) ->]. exists k. split; [reflexivity|].
      apply nodup_In, in_map_iff. eauto.
  - intros k c H. apply in_map_iff in H. destruct H as (k' & [= -> <-] & Hk).
    apply nodup_In, in_map_iff in Hk. destruct Hk as (a & Hs & Hin).
    assert (Hf : In a (filter (fun a0 =>
                                 App.status_eqb (Appointment.status a0) k)
                              (rows ta))).
    { apply filter_In. split; [exact Hin|]. now apply status_eqb_eq. }
    destruct (filter _ (rows ta)); [destruct Hf | cbn; lia].
  - rewrite map_map. cbn [snd]. apply counts_add_up.
    + apply NoDup_nodup.
    + intros a Hin. apply nodup_In. now apply in_map.
Qed.

Lemma status_distribution_adds_up_witness :
  exists groups,
    App.status_distribution (Healthy seeded_db) = Ok groups
    /\ In (Some "Scheduled", 2) groups
    /\ ~ In (Some "Completed", 5) groups
    /\ App.sum (map snd groups) = 5.
Proof.
  destruct (status_distribution_adds_up seeded_db _ eq_refl)
    as (groups & E & _ & Hrow & _ & Hsum).
  exists groups. split; [exact E|]. split; [|split; [|exact Hsum]].
  - apply Hrow. split; [|vm_compute; reflexivity].
    eexists. split; [right; right; left; reflexivity | reflexivity].
  - intros H. apply Hrow in H. destruct H as [_ H]. vm_compute in H.
    discriminate.
Defined.

(** *** The cardiology patients *)

Lemma compare_percent_inv (p s : string) :
  pattern_compare (String "%" p) s = true ->
  exists pre post, s = pre ++ post /\ pattern_compare p post = true.
Proof.
  induction s as [|d s IH].
  - rewrite compare_percent_nil. intros H. now exists "", "".
  - rewrite compare_percent_cons. intros H. apply orb_true_iff in H.
    destruct H as [H | H].
    + now exists "", (String d s).
    + destruct (IH H) as (pre & post & -> & Hp).
      now exists (String d pre), post.
Qed.

Lemma compare_plain_prefix (w s : string) :
  plain w = true ->
  pattern_compare (w ++ "%") s = true ->
  prefix (fold_case w) (fold_case s) = true.
Proof.
  revert s; induction w as [|c w IH]; intros s Hw H.
  - destruct s; reflexivity.
  - cbn [plain] in Hw. apply andb_true_iff in Hw. destruct Hw as [Hw Hrest].
    apply andb_true_iff in Hw. destruct Hw as [Hw _].
    apply andb_true_iff in Hw. destruct Hw as [H1 H2].
    apply negb_true_iff in H1, H2.
    cbn [append] in H. rewrite compare_cons, H1, H2 in H.
    destruct s as [|d s]; [discriminate|].
    apply andb_true_iff in H. destruct H as [Hc H].
    apply Ascii.eqb_eq in Hc. cbn [fold_case prefix]. rewrite Hc.
    destruct (ascii_dec (fold_ascii d) (fold_ascii d)) as [_|N];
      [now apply IH | now destruct N].
Qed.

Lemma prefix_contains (a b : string) :
  prefix a b = true -> contains a b = true.
Proof. intros H. destruct b; cbn [contains]; now rewrite H. Qed.

Lemma contains_after (a pre post : string) :
  contains a post = true -> contains a (pre ++ post) = true.
Proof.
  intros H. induction pre as [|c pre IH]; [exact H|].
  cbn [append contains]. rewrite IH. apply orb_true_r.
Qed.

Lemma plain_no_nul (w : string) :
  plain w = true -> contains (String Ascii.zero EmptyString) w = false.
Proof.
  induction w as [|c w IH]; [reflexivity|]. cbn [plain]. intros H.
  apply andb_true_iff in H. destruct H as [H Hrest].
  apply andb_true_iff in H. destruct H as [_ H]. apply negb_true_iff in H.
  cbn [contains prefix]. rewrite (IH Hrest), orb_false_r.
  destruct (ascii_dec Ascii.zero c) as [<- | _]; [|reflexivity].
  discriminate.
Qed.

(** What LIKE finds for a plain word between two percent signs: the texts
    that have the word in them, in any case of the ASCII letters, before
    their first NUL. *)
Lemma like_word (w : string) (x : option string) :
  plain w = true ->
  App.like_null ("%" ++ w ++ "%") x = has_word w x.
Proof.
  intros Hw. destruct x as [x|]; [|reflexivity].
  cbn [App.like_null has_word]. apply Bool.eq_iff_eq_true. split.
  - unfold like. rewrite (c_string_pattern _ (plain_no_nul _ Hw)).
    cbn [append]. intros H. apply compare_percent_inv in H.
    destruct H as (pre & post & E & H). rewrite E, fold_case_app.
    apply contains_after, prefix_contains. now apply compare_plain_prefix.
  - intros H. unfold like. rewrite (c_string_pattern _ (plain_no_nul _ Hw)).
    rewrite <- compare_fold_pattern, <- compare_fold_subject.
    rewrite !fold_case_app. change (fold_case "%") with "%".
    now apply compare_contains.
Qed.

Lemma eq_id_some (x : option Z) (y : Z) :
  App.eq_id x y = true <-> x = Some y.
Proof.
  destruct x as [x|]; cbn; [|split; discriminate].
  rewrite Z.eqb_eq. split; congruence.
Qed.

(** X16.  "Show cardiology patients": the answer has a row, of name, age
    and phone, for every patient that an appointment links to a doctor
    whose specialization has "cardio" in it (in any case of the letters,
    and before any NUL of the text), and has no other row.  When there is
    no such link, the answer is the fixed text; otherwise it is the
    rendering of that table, which has a row. *)
Theorem cardiology_answer (to_string : App.frame -> string)
    (db : App.database) (tp : table Patient.t) (ta : table Appointment.t)
    (td : table Doctor.t) (query : string) :
  App.patients db = Some tp ->
  App.appointments db = Some ta ->
  App.doctors db = Some td ->
  asks_cardiology (lower query) = true ->
  exists f,
    App.columns f = ["name"; "age"; "phone"]
    /\ (forall row,
          In row (App.records f)
          <-> exists p a d,
                In p (rows tp) /\ In a (rows ta) /\ In d (rows td)
                /\ cardiology_link p a d /\ row = cardiology_row p)
    /\ (~ cardiology_visit (rows tp) (rows ta) (rows td) ->
        App.ai_query to_string (Healthy db) query
        = Ok "No cardiology patients found")
    /\ (cardiology_visit (rows tp) (rows ta) (rows td) ->
        App.ai_query to_string (Healthy db) query = Ok (to_string f)
        /\ App.records f <> []).
Proof.
  intros Hp Ha Hd Hq. unfold asks_cardiology in Hq.
  apply andb_true_iff in Hq. destruct Hq as [Hq H3].
  apply andb_true_iff in Hq. destruct Hq as [H1 H2].
  apply negb_true_iff in H1, H2.
  unfold App.ai_query. cbn [connect bind]. unfold App.ai_query_try.
  rewrite H1, H2, H3. unfold App.read_sql, App.cardiology.
  cbn [read_file bind]. rewrite Hp, Ha, Hd. cbn [from_table bind App.records].
  match goal with
  | |- context [match ?l with [] => _ | _ :: _ => _ end] =>
      set (recs := l)
  end.
  assert (Hrow : forall row,
             In row recs
             <-> exists p a d,
                   In p (rows tp) /\ In a (rows ta) /\ In d (rows td)
                   /\ cardiology_link p a d /\ row = cardiology_row p).
  { intros row. subst recs. split.
    - intros Hin.
      apply in_flat_map in Hin. destruct Hin as (p & Hinp & Hin).
      apply in_flat_map in Hin. destruct Hin as (a & Hina & Hin).
      apply in_flat_map in Hin. destruct Hin as (d & Hind & Hin).
      destruct (App.eq_id (Appointment.patient_id a) (Patient.patient_id p))
        eqn:E1; [|destruct Hin].
      destruct (App.eq_id (Appointment.doctor_id a) (Doctor.doctor_id d))
        eqn:E2; [|destruct Hin].
      destruct (App.like_null "%Cardio%" (Doctor.specialization d)) eqn:E3;
        [|destruct Hin].
      destruct Hin as [<- | []].
      exists p, a, d. repeat (split; [assumption|]).
      split; [|reflexivity]. unfold cardiology_link.
      apply eq_id_some in E1, E2.
      rewrite <- (like_word "Cardio" _ eq_refl). auto.
    - intros (p & a & d & Hinp & Hina & Hind & (E1 & E2 & E3) & ->).
      apply eq_id_some in E1, E2.
      rewrite <- (like_word "Cardio" _ eq_refl) in E3.
      change ("%" ++ "Cardio" ++ "%") with "%Cardio%" in E3.
      apply in_flat_map. exists p. split; [exact Hinp|].
      apply in_flat_map. exists a. split; [exact Hina|].
      apply in_flat_map. exists d. split; [exact Hind|].
      rewrite E1, E2, E3. now left. }
  assert (Hrecs : recs <> []
                  <-> cardiology_visit (rows tp) (rows ta) (rows td)).
  { split.
    - intros Hne. destruct recs as [|row l'] eqn:E; [congruence|].
      destruct (proj1 (Hrow row) (or_introl eq_refl))
        as (p & a & d & Hinp & Hina & Hind & Hl & _).
      exists p, a, d. auto.
    - intros (p & a & d & Hinp & Hina & Hind & Hl) Hnil.
      assert (Hin : In (cardiology_row p) recs).
      { apply Hrow. exists p, a, d. auto 10. }
      rewrite Hnil in Hin. destruct Hin. }
  clearbody recs.
  exists {| App.columns := ["name"; "age"; "phone"]; App.records := recs |}.
  split; [reflexivity|]. split; [exact Hrow|]. split.
  - intros Hno. destruct recs as [|row l]; [reflexivity|].
    exfalso. apply Hno, Hrecs. discriminate.
  - intros Hv. apply Hrecs in Hv. destruct recs as [|row l]; [congruence|].
    split; [reflexivity | discriminate].
Qed.

Lemma cardiology_answer_witness :
  exists f,
    App.ai_query no_rendering seeded "Show cardiology patients"
    = Ok (no_rendering f)
    /\ In [App.Text "Ali Hassan"; App.Int 35; App.Text "0311-1111111"]
          (App.records f)
    /\ ~ In [App.Text "Ayesha Khan"; App.Int 28; App.Text "0312-2222222"]
            (App.records f).
Proof.
  destruct (cardiology_answer no_rendering seeded_db _ _ _
              "Show cardiology patients" eq_refl eq_refl eq_refl eq_refl)
    as (f & _ & Hrow & _ & Hsome).
  exists f.
  assert (Hl : exists p a d,
             In p (contents (App.patients seeded_db))
             /\ In a (contents (App.appointments seeded_db))
             /\ In d (contents (App.doctors seeded_db))
             /\ cardiology_link p a d
             /\ [App.Text "Ali Hassan"; App.Int 35; App.Text "0311-1111111"]
                = cardiology_row p).
  { eexists _, _, _. split; [left; reflexivity|].
    split; [left; reflexivity|]. split; [left; reflexivity|].
    split; [|reflexivity]. repeat split; reflexivity. }
  split; [|split].
  - apply Hsome. destruct Hl as (p & a & d & Hp & Ha & Hd & H & _).
    exists p, a, d. auto.
  - apply Hrow. exact Hl.
  - intros H. apply Hrow in H.
    destruct H as (p & a & d & Hp & Ha & Hd & (E1 & E2 & E3) & Er).
    cbn in Hp, Ha, Hd.
    repeat (destruct Hp as [<- | Hp]; [try discriminate Er|]);
      [|contradiction].
    repeat (destruct Ha as [<- | Ha]; [try discriminate E1|]);
      [|contradiction].
    repeat (destruct Hd as [<- | Hd];
            [first [discriminate E2 | vm_compute in E3; discriminate E3]|]).
    contradiction.
Defined.
